(** * ResuAI semantic scoring: a shallow embedding of the Python sources

    Embedded files:
    - [semantic_engine.py]  (class [UniversitySemanticEngine])
    - [enhanced_assessment_engine.py]  (class [EnhancedUniversityAssessmentEngine])

    Conventions of the embedding.
    - Python floats and NumPy scalars are idealised as real numbers ([R]):
      rounding error of the binary formats is not modelled, while Python's
      [round], [min] and [max] are.
    - A [try: ... except Exception] block is an [outcome]: [Ok v] or
      [Raise msg], [msg] standing for [str(e)].
    - Dictionaries with arbitrary keys are [gmap string _]; JSON-like
      candidate and job data are [pyval].
    - A text is a string of 8-bit characters: for ASCII text, characters,
      code points and the bytes of [text.encode()] coincide.
    - Wall-clock fields ([assessment_timestamp], [assessment_time_seconds])
      and logging have no influence on any other field and are left out;
      the one log call a statement is about (the weight warning) is returned
      explicitly.
    - The cache directory is a [disk]: the files by path, each a pickled
      dictionary of embeddings or bytes that cannot be unpickled, and the
      paths that cannot be opened for writing. Module-level variables
      ([_semantic_engine]) are passed in and out. *)

From Stdlib Require Import ZArith List String Ascii Bool Reals Lra Lia.
From stdpp Require Import gmap strings pretty.

Local Open Scope R_scope.
#[local] Set Warnings "-register-all".

(* ===================================================================== *)
(** ** Python numerics over the reals *)
(* ===================================================================== *)

Module PyNum.

(** Round to the nearest integer, ties to the even neighbour: what
    [round(x)] and [round(x, n)] do on the decimal grid. *)
Definition round_half_even (x : R) : Z :=
  let f := Zfloor x in
  let r := x - IZR f in
  if Rlt_dec r (1 / 2) then f
  else if Rlt_dec (1 / 2) r then (f + 1)%Z
  else if Z.even f then f else (f + 1)%Z.

(** [round(x, ndigits)] *)
Definition py_round (x : R) (ndigits : nat) : R :=
  IZR (round_half_even (x * 10 ^ ndigits)) / 10 ^ ndigits.

(** [max(0, min(100, x))]-style clamps: [min(a, b)] returns [b] only when
    [b < a], [max(a, b)] returns [b] only when [b > a]. *)
Definition py_min (a b : R) : R := if Rlt_dec b a then b else a.
Definition py_max (a b : R) : R := if Rlt_dec a b then b else a.

End PyNum.

(* ===================================================================== *)
(** ** [hashlib.md5]

    The engine calls [hashlib.md5] for cache keys and for the hash-based
    vector of [encode_text]; the digest function is written out here after
    RFC 1321, on bytes as integers in [0, 256) and 32-bit words with their
    wrap-around explicit. *)
(* ===================================================================== *)

Module MD5.

Local Open Scope Z_scope.

Definition w32 (x : Z) : Z := Z.land x 0xFFFFFFFF.

Definition not32 (x : Z) : Z := Z.lxor x 0xFFFFFFFF.

Definition rotl (x c : Z) : Z :=
  w32 (Z.lor (Z.shiftl x c) (Z.shiftr x (32 - c))).

Definition sines : list Z :=
  [ 0xd76aa478; 0xe8c7b756; 0x242070db; 0xc1bdceee;
    0xf57c0faf; 0x4787c62a; 0xa8304613; 0xfd469501;
    0x698098d8; 0x8b44f7af; 0xffff5bb1; 0x895cd7be;
    0x6b901122; 0xfd987193; 0xa679438e; 0x49b40821;
    0xf61e2562; 0xc040b340; 0x265e5a51; 0xe9b6c7aa;
    0xd62f105d; 0x02441453; 0xd8a1e681; 0xe7d3fbc8;
    0x21e1cde6; 0xc33707d6; 0xf4d50d87; 0x455a14ed;
    0xa9e3e905; 0xfcefa3f8; 0x676f02d9; 0x8d2a4c8a;
    0xfffa3942; 0x8771f681; 0x6d9d6122; 0xfde5380c;
    0xa4beea44; 0x4bdecfa9; 0xf6bb4b60; 0xbebfbc70;
    0x289b7ec6; 0xeaa127fa; 0xd4ef3085; 0x04881d05;
    0xd9d4d039; 0xe6db99e5; 0x1fa27cf8; 0xc4ac5665;
    0xf4292244; 0x432aff97; 0xab9423a7; 0xfc93a039;
    0x655b59c3; 0x8f0ccc92; 0xffeff47d; 0x85845dd1;
    0x6fa87e4f; 0xfe2ce6e0; 0xa3014314; 0x4e0811a1;
    0xf7537e82; 0xbd3af235; 0x2ad7d2bb; 0xeb86d391 ].

Definition shifts : list Z :=
  [ 7; 12; 17; 22; 7; 12; 17; 22; 7; 12; 17; 22; 7; 12; 17; 22;
    5; 9; 14; 20; 5; 9; 14; 20; 5; 9; 14; 20; 5; 9; 14; 20;
    4; 11; 16; 23; 4; 11; 16; 23; 4; 11; 16; 23; 4; 11; 16; 23;
    6; 10; 15; 21; 6; 10; 15; 21; 6; 10; 15; 21; 6; 10; 15; 21 ].

(** [n] little-endian bytes of [x] *)
Fixpoint le_bytes (n : nat) (x : Z) : list Z :=
  match n with
  | O => []
  | S n' => Z.land x 255 :: le_bytes n' (Z.shiftr x 8)
  end.

Fixpoint le_words (bs : list Z) : list Z :=
  match bs with
  | b0 :: b1 :: b2 :: b3 :: rest =>
      (b0 + Z.shiftl b1 8 + Z.shiftl b2 16 + Z.shiftl b3 24) :: le_words rest
  | _ => []
  end.

(** The message, a [1] bit, zeros up to 56 modulo 64 bytes, and the length
    in bits as a 64-bit little-endian integer. *)
Definition pad (msg : list Z) : list Z :=
  let len := Z.of_nat (length msg) in
  msg ++ [0x80] ++ repeat 0 (Z.to_nat ((55 - len) mod 64))
      ++ le_bytes 8 (8 * len).

Definition md5_state : Type := Z * Z * Z * Z.

Definition init_state : md5_state :=
  (0x67452301, 0xefcdab89, 0x98badcfe, 0x10325476).

Definition step (M : list Z) (st : md5_state) (i : nat) : md5_state :=
  let '(a, b, c, d) := st in
  let iz := Z.of_nat i in
  let '(f, g) :=
    if iz <? 16 then (Z.lor (Z.land b c) (Z.land (not32 b) d), iz)
    else if iz <? 32 then
      (Z.lor (Z.land d b) (Z.land (not32 d) c), (5 * iz + 1) mod 16)
    else if iz <? 48 then (Z.lxor (Z.lxor b c) d, (3 * iz + 5) mod 16)
    else (Z.lxor c (Z.lor b (not32 d)), (7 * iz) mod 16) in
  let f' := w32 (f + a + nth i sines 0 + nth (Z.to_nat g) M 0) in
  (d, w32 (b + rotl f' (nth i shifts 0)), b, c).

Definition block (M : list Z) (st : md5_state) : md5_state :=
  let '(a0, b0, c0, d0) := st in
  let '(a, b, c, d) := fold_left (step M) (seq 0 64) st in
  (w32 (a0 + a), w32 (b0 + b), w32 (c0 + c), w32 (d0 + d)).

Fixpoint blocks (n : nat) (ws : list Z) (st : md5_state) : md5_state :=
  match n with
  | O => st
  | S n' => blocks n' (skipn 16 ws) (block (firstn 16 ws) st)
  end.

(** [hashlib.md5(msg).digest()]: 16 bytes *)
Definition digest (msg : list Z) : list Z :=
  let ws := le_words (pad msg) in
  let '(a, b, c, d) := blocks (length ws / 16) ws init_state in
  le_bytes 4 a ++ le_bytes 4 b ++ le_bytes 4 c ++ le_bytes 4 d.

(** [str.encode()] on a text of 8-bit characters *)
Definition encode (s : string) : list Z :=
  map (fun a => Z.of_nat (nat_of_ascii a)) (list_ascii_of_string s).

Definition hex_digit (x : Z) : ascii :=
  nth (Z.to_nat x) (list_ascii_of_string "0123456789abcdef") "0"%char.

Definition hex_of_bytes (bs : list Z) : string :=
  string_of_list_ascii
    (flat_map (fun b => [hex_digit (Z.shiftr b 4); hex_digit (Z.land b 15)]) bs).

(** [hashlib.md5(msg).hexdigest()] *)
Definition hexdigest (msg : list Z) : string := hex_of_bytes (digest msg).

End MD5.

(* ===================================================================== *)
(** ** Python values and exceptions *)
(* ===================================================================== *)

Module Py.

Local Open Scope string_scope.

(** The result of a computation that may raise: [Raise msg] carries
    [str(e)]. *)
Inductive outcome (A : Type) : Type :=
| Ok (a : A)
| Raise (msg : string).

Arguments Ok {A} a.
Arguments Raise {A} msg.

#[export] Instance outcome_ret : MRet outcome := fun A a => Ok a.

#[export] Instance outcome_bind : MBind outcome := fun A B k m =>
  match m with
  | Ok a => k a
  | Raise msg => Raise msg
  end.

(** [try: m  except Exception: d] *)
Definition catch {A : Type} (m : outcome A) (d : string -> A) : A :=
  match m with
  | Ok a => a
  | Raise msg => d msg
  end.

(** JSON-like data as the engines receive it: [None], booleans, integers,
    floats, strings, lists, and dictionaries with string keys. *)
Inductive pyval : Type :=
| PNone
| PBool (b : bool)
| PInt (z : Z)
| PFloat (r : R)
| PStr (s : string)
| PList (l : list pyval)
| PDict (d : list (string * pyval)).

Definition pydict : Type := list (string * pyval).

(** What CPython's formatting and parsing of floats and the [repr] of
    containers return is not fixed here: the engine only splices these
    strings into the text it embeds. *)
Class PyRuntime : Type := {
  repr_float : R -> string;            (* str(x) for a float x *)
  repr_container : pyval -> string;    (* str(v) for a list or dict v *)
  float_of_str : string -> option R;   (* float(s), None when it raises *)
  format_1f : R -> string              (* f"{x:.1f}" *)
}.

(** Truth value of [v] in [if v], [not v], [a or b], [a and b]. *)
Definition truthy (v : pyval) : bool :=
  match v with
  | PNone => false
  | PBool b => b
  | PInt z => negb (z =? 0)%Z
  | PFloat r => if Req_dec_T r 0 then false else true
  | PStr s => negb (String.eqb s "")
  | PList l => match l with [] => false | _ => true end
  | PDict d => match d with [] => false | _ => true end
  end.

(** [d.get(key, default)] *)
Fixpoint dict_get (d : pydict) (key : string) (default : pyval) : pyval :=
  match d with
  | [] => default
  | (k, v) :: rest => if String.eqb k key then v else dict_get rest key default
  end.

(** [v.get(key, default)] on a value that need not be a dictionary *)
Definition py_get (v : pyval) (key : string) (default : pyval) : outcome pyval :=
  match v with
  | PDict d => Ok (dict_get d key default)
  | _ => Raise "object has no attribute 'get'"
  end.

Definition isinstance_list (v : pyval) : bool :=
  match v with PList _ => true | _ => false end.

Definition isinstance_dict (v : pyval) : bool :=
  match v with PDict _ => true | _ => false end.

(** [v == s] and [v != s] for a string literal [s] *)
Definition py_eq_str (v : pyval) (s : string) : bool :=
  match v with PStr t => String.eqb t s | _ => false end.

Definition py_ne_str (v : pyval) (s : string) : bool := negb (py_eq_str v s).

(** [v[:n]] *)
Definition py_slice_to (n : nat) (v : pyval) : outcome pyval :=
  match v with
  | PStr s => Ok (PStr (String.substring 0 n s))
  | PList l => Ok (PList (firstn n l))
  | _ => Raise "object is not subscriptable"
  end.

(** The items a [for] loop over [v] visits *)
Definition py_iter (v : pyval) : outcome (list pyval) :=
  match v with
  | PList l => Ok l
  | PStr s => Ok (map (fun c => PStr (String c "")) (list_ascii_of_string s))
  | PDict d => Ok (map (fun kv => PStr (fst kv)) d)
  | _ => Raise "object is not iterable"
  end.

(** A loop whose body appends to a list and may raise *)
Fixpoint for_each {A : Type} (body : pyval -> outcome (list A))
    (items : list pyval) : outcome (list A) :=
  match items with
  | [] => Ok []
  | x :: rest =>
      match body x with
      | Ok here =>
          match for_each body rest with
          | Ok later => Ok (here ++ later)%list
          | Raise msg => Raise msg
          end
      | Raise msg => Raise msg
      end
  end.

Section WithRuntime.
Context `{PyRuntime}.

(** [str(v)], as an f-string splices [v] *)
Definition py_str (v : pyval) : string :=
  match v with
  | PNone => "None"
  | PBool true => "True"
  | PBool false => "False"
  | PInt z => pretty z
  | PFloat r => repr_float r
  | PStr s => s
  | PList _ | PDict _ => repr_container v
  end.

(** [float(v)], [None] when it raises *)
Definition py_float (v : pyval) : option R :=
  match v with
  | PBool b => Some (if b then 1 else 0)%R
  | PInt z => Some (IZR z)
  | PFloat r => Some r
  | PStr s => float_of_str s
  | PNone | PList _ | PDict _ => None
  end.

End WithRuntime.

(** [s.strip()] *)
Definition is_space (c : ascii) : bool :=
  let n := nat_of_ascii c in
  ((9 <=? n) && (n <=? 13) || (n =? 32) || (28 <=? n) && (n <=? 31))%nat.

Fixpoint lstrip_chars (cs : list ascii) : list ascii :=
  match cs with
  | [] => []
  | c :: rest => if is_space c then lstrip_chars rest else cs
  end.

Definition strip (s : string) : string :=
  string_of_list_ascii
    (rev (lstrip_chars (rev (lstrip_chars (list_ascii_of_string s))))).

(** [sep.join(parts)] *)
Definition join (sep : string) (parts : list string) : string :=
  String.concat sep parts.

Definition len (s : string) : nat := String.length s.

End Py.

(* ===================================================================== *)
(** ** [semantic_engine.py]: class [UniversitySemanticEngine] *)
(* ===================================================================== *)

Module SemanticEngine.

Import Py.

(** An embedding: a one-dimensional array of floats *)
Definition vec : Type := list R.

(** The engine object. [deps_available] is the module-level flag
    [SEMANTIC_DEPENDENCIES_AVAILABLE], set by the guarded import of
    [sentence_transformers] and [faiss]; [model] is [self.model], [None]
    when no transformer could be loaded, and otherwise stands for
    [self.model.encode(text, normalize_embeddings=True)], which may raise. *)
Record engine : Type := {
  deps_available : bool;
  model_name : string;
  model : option (string -> outcome vec);
  job_embeddings_cache : gmap string vec;
  candidate_embeddings_cache : gmap string vec;
  max_sequence_length : nat;
  similarity_threshold : R
}.

Definition with_job_cache (c : gmap string vec) (e : engine) : engine :=
  {| deps_available := deps_available e;
     model_name := model_name e;
     model := model e;
     job_embeddings_cache := c;
     candidate_embeddings_cache := candidate_embeddings_cache e;
     max_sequence_length := max_sequence_length e;
     similarity_threshold := similarity_threshold e |}.

Definition with_candidate_cache (c : gmap string vec) (e : engine) : engine :=
  {| deps_available := deps_available e;
     model_name := model_name e;
     model := model e;
     job_embeddings_cache := job_embeddings_cache e;
     candidate_embeddings_cache := c;
     max_sequence_length := max_sequence_length e;
     similarity_threshold := similarity_threshold e |}.

(** [_initialize_model]: [load name] stands for [SentenceTransformer(name)],
    which may raise. Returns [self.model] and [self.model_name]. *)
Definition fallback_model : string := "all-mpnet-base-v2".

Definition _initialize_model (deps : bool)
    (load : string -> outcome (string -> outcome vec)) (name : string)
    : option (string -> outcome vec) * string :=
  if negb deps then (None, name)
  else
    match load name with
    | Ok m => (Some m, name)
    | Raise _ =>
        match load fallback_model with
        | Ok m => (Some m, fallback_model)
        | Raise _ => (None, name)
        end
    end.

(** [__init__]. ([get_semantic_engine] then fills the caches from disk:
    the statements below hold for every content of the caches.) *)
Definition init (deps : bool)
    (load : string -> outcome (string -> outcome vec)) (name : string)
    : engine :=
  let '(m, name') := _initialize_model deps load name in
  {| deps_available := deps;
     model_name := name';
     model := m;
     job_embeddings_cache := ∅;
     candidate_embeddings_cache := ∅;
     max_sequence_length := 512;
     similarity_threshold := 0.3 |}.

(** A method that reads and updates the engine *)
Definition EngM (A : Type) : Type := engine -> A * engine.

(** [is_available] *)
Definition is_available (e : engine) : bool := deps_available e.

(** [_generate_cache_key] *)
Definition _generate_cache_key (e : engine) (text context : string) : string :=
  MD5.hexdigest (MD5.encode (text +:+ "_" +:+ context +:+ "_" +:+ model_name e)).

(** [np.dot] on two one-dimensional arrays of the same length *)
Fixpoint dot (a b : vec) : R :=
  match a, b with
  | x :: a', y :: b' => x * y + dot a' b'
  | _, _ => 0
  end.

(** [np.linalg.norm] *)
Definition norm (v : vec) : R := sqrt (dot v v).

(** The branch of [encode_text] taken when the engine is not available:
    the 16 bytes of the MD5 digest as floats, padded with zeros to 384
    entries, divided by their norm when it is positive. *)
Definition hash_vector (text : string) : vec :=
  let hash_bytes := MD5.digest (MD5.encode text) in
  let vector := map IZR hash_bytes in
  let vector :=
    if (length vector <? 384)%nat
    then vector ++ repeat 0 (384 - length vector)
    else firstn 384 vector in
  let nrm := norm vector in
  if Rlt_dec 0 nrm then map (fun x => x / nrm) vector else vector.

(** [encode_text] *)
Definition encode_text (text context : string) (use_cache : bool)
    : EngM (option vec) := fun e =>
  if negb (is_available e) then (Some (hash_vector text), e)
  else
    let cache_key := _generate_cache_key e text context in
    let cached :=
      if use_cache then candidate_embeddings_cache e !! cache_key else None in
    match cached with
    | Some embedding => (Some embedding, e)
    | None =>
        let text :=
          if (max_sequence_length e <? len text)%nat
          then String.substring 0 (max_sequence_length e) text
          else text in
        match model e with
        | None => (None, e)
        | Some encode =>
            match encode text with
            | Ok embedding =>
                (Some embedding,
                 if use_cache
                 then with_candidate_cache
                        (<[cache_key := embedding]> (candidate_embeddings_cache e)) e
                 else e)
            | Raise _ => (None, e)
            end
        end
    end.

(** [calculate_semantic_similarity]. [np.dot] raises on [None] and on
    arrays of different lengths; the handler returns [0.0]. *)
Definition np_dot (a b : option vec) : outcome R :=
  match a, b with
  | Some u, Some v =>
      if (length u =? length v)%nat then Ok (dot u v)
      else Raise "shapes not aligned"
  | _, _ => Raise "unsupported operand type(s) for *"
  end.

Definition calculate_semantic_similarity
    (candidate_embedding job_embedding : option vec) : R :=
  catch
    (similarity ← np_dot candidate_embedding job_embedding;
     Ok (PyNum.py_max 0 (PyNum.py_min 1 ((similarity + 1) / 2))))
    (fun _ => 0).

Section WithRuntime.
Context `{PyRuntime}.

(** [encode_job_requirements]: the text built from the job posting *)
Definition job_text_parts (job_data : pydict) : list string :=
  let title := dict_get job_data "title" (PStr "") in
  let description := dict_get job_data "description" (PStr "") in
  let requirements := dict_get job_data "requirements" (PStr "") in
  let department := dict_get job_data "department" (PStr "") in
  let experience_level := dict_get job_data "experience_level" (PStr "") in
  (if truthy title then ["Job Title: " +:+ py_str title] else [])
  ++ (if truthy department then ["Department: " +:+ py_str department] else [])
  ++ (if truthy experience_level
      then ["Experience Level: " +:+ py_str experience_level] else [])
  ++ (if truthy description then ["Description: " +:+ py_str description] else [])
  ++ (if truthy requirements
      then ["Requirements: " +:+ py_str requirements] else []).

Definition encode_job_requirements (job_data : pydict) : EngM (option vec) :=
  fun e =>
  if negb (is_available e) then (None, e)
  else
    let job_id := dict_get job_data "id" (PStr "unknown") in
    let job_text := join " | " (job_text_parts job_data) in
    let context := "job_" +:+ py_str job_id in
    let cache_key := _generate_cache_key e job_text context in
    match job_embeddings_cache e !! cache_key with
    | Some embedding => (Some embedding, e)
    | None =>
        let '(embedding, e1) := encode_text job_text context false e in
        match embedding with
        | Some v =>
            (Some v, with_job_cache (<[cache_key := v]> (job_embeddings_cache e1)) e1)
        | None => (None, e1)
        end
    end.

(** [encode_candidate_profile]: the parts of the profile text, section by
    section, in the order the method appends them. *)
Definition profile_education (candidate_data : pydict) : list string :=
  let educational_background :=
    dict_get candidate_data "educational_background" (PList []) in
  if negb (truthy educational_background) then
    let education := dict_get candidate_data "education" (PList []) in
    match education with
    | PList l =>
        flat_map (fun edu =>
          match edu with
          | PDict d =>
              let degree := dict_get d "degree" (PStr "") in
              let school := dict_get d "school" (PStr "") in
              let level := dict_get d "level" (PStr "") in
              if truthy degree || truthy school
              then ["Education: " +:+ py_str level +:+ " " +:+ py_str degree
                    +:+ " from " +:+ py_str school]
              else []
          | _ => []
          end) (firstn 4 l)
    | _ => []
    end
  else
    match educational_background with
    | PList l =>
        flat_map (fun edu =>
          match edu with
          | PDict d =>
              let level := dict_get d "level" (PStr "") in
              let degree_course :=
                dict_get d "degree_course" (dict_get d "degree" (PStr "")) in
              let school := dict_get d "school" (PStr "") in
              let honors := dict_get d "honors" (PStr "") in
              if truthy degree_course || truthy school
              then
                let edu_text :=
                  "Education: " +:+ py_str level +:+ " " +:+ py_str degree_course
                  +:+ " from " +:+ py_str school in
                [if truthy honors && py_ne_str honors "N/a"
                 then edu_text +:+ " with " +:+ py_str honors
                 else edu_text]
              else []
          | _ => []
          end) (firstn 4 l)
    | _ => []
    end.

Definition profile_experience (candidate_data : pydict) : outcome (list string) :=
  let work_experience := dict_get candidate_data "work_experience" (PList []) in
  if negb (truthy work_experience) then
    let experience := dict_get candidate_data "experience" (PList []) in
    match experience with
    | PList l =>
        for_each (fun exp =>
          match exp with
          | PDict d =>
              let position := dict_get d "position" (PStr "") in
              let company := dict_get d "company" (PStr "") in
              let description := dict_get d "description" (PStr "") in
              if truthy position || truthy company
              then
                let exp_text :=
                  "Experience: " +:+ py_str position +:+ " at " +:+ py_str company in
                if truthy description
                then
                  head ← py_slice_to 100 description;
                  Ok [exp_text +:+ " - " +:+ py_str head]
                else Ok [exp_text]
              else Ok []
          | _ => Ok []
          end) (firstn 4 l)
    | _ => Ok []
    end
  else
    match work_experience with
    | PList l =>
        Ok (flat_map (fun exp =>
          match exp with
          | PDict d =>
              let position := dict_get d "position" (PStr "") in
              let company := dict_get d "company" (PStr "") in
              let grade := dict_get d "grade" (PStr "") in
              if truthy position || truthy company
              then
                let exp_text :=
                  "Experience: " +:+ py_str position +:+ " at " +:+ py_str company in
                [if truthy grade && py_ne_str grade "N/A"
                 then exp_text +:+ " (" +:+ py_str grade +:+ ")"
                 else exp_text]
              else []
          | _ => []
          end) (firstn 4 l))
    | _ => Ok []
    end.

Definition profile_training (candidate_data : pydict) : outcome (list string) :=
  let learning_development :=
    dict_get candidate_data "learning_development" (PList []) in
  if negb (truthy learning_development) then
    let training := dict_get candidate_data "training" (PList []) in
    match training with
    | PList l =>
        Ok (flat_map (fun cert =>
          match cert with
          | PDict d =>
              let title := dict_get d "title" (PStr "") in
              if truthy title then ["Training: " +:+ py_str title] else []
          | _ => []
          end) (firstn 3 l))
    | _ => Ok []
    end
  else
    sliced ← py_slice_to 3 learning_development;
    items ← py_iter sliced;
    Ok (flat_map (fun train =>
      match train with
      | PDict d =>
          let title := dict_get d "title" (PStr "") in
          let type_info := dict_get d "type" (PStr "") in
          let hours := dict_get d "hours" (PStr "") in
          if truthy title
          then
            let t0 := "Training: " +:+ py_str title in
            let t1 := if truthy type_info && py_ne_str type_info "N/a"
                      then t0 +:+ " (" +:+ py_str type_info +:+ ")" else t0 in
            [if truthy hours then t1 +:+ " - " +:+ py_str hours +:+ " hours" else t1]
          else []
      | _ => []
      end) items).

Definition profile_eligibility (candidate_data : pydict) : list string :=
  let civil_service :=
    dict_get candidate_data "civil_service_eligibility" (PList []) in
  match civil_service with
  | PList l =>
      flat_map (fun elig =>
        match elig with
        | PDict d =>
            let eligibility := dict_get d "eligibility" (PStr "") in
            let rating := dict_get d "rating" (PStr "") in
            if truthy eligibility
            then
              let elig_text := "Eligibility: " +:+ py_str eligibility in
              [if truthy rating && py_ne_str rating ""
               then
                 match py_float rating with
                 | Some r =>
                     elig_text +:+ " (Rating: " +:+ format_1f (r * 100) +:+ "%)"
                 | None => elig_text
                 end
               else elig_text]
            else []
        | _ => []
        end) (firstn 2 l)
  | _ => []
  end.

Definition profile_personal_info (candidate_data : pydict) : outcome (list string) :=
  let pds_data := dict_get candidate_data "pds_data" (PDict []) in
  match pds_data with
  | PDict d =>
      let personal_info := dict_get d "personal_info" (PDict []) in
      if truthy personal_info
      then
        citizenship ← py_get personal_info "citizenship" (PStr "");
        if truthy citizenship && py_ne_str citizenship "N/a"
           && py_ne_str citizenship "please indicate the details."
        then Ok ["Citizenship: " +:+ py_str citizenship]
        else Ok []
      else Ok []
  | _ => Ok []
  end.

Definition candidate_profile_parts (candidate_data : pydict)
    : outcome (list string) :=
  let edu := profile_education candidate_data in
  exp ← profile_experience candidate_data;
  train ← profile_training candidate_data;
  let elig := profile_eligibility candidate_data in
  info ← profile_personal_info candidate_data;
  Ok (edu ++ exp ++ train ++ elig ++ info).

(** [encode_candidate_profile] *)
Definition encode_candidate_profile (candidate_data : pydict)
    : EngM (option vec) := fun e =>
  if negb (is_available e) then (None, e)
  else
    let candidate_id := dict_get candidate_data "id" (PStr "unknown") in
    match candidate_profile_parts candidate_data with
    | Raise _ => (None, e)
    | Ok profile_parts =>
        let candidate_text := join " | " profile_parts in
        if negb (truthy (PStr (strip candidate_text))) then (None, e)
        else encode_text candidate_text ("candidate_" +:+ py_str candidate_id) true e
    end.

(** The common tail of the three category scorers: nothing to compare
    gives [0.0]; otherwise both texts are encoded, the candidate's first,
    and a missing embedding gives [0.0]. *)
Definition relevance_of_texts (texts : list string) (job_text : string)
    (context job_context : string) : EngM R := fun e =>
  match texts with
  | [] => (0, e)
  | _ :: _ =>
      let '(embedding, e1) := encode_text (join " | " texts) context true e in
      let '(job_embedding, e2) := encode_text job_text job_context true e1 in
      match embedding, job_embedding with
      | Some _, Some _ =>
          (calculate_semantic_similarity embedding job_embedding, e2)
      | _, _ => (0, e2)
      end
  end.

(** [_calculate_education_relevance] *)
Definition education_texts (candidate_data : pydict) : outcome (list string) :=
  let educational_background :=
    dict_get candidate_data "educational_background" (PList []) in
  let education := dict_get candidate_data "education" (PList []) in
  if truthy educational_background && isinstance_list educational_background
  then
    items ← py_iter educational_background;
    Ok (flat_map (fun edu =>
      match edu with
      | PDict d =>
          let level := dict_get d "level" (PStr "") in
          let degree_course :=
            dict_get d "degree_course" (dict_get d "degree" (PStr "")) in
          let school := dict_get d "school" (PStr "") in
          let honors := dict_get d "honors" (PStr "") in
          let year_graduated := dict_get d "year_graduated" (PStr "") in
          if truthy degree_course || truthy school
          then
            let t0 := py_str level +:+ " " +:+ py_str degree_course
                      +:+ " from " +:+ py_str school in
            let t1 := if truthy honors && py_ne_str honors "N/a"
                         && py_ne_str honors ""
                      then t0 +:+ " with " +:+ py_str honors else t0 in
            [if truthy year_graduated
             then t1 +:+ " (graduated " +:+ py_str year_graduated +:+ ")"
             else t1]
          else []
      | _ => []
      end) (firstn 4 items))
  else if truthy education
  then
    sliced ← py_slice_to 4 education;
    items ← py_iter sliced;
    Ok (flat_map (fun edu =>
      match edu with
      | PDict d =>
          let degree := dict_get d "degree" (PStr "") in
          let school := dict_get d "school" (PStr "") in
          let level := dict_get d "level" (PStr "") in
          if truthy degree || truthy school
          then [strip (py_str level +:+ " " +:+ py_str degree
                       +:+ " from " +:+ py_str school)]
          else []
      | _ => []
      end) items)
  else Ok [].

Definition _calculate_education_relevance (candidate_data job_data : pydict)
    : EngM R := fun e =>
  match education_texts candidate_data with
  | Raise _ => (0, e)
  | Ok texts =>
      let job_text :=
        py_str (dict_get job_data "title" (PStr "")) +:+ " "
        +:+ py_str (dict_get job_data "requirements" (PStr "")) in
      relevance_of_texts texts job_text "education" "job_edu_comparison" e
  end.

(** [_calculate_experience_relevance] *)
Definition experience_texts (candidate_data : pydict) : outcome (list string) :=
  let work_experience := dict_get candidate_data "work_experience" (PList []) in
  let experience := dict_get candidate_data "experience" (PList []) in
  if truthy work_experience && isinstance_list work_experience
  then
    items ← py_iter work_experience;
    Ok (flat_map (fun exp =>
      match exp with
      | PDict d =>
          let position := dict_get d "position" (PStr "") in
          let company := dict_get d "company" (PStr "") in
          let grade := dict_get d "grade" (PStr "") in
          let date_from := dict_get d "date_from" (PStr "") in
          let date_to := dict_get d "date_to" (PStr "") in
          if truthy position || truthy company
          then
            let t0 := py_str position +:+ " at " +:+ py_str company in
            let t1 := if truthy grade && py_ne_str grade "N/A"
                      then t0 +:+ " (Grade: " +:+ py_str grade +:+ ")" else t0 in
            [if truthy date_from || truthy date_to
             then t1 +:+ " (" +:+ py_str date_from +:+ " to "
                  +:+ py_str date_to +:+ ")"
             else t1]
          else []
      | _ => []
      end) (firstn 4 items))
  else if truthy experience
  then
    sliced ← py_slice_to 4 experience;
    items ← py_iter sliced;
    for_each (fun exp =>
      match exp with
      | PDict d =>
          let position := dict_get d "position" (PStr "") in
          let description := dict_get d "description" (PStr "") in
          if truthy position || truthy description
          then
            head ← py_slice_to 100 description;
            Ok [strip (py_str position +:+ " - " +:+ py_str head)]
          else Ok []
      | _ => Ok []
      end) items
  else Ok [].

Definition broad_job_text (job_data : pydict) : string :=
  py_str (dict_get job_data "title" (PStr "")) +:+ " "
  +:+ py_str (dict_get job_data "description" (PStr "")) +:+ " "
  +:+ py_str (dict_get job_data "requirements" (PStr "")).

Definition _calculate_experience_relevance (candidate_data job_data : pydict)
    : EngM R := fun e =>
  match experience_texts candidate_data with
  | Raise _ => (0, e)
  | Ok texts =>
      relevance_of_texts texts (broad_job_text job_data)
        "experience" "job_exp_comparison" e
  end.

(** [_calculate_training_relevance]. [train_text = title] keeps the title
    as it is, so a title that is not a string makes [+=] or the final
    [join] raise. *)
Definition training_texts (candidate_data : pydict) : outcome (list string) :=
  let learning_development :=
    dict_get candidate_data "learning_development" (PList []) in
  let training := dict_get candidate_data "training" (PList []) in
  if truthy learning_development
  then
    sliced ← py_slice_to 5 learning_development;
    items ← py_iter sliced;
    for_each (fun train =>
      match train with
      | PDict d =>
          let title := dict_get d "title" (PStr "") in
          let type_info := dict_get d "type" (PStr "") in
          let conductor := dict_get d "conductor" (PStr "") in
          let hours := dict_get d "hours" (PStr "") in
          if truthy title
          then
            match title with
            | PStr t0 =>
                let t1 := if truthy type_info && py_ne_str type_info "N/a"
                          then t0 +:+ " (" +:+ py_str type_info +:+ ")" else t0 in
                let t2 := if truthy conductor
                          then t1 +:+ " by " +:+ py_str conductor else t1 in
                Ok [if truthy hours
                    then t2 +:+ " - " +:+ py_str hours +:+ " hours" else t2]
            | _ => Raise "sequence item: expected str instance"
            end
          else Ok []
      | _ => Ok []
      end) items
  else if truthy training
  then
    sliced ← py_slice_to 5 training;
    items ← py_iter sliced;
    for_each (fun train =>
      match train with
      | PDict d =>
          let title := dict_get d "title" (PStr "") in
          let type_info := dict_get d "type" (PStr "") in
          if truthy title
          then
            match title with
            | PStr t0 =>
                Ok [if truthy type_info
                    then t0 +:+ " (" +:+ py_str type_info +:+ ")" else t0]
            | _ => Raise "sequence item: expected str instance"
            end
          else Ok []
      | _ => Ok []
      end) items
  else Ok [].

Definition _calculate_training_relevance (candidate_data job_data : pydict)
    : EngM R := fun e =>
  match training_texts candidate_data with
  | Raise _ => (0, e)
  | Ok texts =>
      relevance_of_texts texts (broad_job_text job_data)
        "training" "job_training_comparison" e
  end.

(** The dictionary [calculate_detailed_semantic_score] returns: the four
    scores always, then either an ['error'] entry or the threshold and the
    model name. *)
Record semantic_details : Type := {
  overall_score : R;
  education_relevance : R;
  experience_relevance : R;
  training_relevance : R;
  error : option string;
  details_threshold : option R;
  model_used : option string
}.

Definition error_details (msg : string) : semantic_details :=
  {| overall_score := 0; education_relevance := 0;
     experience_relevance := 0; training_relevance := 0;
     error := Some msg; details_threshold := None; model_used := None |}.

(** [calculate_detailed_semantic_score]. Every call in its [try] block
    handles its own exceptions, so the outer handler is never entered. *)
Definition calculate_detailed_semantic_score (candidate_data job_data : pydict)
    : EngM semantic_details := fun e =>
  if negb (is_available e) then (error_details "Semantic engine not available", e)
  else
    let '(candidate_embedding, e1) := encode_candidate_profile candidate_data e in
    let '(job_embedding, e2) := encode_job_requirements job_data e1 in
    match candidate_embedding, job_embedding with
    | Some _, Some _ =>
        let overall := calculate_semantic_similarity candidate_embedding job_embedding in
        let '(education_score, e3) :=
          _calculate_education_relevance candidate_data job_data e2 in
        let '(experience_score, e4) :=
          _calculate_experience_relevance candidate_data job_data e3 in
        let '(training_score, e5) :=
          _calculate_training_relevance candidate_data job_data e4 in
        ({| overall_score := PyNum.py_round overall 3;
            education_relevance := PyNum.py_round education_score 3;
            experience_relevance := PyNum.py_round experience_score 3;
            training_relevance := PyNum.py_round training_score 3;
            error := None;
            details_threshold := Some (similarity_threshold e5);
            model_used := Some (model_name e5) |}, e5)
    | _, _ => (error_details "Failed to generate embeddings", e2)
    end.

End WithRuntime.

End SemanticEngine.

(* ===================================================================== *)
(** ** [enhanced_assessment_engine.py]:
       class [EnhancedUniversityAssessmentEngine] *)
(* ===================================================================== *)

Module EnhancedEngine.

Import Py.

(** The engine object: the semantic engine it holds, the semantic weights
    and the counters of [assessment_stats]. ([university_weights] is set by
    [__init__] and read by none of the methods below.) *)
Record engine : Type := {
  semantic_engine : SemanticEngine.engine;
  semantic_weights : gmap string R;
  assessment_stats : gmap string Z
}.

Definition with_semantic_engine (se : SemanticEngine.engine) (st : engine) : engine :=
  {| semantic_engine := se;
     semantic_weights := semantic_weights st;
     assessment_stats := assessment_stats st |}.

Definition with_weights (w : gmap string R) (st : engine) : engine :=
  {| semantic_engine := semantic_engine st;
     semantic_weights := w;
     assessment_stats := assessment_stats st |}.

(** [self.assessment_stats[key] += 1] *)
Definition bump (key : string) (st : engine) : engine :=
  {| semantic_engine := semantic_engine st;
     semantic_weights := semantic_weights st;
     assessment_stats := alter Z.succ key (assessment_stats st) |}.

Definition default_weights : gmap string R :=
  <["education_relevance" := 0.35]>
  (<["experience_relevance" := 0.45]>
  (<["training_relevance" := 0.15]>
  (<["overall_quality_bonus" := 0.05]> ∅))).

Definition initial_stats : gmap string Z :=
  <["total_assessments" := 0%Z]>
  (<["semantic_assessments" := 0%Z]>
  (<["traditional_assessments" := 0%Z]>
  (<["fallback_to_traditional" := 0%Z]> ∅))).

(** [__init__] *)
Definition init (se : SemanticEngine.engine) : engine :=
  {| semantic_engine := se;
     semantic_weights := default_weights;
     assessment_stats := initial_stats |}.

Definition EnhM (A : Type) : Type := engine -> A * engine.

(** [self.semantic_weights[key]], a [KeyError] when the key is absent *)
Definition weight (w : gmap string R) (key : string) : outcome R :=
  match w !! key with
  | Some x => Ok x
  | None => Raise ("'" +:+ key +:+ "'")
  end.

(** What [_calculate_semantic_assessment] returns *)
Record semantic_result : Type := {
  final_score : R;
  breakdown : pyval
}.

(** [round(x, ndigits)] stored in a dictionary *)
Definition rnd (x : R) (ndigits : nat) : pyval := PFloat (PyNum.py_round x ndigits).

(** The part of [_calculate_semantic_assessment] after the call to the
    semantic engine: from the detailed scores to the final score. *)
Definition score_details (w : gmap string R)
    (semantic_details : SemanticEngine.semantic_details)
    : outcome semantic_result :=
  match SemanticEngine.error semantic_details with
  | Some msg => Raise msg
  | None =>
      let education_relevance := SemanticEngine.education_relevance semantic_details in
      let experience_relevance := SemanticEngine.experience_relevance semantic_details in
      let training_relevance := SemanticEngine.training_relevance semantic_details in
      let overall_score := SemanticEngine.overall_score semantic_details in
      w_edu ← weight w "education_relevance";
      w_exp ← weight w "experience_relevance";
      w_train ← weight w "training_relevance";
      let weighted_score :=
        education_relevance * w_edu + experience_relevance * w_exp
        + training_relevance * w_train in
      w_bonus ← weight w "overall_quality_bonus";
      let quality_bonus := overall_score * w_bonus in
      let final_semantic_score := (weighted_score + quality_bonus) * 100 in
      let final_semantic_score :=
        PyNum.py_max 0 (PyNum.py_min 100 final_semantic_score) in
      Ok {| final_score := PyNum.py_round final_semantic_score 1;
            breakdown := PDict
              [ ("education_relevance", rnd education_relevance 3);
                ("experience_relevance", rnd experience_relevance 3);
                ("training_relevance", rnd training_relevance 3);
                ("overall_similarity", rnd overall_score 3);
                ("weighted_components", PDict
                  [ ("education_weighted", rnd (education_relevance * w_edu) 3);
                    ("experience_weighted", rnd (experience_relevance * w_exp) 3);
                    ("training_weighted", rnd (training_relevance * w_train) 3);
                    ("quality_bonus", rnd quality_bonus 3) ]);
                ("final_calculation", PDict
                  [ ("base_weighted_score", rnd weighted_score 3);
                    ("quality_bonus", rnd quality_bonus 3);
                    ("final_score_0_1", rnd (weighted_score + quality_bonus) 3);
                    ("final_score_0_100", rnd final_semantic_score 1) ]);
                ("weights_used",
                  PDict ((fun kv => (fst kv, PFloat (snd kv))) <$> map_to_list w));
                ("model_info", PDict
                  [ ("model_name",
                      PStr (default "unknown"
                              (SemanticEngine.model_used semantic_details)));
                    ("similarity_threshold",
                      PFloat (default 0.3
                                (SemanticEngine.details_threshold semantic_details))) ])
              ] |}
  end.

(** A result dictionary, built key by key as the methods do *)
Abbreviation result_dict := (gmap string pyval).

(** [result['errors'].append(msg)] *)
Definition append_error (msg : string) (result : result_dict) : result_dict :=
  alter (fun v => match v with
                  | PList l => PList (l ++ [PStr msg])
                  | _ => v
                  end) "errors" result.

Section WithCollaborators.
Context `{PyRuntime}.

(** [assess_candidate], inherited from [UniversityAssessmentEngine]: the
    rule-based scorer, an external collaborator. It returns a value
    (a dictionary when all goes well) or raises. *)
Variable assess_candidate : pydict -> pydict -> outcome pyval.

(** [_calculate_semantic_assessment] *)
Definition _calculate_semantic_assessment (candidate_data job_data : pydict)
    : EnhM (outcome semantic_result) := fun st =>
  let '(semantic_details, se) :=
    SemanticEngine.calculate_detailed_semantic_score candidate_data job_data
      (semantic_engine st) in
  (score_details (semantic_weights st) semantic_details,
   with_semantic_engine se st).

(** The dictionary [assess_candidate_enhanced] starts from *)
Definition initial_result (candidate_data job_data : pydict) : result_dict :=
  <["candidate_id" := dict_get candidate_data "id" PNone]>
  (<["job_id" := dict_get job_data "id" PNone]>
  (<["semantic_score" := PNone]>
  (<["traditional_score" := PNone]>
  (<["recommended_score" := PNone]>
  (<["assessment_method" := PStr "hybrid"]>
  (<["semantic_breakdown" := PDict []]>
  (<["traditional_breakdown" := PDict []]>
  (<["performance_metrics" := PDict []]>
  (<["errors" := PList []]> ∅))))))))).

(** The semantic block of [assess_candidate_enhanced] *)
Definition semantic_block (candidate_data job_data : pydict)
    (include_semantic include_traditional : bool) (result : result_dict)
    : EnhM result_dict := fun st =>
  if include_semantic && SemanticEngine.is_available (semantic_engine st)
  then
    match _calculate_semantic_assessment candidate_data job_data st with
    | (Ok semantic_result, st1) =>
        (<["assessment_method" := PStr "semantic"]>
         (<["recommended_score" := PFloat (final_score semantic_result)]>
         (<["semantic_breakdown" := breakdown semantic_result]>
         (<["semantic_score" := PFloat (final_score semantic_result)]> result))),
         bump "semantic_assessments" st1)
    | (Raise msg, st1) =>
        let result := append_error ("Semantic assessment failed: " +:+ msg) result in
        if include_traditional
        then (<["assessment_method" := PStr "traditional_fallback"]> result,
              bump "fallback_to_traditional" st1)
        else (result, st1)
    end
  else (result, st).

(** The traditional block of [assess_candidate_enhanced] *)
Definition traditional_entries (traditional_result : pyval) : outcome (pyval * pyval) :=
  final ← py_get traditional_result "final_score" (PInt 0);
  education ← py_get traditional_result "education_score" (PInt 0);
  experience ← py_get traditional_result "experience_score" (PInt 0);
  training ← py_get traditional_result "training_score" (PInt 0);
  eligibility ← py_get traditional_result "eligibility_score" (PInt 0);
  accomplishments ← py_get traditional_result "accomplishments_score" (PInt 0);
  Ok (final,
      PDict [ ("education_score", education);
              ("experience_score", experience);
              ("training_score", training);
              ("eligibility_score", eligibility);
              ("accomplishments_score", accomplishments) ]).

Definition is_none (v : option pyval) : bool :=
  match v with Some PNone => true | _ => false end.

Definition traditional_block (candidate_data job_data : pydict)
    (include_traditional : bool) (result : result_dict)
    : EnhM result_dict := fun st =>
  if include_traditional
  then
    match assess_candidate candidate_data job_data ≫= traditional_entries with
    | Ok (final, entries) =>
        let result :=
          <["traditional_breakdown" := entries]>
          (<["traditional_score" := final]> result) in
        let result :=
          if is_none (result !! "recommended_score")
          then <["assessment_method" := PStr "traditional"]>
               (<["recommended_score" := final]> result)
          else result in
        (result, bump "traditional_assessments" st)
    | Raise msg =>
        (append_error ("Traditional assessment failed: " +:+ msg) result, st)
    end
  else (result, st).

(** The closing steps of [assess_candidate_enhanced]: the performance
    metrics, and a recommended score in every case. *)
Definition performance_metrics (se : SemanticEngine.engine) : pyval :=
  PDict [ ("semantic_available", PBool (SemanticEngine.is_available se));
          ("model_used", PStr (SemanticEngine.model_name se)) ].

Definition ensure_recommended_score (result : result_dict) : result_dict :=
  if is_none (result !! "recommended_score")
  then append_error "No assessment method succeeded"
         (<["assessment_method" := PStr "failed"]>
         (<["recommended_score" := PInt 0]> result))
  else result.

(** [assess_candidate_enhanced] *)
Definition assess_candidate_enhanced (candidate_data job_data : pydict)
    (include_semantic include_traditional : bool) : EnhM result_dict := fun st =>
  let result := initial_result candidate_data job_data in
  let '(result, st1) :=
    semantic_block candidate_data job_data include_semantic include_traditional
      result st in
  let '(result, st2) :=
    traditional_block candidate_data job_data include_traditional result st1 in
  let result :=
    <["performance_metrics" := performance_metrics (semantic_engine st2)]> result in
  let result := ensure_recommended_score result in
  (result, bump "total_assessments" st2).

(** [batch_assess_candidates]: the dictionary stored for a candidate whose
    assessment raised *)
Definition error_result (i : nat) (candidate_data job_data : pydict)
    (msg : string) : result_dict :=
  <["candidate_id" :=
      dict_get candidate_data "id" (PStr ("unknown_" +:+ pretty i))]>
  (<["job_id" := dict_get job_data "id" PNone]>
  (<["recommended_score" := PInt 0]>
  (<["assessment_method" := PStr "failed"]>
  (<["errors" := PList [PStr ("Assessment failed: " +:+ msg)]]> ∅)))).

(** The loop of [batch_assess_candidates] over a method [assess] that may
    raise: [try: results.append(assess(...)) except Exception as e:
    results.append(error_result)], with [i] the index [enumerate] gives. *)
Fixpoint batch_loop
    (assess : pydict -> pydict -> bool -> bool -> EnhM (outcome result_dict))
    (i : nat) (candidates_data : list pydict) (job_data : pydict)
    (include_semantic : bool) : EnhM (list result_dict) := fun st =>
  match candidates_data with
  | [] => ([], st)
  | candidate_data :: rest =>
      let '(attempt, st1) :=
        assess candidate_data job_data include_semantic true st in
      let item := catch attempt (error_result i candidate_data job_data) in
      let '(results, st2) :=
        batch_loop assess (S i) rest job_data include_semantic st1 in
      (item :: results, st2)
  end.

(** The job embedding computed before the loop: only the cache of the
    semantic engine keeps it. *)
Definition precompute_job_embedding (job_data : pydict) (include_semantic : bool)
    : EnhM (option SemanticEngine.vec) := fun st =>
  if include_semantic && SemanticEngine.is_available (semantic_engine st)
  then
    let '(job_embedding, se) :=
      SemanticEngine.encode_job_requirements job_data (semantic_engine st) in
    (job_embedding, with_semantic_engine se st)
  else (None, st).

(** A method that returns, seen as one that may raise *)
Definition returning {A : Type} (m : EnhM A) : EnhM (outcome A) := fun st =>
  (Ok (fst (m st)), snd (m st)).

(** [batch_assess_candidates]. [assess_candidate_enhanced] handles every
    exception of its two paths itself and returns a dictionary for all
    dictionaries it is given, so the handler of the loop is there for a
    method that does raise. *)
Definition batch_assess_candidates (candidates_data : list pydict)
    (job_data : pydict) (include_semantic : bool) : EnhM (list result_dict) :=
  fun st =>
  let '(_, st0) := precompute_job_embedding job_data include_semantic st in
  batch_loop
    (fun c j s t => returning (assess_candidate_enhanced c j s t))
    0 candidates_data job_data include_semantic st0.

(** [update_semantic_weights]. The result carries whether the warning was
    logged. *)
Definition required_keys : list string :=
  [ "education_relevance"; "experience_relevance"; "skills_relevance";
    "overall_quality_bonus" ].

Definition missing_key (new_weights : gmap string R) : option string :=
  List.find (fun key => bool_decide (new_weights !! key = None)) required_keys.

Definition total_weight (new_weights : gmap string R) : R :=
  fold_left Rplus
    (map (fun key => default 0 (new_weights !! key)) (firstn 3 required_keys)) 0.

Definition update_semantic_weights (new_weights : gmap string R)
    : engine -> outcome (bool * engine) := fun st =>
  match missing_key new_weights with
  | Some key => Raise ("Missing required weight: " +:+ key)
  | None =>
      let total := total_weight new_weights in
      let warned :=
        if Rlt_dec total 0.8 then true
        else if Rlt_dec 1.2 total then true else false in
      Ok (warned, with_weights (new_weights ∪ semantic_weights st) st)
  end.

End WithCollaborators.

End EnhancedEngine.

(* ===================================================================== *)
(** ** [semantic_engine.py]: the cache files, batch encoding and the
       module-level engine *)
(* ===================================================================== *)

Module SemanticEngineStore.

Import Py SemanticEngine.

Local Open Scope string_scope.

(** What a cache file holds: a pickled dictionary of embeddings, or bytes
    on which [pickle.load] raises. *)
Inductive file : Type :=
| Pickled (cache : gmap string vec)
| Unreadable.

(** The file system as the engine sees it: the files by path, and the
    paths on which [open(path, 'wb')] raises. *)
Record disk : Type := {
  files : gmap string file;
  read_only : gset string
}.

(** [os.path.join(a, b)] for a relative [b] *)
Definition ends_with_slash (a : string) : bool :=
  match rev (list_ascii_of_string a) with
  | c :: _ => Ascii.eqb c "/"
  | [] => false
  end.

Definition path_join (a b : string) : string :=
  if String.eqb a "" || ends_with_slash a then a +:+ b else a +:+ "/" +:+ b.

(** [with open(path, 'wb') as f: pickle.dump(cache, f)] *)
Definition dump (path : string) (cache : gmap string vec) (d : disk)
    : outcome disk :=
  if bool_decide (path ∈ read_only d) then Raise "Permission denied"
  else Ok {| files := <[path := Pickled cache]> (files d);
             read_only := read_only d |}.

(** The truth value of a dictionary *)
Definition nonempty (cache : gmap string vec) : bool :=
  negb (size cache =? 0)%nat.

(** [cache_type in [...]] *)
Definition one_of (cache_type : string) (choices : list string) : bool :=
  existsb (String.eqb cache_type) choices.

Section WithCacheDir.
Context `{PyRuntime}.

(** [self.cache_dir], set by [__init__] and assigned nowhere else *)
Variable cache_dir : string.

Definition job_cache_file : string := path_join cache_dir "job_embeddings.pkl".

Definition candidate_cache_file : string :=
  path_join cache_dir "candidate_embeddings.pkl".

(** [_save_embedding_cache]: an exception ends the method, what was
    written before it stays written. *)
Definition _save_embedding_cache (cache_type : string) (e : engine) (d : disk)
    : disk :=
  let saved_job :=
    if one_of cache_type ["job"; "both"] && nonempty (job_embeddings_cache e)
    then dump job_cache_file (job_embeddings_cache e) d
    else Ok d in
  match saved_job with
  | Raise _ => d
  | Ok d1 =>
      let saved_candidate :=
        if one_of cache_type ["candidate"; "both"]
           && nonempty (candidate_embeddings_cache e)
        then dump candidate_cache_file (candidate_embeddings_cache e) d1
        else Ok d1 in
      match saved_candidate with
      | Raise _ => d1
      | Ok d2 => d2
      end
  end.

(** [_load_embedding_cache]: an exception ends the method, what was
    assigned before it stays assigned. *)
Definition _load_embedding_cache (e : engine) (d : disk) : engine :=
  match files d !! job_cache_file with
  | Some Unreadable => e
  | job_file =>
      let e1 :=
        match job_file with
        | Some (Pickled cache) => with_job_cache cache e
        | _ => e
        end in
      match files d !! candidate_cache_file with
      | Some (Pickled cache) => with_candidate_cache cache e1
      | Some Unreadable => e1
      | None => e1
      end
  end.

(** [encode_job_requirements] with the file it writes: the method of
    [SemanticEngine], the disk made explicit. *)
Definition encode_job_requirements_to_disk (job_data : pydict) (e : engine)
    (d : disk) : option vec * engine * disk :=
  if negb (is_available e) then (None, e, d)
  else
    let job_id := dict_get job_data "id" (PStr "unknown") in
    let job_text := join " | " (job_text_parts job_data) in
    let context := "job_" +:+ py_str job_id in
    let cache_key := _generate_cache_key e job_text context in
    match job_embeddings_cache e !! cache_key with
    | Some embedding => (Some embedding, e, d)
    | None =>
        let '(embedding, e1) := encode_text job_text context false e in
        match embedding with
        | Some v =>
            let e2 :=
              with_job_cache (<[cache_key := v]> (job_embeddings_cache e1)) e1 in
            (Some v, e2, _save_embedding_cache "job" e2 d)
        | None => (None, e1, d)
        end
    end.

(** [cleanup_cache]: [_save_embedding_cache] handles its own exceptions,
    so the handler here is never entered. *)
Definition cleanup_cache (max_age_days : Z) (e : engine) (d : disk) : disk :=
  _save_embedding_cache "both" e d.

End WithCacheDir.

Section Batches.
Context `{PyRuntime}.

(** [range(0, stop, step)] for a step that is not negative *)
Definition py_range (stop step : nat) : outcome (list nat) :=
  if (step =? 0)%nat then Raise "range() arg 3 must not be zero"
  else Ok (map (fun k => k * step)%nat (seq 0 ((stop + step - 1) / step))).

(** [l[i:j]] *)
Definition py_slice {A : Type} (i j : nat) (l : list A) : list A :=
  firstn (j - i) (skipn i l).

(** The inner loop of [batch_encode_candidates] *)
Fixpoint encode_batch (batch : list pydict) : EngM (list (option vec)) := fun e =>
  match batch with
  | [] => ([], e)
  | candidate :: rest =>
      let '(embedding, e1) := encode_candidate_profile candidate e in
      let '(batch_embeddings, e2) := encode_batch rest e1 in
      (embedding :: batch_embeddings, e2)
  end.

(** The outer loop, over the start indices of the batches *)
Fixpoint encode_batches (indices : list nat) (batch_size : nat)
    (candidates_data : list pydict) (embeddings : list (option vec))
    : EngM (list (option vec)) := fun e =>
  match indices with
  | [] => (embeddings, e)
  | i :: rest =>
      let batch := py_slice i (i + batch_size) candidates_data in
      let '(batch_embeddings, e1) := encode_batch batch e in
      encode_batches rest batch_size candidates_data
        (embeddings ++ batch_embeddings) e1
  end.

(** [batch_encode_candidates]; [batch_size] is [self.batch_size], which
    [__init__] sets to 32. [encode_candidate_profile] returns for every
    dictionary, so only [range] can raise, before any candidate is
    encoded. *)
Definition batch_encode_candidates (batch_size : nat)
    (candidates_data : list pydict) : EngM (list (option vec)) := fun e =>
  if negb (is_available e) then (repeat None (length candidates_data), e)
  else
    match py_range (length candidates_data) batch_size with
    | Ok indices => encode_batches indices batch_size candidates_data [] e
    | Raise _ => (repeat None (length candidates_data), e)
    end.

End Batches.

(** [get_semantic_engine]: [global] is the module variable
    [_semantic_engine]; the result is the engine returned and the new value
    of the variable. [deps] and [load] are as in [SemanticEngine.init]. *)
Definition default_model : string := "all-MiniLM-L6-v2".

Definition default_cache_dir : string := "semantic_cache".

Definition get_semantic_engine (deps : bool)
    (load : string -> outcome (string -> outcome vec))
    (global : option engine) (d : disk) : engine * option engine :=
  match global with
  | Some e => (e, global)
  | None =>
      let e := _load_embedding_cache default_cache_dir
                 (init deps load default_model) d in
      (e, Some e)
  end.

End SemanticEngineStore.

(* ===================================================================== *)
(** ** [enhanced_assessment_engine.py]: statistics and the comparison of
       the two scores *)
(* ===================================================================== *)

Module EnhancedEngineReports.

Import Py EnhancedEngine.

Local Open Scope string_scope.

(** The dictionary [get_assessment_statistics] returns *)
Record statistics : Type := {
  stats_counters : gmap string Z;
  semantic_engine_available : bool;
  semantic_model : string;
  stats_weights : gmap string R
}.

(** [get_assessment_statistics] *)
Definition get_assessment_statistics (st : engine) : statistics :=
  {| stats_counters := assessment_stats st;
     semantic_engine_available := SemanticEngine.is_available (semantic_engine st);
     semantic_model := SemanticEngine.model_name (semantic_engine st);
     stats_weights := semantic_weights st |}.

(** The number a value stands for in arithmetic: [bool] is a subclass of
    [int]; everything else makes [-] raise a [TypeError]. *)
Definition number (v : pyval) : option R :=
  match v with
  | PBool b => Some (if b then 1 else 0)%R
  | PInt z => Some (IZR z)
  | PFloat r => Some r
  | PNone | PStr _ | PList _ | PDict _ => None
  end.

(** [a - b] *)
Definition py_sub (a b : pyval) : outcome R :=
  match number a, number b with
  | Some x, Some y => Ok (x - y)%R
  | _, _ => Raise "unsupported operand type(s) for -"
  end.

(** The [if]/[elif] chain of [compare_scoring_methods] *)
Definition difference_category (score_difference : R) : string :=
  if Rlt_dec (Rabs score_difference) 5 then "similar"
  else if Rlt_dec 10 score_difference then "semantic_higher"
  else if Rlt_dec score_difference (-10) then "traditional_higher"
  else "moderate_difference".

Section WithCollaborators.
Context `{PyRuntime}.
Variable assess_candidate : pydict -> pydict -> outcome pyval.

(** [compare_scoring_methods]. Nothing handles the [TypeError] of the
    subtraction; once it has passed, [traditional_score] is a number and
    [max(traditional_score, 1)] is at least 1. (['assessment_time'] repeats
    the wall-clock entry of the assessment and is left out with it.) *)
Definition compare_scoring_methods (candidate_data job_data : pydict)
    : EnhM (outcome result_dict) := fun st =>
  let '(assessment, st1) :=
    assess_candidate_enhanced assess_candidate candidate_data job_data
      true true st in
  let semantic_score := default (PInt 0) (assessment !! "semantic_score") in
  let traditional_score := default (PInt 0) (assessment !! "traditional_score") in
  (score_difference ← py_sub semantic_score traditional_score;
   let relative_difference :=
     (score_difference
      / PyNum.py_max (default 0%R (number traditional_score)) 1 * 100)%R in
   Ok (<["candidate_id" := dict_get candidate_data "id" PNone]>
       (<["job_id" := dict_get job_data "id" PNone]>
       (<["semantic_score" := semantic_score]>
       (<["traditional_score" := traditional_score]>
       (<["score_difference" := rnd score_difference 1]>
       (<["relative_difference_percent" := rnd relative_difference 1]>
       (<["difference_category" := PStr (difference_category score_difference)]>
       (<["semantic_breakdown" :=
            default (PDict []) (assessment !! "semantic_breakdown")]>
       (<["traditional_breakdown" :=
            default (PDict []) (assessment !! "traditional_breakdown")]>
        (∅ : result_dict)))))))))),
   st1).

End WithCollaborators.

End EnhancedEngineReports.

(* ===================================================================== *)
(** ** Concrete data for the examples *)
(* ===================================================================== *)

Module Demo.

Import Py.

(** A runtime that renders every float and container as a fixed text: the
    examples never splice one. *)
#[export] Instance runtime : PyRuntime := {|
  repr_float := fun _ => "0.0"%string;
  repr_container := fun _ => "[]"%string;
  float_of_str := fun _ => None;
  format_1f := fun _ => "0.0"%string
|}.

(** A transformer that maps every text to the same unit vector *)
Definition unit_model : string -> outcome SemanticEngine.vec :=
  fun _ => Ok [1; 0].

Definition load_ok : string -> outcome (string -> outcome SemanticEngine.vec) :=
  fun _ => Ok unit_model.

Definition load_fails : string -> outcome (string -> outcome SemanticEngine.vec) :=
  fun _ => Raise "no such model".

(** Imports failed *)
Definition engine_without_deps : SemanticEngine.engine :=
  SemanticEngine.init false load_ok "all-MiniLM-L6-v2".

(** Imports succeeded, a model was loaded *)
Definition engine_with_model : SemanticEngine.engine :=
  SemanticEngine.init true load_ok "all-MiniLM-L6-v2".

(** Imports succeeded, no model could be loaded *)
Definition engine_without_model : SemanticEngine.engine :=
  SemanticEngine.init true load_fails "all-MiniLM-L6-v2".

Definition job : pydict := [ ("id", PInt 1); ("title", PStr "Assistant Professor") ].

Definition empty_candidate : pydict :=
  [ ("id", PInt 7); ("education", PList []); ("experience", PList []);
    ("training", PList []); ("eligibility", PList []) ].

Definition candidate_with_degree : pydict :=
  [ ("id", PInt 8);
    ("education", PList [PDict [("degree", PStr "PhD"); ("school", PStr "MIT")]]) ].

(** A rule-based scorer that returns a total of 72.0 *)
Definition traditional_72 : pydict -> pydict -> outcome pyval :=
  fun _ _ => Ok (PDict [("final_score", PFloat 72)]).

Definition traditional_raises : pydict -> pydict -> outcome pyval :=
  fun _ _ => Raise "database unavailable".

(** A rule-based scorer that fails for the candidate with id 7 only *)
Definition traditional_fails_for_7 : pydict -> pydict -> outcome pyval :=
  fun c _ =>
    match dict_get c "id" PNone with
    | PInt 7 => Raise "database unavailable"
    | _ => Ok (PDict [("final_score", PFloat 72)])
    end.

Definition details (edu exp train overall : R) : SemanticEngine.semantic_details :=
  {| SemanticEngine.overall_score := overall;
     SemanticEngine.education_relevance := edu;
     SemanticEngine.experience_relevance := exp;
     SemanticEngine.training_relevance := train;
     SemanticEngine.error := None;
     SemanticEngine.details_threshold := Some 0.3;
     SemanticEngine.model_used := Some "all-MiniLM-L6-v2"%string |}.

End Demo.

(* ===================================================================== *)
(** ** Facts about rounding and clamping *)
(* ===================================================================== *)

Module PyNumFacts.

Import PyNum.

Lemma py_min_Rmin a b : py_min a b = Rmin a b.
Proof.
  unfold py_min, Rmin.
  destruct (Rlt_dec b a), (Rle_dec a b); lra.
Qed.

Lemma py_max_Rmax a b : py_max a b = Rmax a b.
Proof.
  unfold py_max, Rmax.
  destruct (Rlt_dec a b), (Rle_dec a b); lra.
Qed.

Lemma py_clamp_bounds lo hi x :
  lo <= hi -> lo <= py_max lo (py_min hi x) <= hi.
Proof.
  intros Hle. unfold py_max, py_min.
  destruct (Rlt_dec x hi); destruct (Rlt_dec lo _); lra.
Qed.

Lemma py_clamp_id lo hi x :
  lo <= x <= hi -> py_max lo (py_min hi x) = x.
Proof.
  intros Hx. unfold py_max, py_min.
  destruct (Rlt_dec x hi); destruct (Rlt_dec lo _); lra.
Qed.

Lemma round_half_even_error x :
  Rabs (IZR (round_half_even x) - x) <= 1 / 2.
Proof.
  unfold round_half_even.
  pose proof (Zfloor_bound x) as [Hlo Hhi].
  destruct (Rlt_dec _ _) as [Hlt | Hge].
  - apply Rabs_le. lra.
  - destruct (Rlt_dec _ _) as [Hgt | Hle].
    + rewrite plus_IZR. apply Rabs_le. lra.
    + destruct (Z.even _); [| rewrite plus_IZR]; apply Rabs_le; lra.
Qed.

Lemma round_half_even_IZR z : round_half_even (IZR z) = z.
Proof.
  unfold round_half_even. rewrite ZfloorZ.
  destruct (Rlt_dec _ _) as [_ | Hn]; [reflexivity | lra].
Qed.

Lemma round_half_even_down x z :
  IZR z <= x < IZR z + 1 / 2 -> round_half_even x = z.
Proof.
  intros Hx. unfold round_half_even.
  rewrite (Zfloor_eq z x) by lra.
  destruct (Rlt_dec _ _); [reflexivity | lra].
Qed.

Lemma round_half_even_up x z :
  IZR z + 1 / 2 < x < IZR z + 1 -> round_half_even x = (z + 1)%Z.
Proof.
  intros Hx. unfold round_half_even.
  rewrite (Zfloor_eq z x) by lra.
  destruct (Rlt_dec _ _); [lra |].
  destruct (Rlt_dec _ _); [reflexivity | lra].
Qed.

Ltac case_Rlt :=
  repeat match goal with
         | |- context [Rlt_dec ?a ?b] => destruct (Rlt_dec a b)
         end.

Lemma round_half_even_floor x :
  (Zfloor x <= round_half_even x <= Zfloor x + 1)%Z.
Proof.
  unfold round_half_even. case_Rlt; try lia; destruct (Z.even _); lia.
Qed.

Lemma round_half_even_mono x y :
  x <= y -> (round_half_even x <= round_half_even y)%Z.
Proof.
  intros Hxy.
  destruct (Z.eq_dec (Zfloor x) (Zfloor y)) as [Heq | Hne].
  - unfold round_half_even. rewrite <- Heq.
    case_Rlt; try lia; try lra; destruct (Z.even _); lia.
  - pose proof (Zfloor_le x y Hxy).
    pose proof (round_half_even_floor x).
    pose proof (round_half_even_floor y).
    lia.
Qed.

Lemma py_round_error x n :
  Rabs (py_round x n - x) <= 1 / 2 / 10 ^ n.
Proof.
  unfold py_round.
  assert (Hp : 0 < 10 ^ n) by (apply pow_lt; lra).
  pose proof (round_half_even_error (x * 10 ^ n)) as He.
  replace (IZR (round_half_even (x * 10 ^ n)) / 10 ^ n - x)
    with ((IZR (round_half_even (x * 10 ^ n)) - x * 10 ^ n) / 10 ^ n)
    by (field; lra).
  unfold Rdiv at 1. rewrite Rabs_mult.
  rewrite (Rabs_pos_eq (/ 10 ^ n)) by (left; apply Rinv_0_lt_compat; lra).
  unfold Rdiv. apply Rmult_le_compat_r; [left; apply Rinv_0_lt_compat; lra |].
  exact He.
Qed.

Lemma py_round_grid z n : py_round (IZR z / 10 ^ n) n = IZR z / 10 ^ n.
Proof.
  unfold py_round.
  assert (Hp : 0 < 10 ^ n) by (apply pow_lt; lra).
  replace (IZR z / 10 ^ n * 10 ^ n) with (IZR z) by (field; lra).
  now rewrite round_half_even_IZR.
Qed.

Lemma py_round_range x n (lo hi : Z) :
  IZR lo <= x <= IZR hi -> IZR lo <= py_round x n <= IZR hi.
Proof.
  intros [Hlo Hhi]. unfold py_round.
  assert (Hp : 0 < 10 ^ n) by (apply pow_lt; lra).
  assert (Hpz : 10 ^ n = IZR (10 ^ Z.of_nat n)).
  { rewrite <- pow_IZR. reflexivity. }
  assert (H1 : (lo * 10 ^ Z.of_nat n <= round_half_even (x * 10 ^ n))%Z).
  { rewrite <- (round_half_even_IZR (lo * 10 ^ Z.of_nat n)).
    apply round_half_even_mono. rewrite mult_IZR, <- Hpz.
    apply Rmult_le_compat_r; lra. }
  assert (H2 : (round_half_even (x * 10 ^ n) <= hi * 10 ^ Z.of_nat n)%Z).
  { rewrite <- (round_half_even_IZR (hi * 10 ^ Z.of_nat n)).
    apply round_half_even_mono. rewrite mult_IZR, <- Hpz.
    apply Rmult_le_compat_r; lra. }
  apply IZR_le in H1, H2. rewrite mult_IZR, <- Hpz in H1, H2.
  split.
  - apply Rmult_le_reg_r with (10 ^ n); [lra |].
    unfold Rdiv. rewrite Rmult_assoc, Rinv_l by lra. lra.
  - apply Rmult_le_reg_r with (10 ^ n); [lra |].
    unfold Rdiv. rewrite Rmult_assoc, Rinv_l by lra. lra.
Qed.

End PyNumFacts.

(* ===================================================================== *)
(** ** Facts about the digest *)
(* ===================================================================== *)

Module MD5Facts.

Import MD5.

Local Open Scope Z_scope.

(** The RFC's test vectors, and one message of two blocks *)
Example hexdigest_empty :
  hexdigest (encode "") = "d41d8cd98f00b204e9800998ecf8427e"%string.
Proof. vm_compute. reflexivity. Qed.

Example hexdigest_abc :
  hexdigest (encode "abc") = "900150983cd24fb0d6963f7d28e17f72"%string.
Proof. vm_compute. reflexivity. Qed.

Example hexdigest_two_blocks :
  hexdigest (encode
    "aaaaaaaaaaaaaaaaaaaaaaaaaaaaaaaaaaaaaaaaaaaaaaaaaaaaaaaaaaaaaaaaaaaaaa")
  = "0f5c6c4e740bfcc08c3c26ccb2673d46"%string.
Proof. vm_compute. reflexivity. Qed.

Lemma le_bytes_length n x : length (le_bytes n x) = n.
Proof. revert x. induction n as [| n IH]; intros x; simpl; [| rewrite IH]; reflexivity. Qed.

Lemma le_bytes_range n x : Forall (fun b => 0 <= b < 256) (le_bytes n x).
Proof.
  revert x. induction n as [| n IH]; intros x; simpl; constructor.
  - change 255 with (Z.ones 8). rewrite Z.land_ones by lia.
    apply Z.mod_pos_bound. lia.
  - apply IH.
Qed.

Lemma digest_length msg : length (digest msg) = 16%nat.
Proof.
  unfold digest.
  destruct (blocks _ _ _) as [[[a b] c] d].
  rewrite !length_app, !le_bytes_length. reflexivity.
Qed.

Lemma digest_range msg : Forall (fun b => 0 <= b < 256) (digest msg).
Proof.
  unfold digest.
  destruct (blocks _ _ _) as [[[a b] c] d].
  repeat (apply Forall_app; split); apply le_bytes_range.
Qed.

End MD5Facts.

(* ===================================================================== *)
(** ** Properties of the semantic engine *)
(* ===================================================================== *)

Module SemanticEngineSpec.

Import Py SemanticEngine.

(** *** Dot products and norms *)

Lemma dot_self_nonneg (v : vec) : 0 <= dot v v.
Proof. induction v as [| x v IH]; simpl; [lra | nra]. Qed.

Lemma dot_self_pos (v : vec) x : In x v -> x <> 0 -> 0 < dot v v.
Proof.
  induction v as [| y v IH]; simpl; [tauto |].
  intros [-> | Hin] Hx.
  - pose proof (dot_self_nonneg v). nra.
  - specialize (IH Hin Hx). nra.
Qed.

Lemma dot_self_zero (v : vec) : dot v v = 0 -> Forall (fun x => x = 0) v.
Proof.
  induction v as [| x v IH]; simpl; intros Hz; constructor.
  - pose proof (dot_self_nonneg v). nra.
  - apply IH. pose proof (dot_self_nonneg v). nra.
Qed.

(** Cauchy-Schwarz in the form the similarity needs *)
Lemma dot_bound (a : vec) : forall b : vec,
  length a = length b ->
  - (dot a a + dot b b) <= 2 * dot a b <= dot a a + dot b b.
Proof.
  induction a as [| x a IH]; intros [| y b] Hlen; simpl in *; try lia; try lra.
  assert (Hab : length a = length b) by lia.
  specialize (IH b Hab).
  pose proof (Rle_0_sqr (x + y)) as Hp.
  pose proof (Rle_0_sqr (x - y)) as Hm.
  unfold Rsqr in Hp, Hm. lra.
Qed.

Lemma dot_scale (c : R) (v : vec) :
  dot (map (fun x => x / c) v) (map (fun x => x / c) v) = dot v v / (c * c).
Proof.
  destruct (Req_dec_T c 0) as [-> | Hc].
  - induction v as [| x v IH]; simpl.
    + unfold Rdiv. rewrite Rmult_0_l. reflexivity.
    + rewrite IH. unfold Rdiv. rewrite Rmult_0_l, Rinv_0. ring.
  - induction v as [| x v IH]; simpl.
    + unfold Rdiv. rewrite Rmult_0_l. reflexivity.
    + rewrite IH. field. exact Hc.
Qed.

Lemma norm_unit_dot (v : vec) : norm v = 1 -> dot v v = 1.
Proof.
  unfold norm. intros Hn.
  rewrite <- (sqrt_sqrt (dot v v)) by apply dot_self_nonneg.
  rewrite Hn. ring.
Qed.

Lemma norm_scaled (v : vec) :
  0 < norm v -> norm (map (fun x => x / norm v) v) = 1.
Proof.
  intros Hpos. unfold norm at 1. rewrite dot_scale.
  unfold norm. rewrite sqrt_sqrt by apply dot_self_nonneg.
  assert (Hd : 0 < dot v v).
  { destruct (dot_self_nonneg v) as [Hlt | Heq]; [exact Hlt |].
    unfold norm in Hpos. rewrite <- Heq, sqrt_0 in Hpos. lra. }
  replace (dot v v / dot v v) with 1 by (field; lra).
  apply sqrt_1.
Qed.

(** *** The similarity calculator *)

Lemma similarity_some (a b : vec) :
  length a = length b ->
  calculate_semantic_similarity (Some a) (Some b)
  = PyNum.py_max 0 (PyNum.py_min 1 ((dot a b + 1) / 2)).
Proof.
  intros Hlen. unfold calculate_semantic_similarity, np_dot.
  rewrite Hlen, Nat.eqb_refl. reflexivity.
Qed.

Lemma similarity_range (a b : option vec) :
  0 <= calculate_semantic_similarity a b <= 1.
Proof.
  unfold calculate_semantic_similarity.
  destruct (np_dot a b) as [d | msg]; simpl.
  - apply PyNumFacts.py_clamp_bounds. lra.
  - lra.
Qed.

(** C3. For L2-normalised embeddings [a] and [b] of one dimension, the
    similarity is the dot product rescaled by [(dot + 1) / 2] and clamped to
    [0, 1]; the clamp is then the identity, the result lies in [0, 1], and
    the similarity of [a] with itself is 1 (exactly, over the reals). *)
Theorem similarity_of_normalized (a b : vec) :
  length a = length b -> norm a = 1 -> norm b = 1 ->
  calculate_semantic_similarity (Some a) (Some b)
    = PyNum.py_max 0 (PyNum.py_min 1 ((dot a b + 1) / 2))
  /\ calculate_semantic_similarity (Some a) (Some b) = (dot a b + 1) / 2
  /\ 0 <= calculate_semantic_similarity (Some a) (Some b) <= 1
  /\ calculate_semantic_similarity (Some a) (Some a) = 1.
Proof.
  intros Hlen Ha Hb.
  apply norm_unit_dot in Ha, Hb.
  pose proof (dot_bound a b Hlen) as Hcs.
  rewrite Ha, Hb in Hcs.
  split; [apply similarity_some; exact Hlen |].
  split; [| split].
  - rewrite similarity_some by exact Hlen.
    apply PyNumFacts.py_clamp_id. lra.
  - apply similarity_range.
  - rewrite similarity_some by reflexivity.
    rewrite Ha, PyNumFacts.py_clamp_id; lra.
Qed.

Lemma similarity_of_normalized_witness :
  (length [1; 0] = length [0; 1] /\ norm [1; 0] = 1 /\ norm [0; 1] = 1)
  /\ calculate_semantic_similarity (Some [1; 0]) (Some [0; 1]) = (dot [1; 0] [0; 1] + 1) / 2
  /\ calculate_semantic_similarity (Some [1; 0]) (Some [1; 0]) = 1.
Proof.
  assert (Ha : norm [1; 0] = 1).
  { unfold norm. simpl. replace (1 * 1 + (0 * 0 + 0)) with 1 by lra. apply sqrt_1. }
  assert (Hb : norm [0; 1] = 1).
  { unfold norm. simpl. replace (0 * 0 + (1 * 1 + 0)) with 1 by lra. apply sqrt_1. }
  split; [split; [reflexivity | split; assumption] |].
  pose proof (similarity_of_normalized [1; 0] [0; 1] eq_refl Ha Hb) as (_ & Hs & _ & Hself).
  split; assumption.
Defined.

(** C9. [calculate_semantic_similarity] returns for all arguments, [None]
    and arrays of different lengths included: the value lies in [0, 1], and
    it is [0.0] whenever [np.dot] raises. *)
Theorem similarity_total (a b : option vec) :
  0 <= calculate_semantic_similarity a b <= 1
  /\ (forall msg, np_dot a b = Raise msg -> calculate_semantic_similarity a b = 0)
  /\ calculate_semantic_similarity None b = 0
  /\ calculate_semantic_similarity a None = 0
  /\ (forall u v : vec, length u <> length v ->
        calculate_semantic_similarity (Some u) (Some v) = 0).
Proof.
  split; [apply similarity_range |].
  split; [| split; [| split]].
  - intros msg Hraise. unfold calculate_semantic_similarity.
    rewrite Hraise. reflexivity.
  - reflexivity.
  - destruct a; reflexivity.
  - intros u v Hne. unfold calculate_semantic_similarity, np_dot.
    destruct (Nat.eqb_spec (length u) (length v)) as [Heq | _]; [contradiction |].
    reflexivity.
Qed.

(** *** The hash-based vector of [encode_text] *)

(** Some byte of the MD5 digest of the text is not zero *)
Definition digest_nonzero (text : string) : bool :=
  existsb (fun b => negb (b =? 0)%Z) (MD5.digest (MD5.encode text)).

(** The digest bytes as floats, padded with zeros to 384 entries *)
Definition padded_digest (text : string) : vec :=
  map IZR (MD5.digest (MD5.encode text)) ++ repeat 0 368.

Lemma hash_vector_unfold (text : string) :
  hash_vector text
  = if Rlt_dec 0 (norm (padded_digest text))
    then map (fun x => x / norm (padded_digest text)) (padded_digest text)
    else padded_digest text.
Proof.
  unfold hash_vector, padded_digest.
  rewrite length_map, MD5Facts.digest_length. reflexivity.
Qed.

Lemma padded_digest_length (text : string) : length (padded_digest text) = 384%nat.
Proof.
  unfold padded_digest.
  rewrite length_app, length_map, MD5Facts.digest_length, repeat_length. reflexivity.
Qed.

Lemma hash_vector_length (text : string) : length (hash_vector text) = 384%nat.
Proof.
  rewrite hash_vector_unfold.
  destruct (Rlt_dec _ _); [rewrite length_map |]; apply padded_digest_length.
Qed.

Lemma padded_digest_norm_pos (text : string) :
  digest_nonzero text = true -> 0 < norm (padded_digest text).
Proof.
  unfold digest_nonzero. intros Hex.
  apply existsb_exists in Hex as (b & Hin & Hb).
  apply negb_true_iff, Z.eqb_neq in Hb.
  unfold norm. apply sqrt_lt_R0.
  apply dot_self_pos with (x := IZR b).
  - unfold padded_digest. apply in_or_app. left. apply in_map. exact Hin.
  - intros Hz. apply eq_IZR_R0 in Hz. contradiction.
Qed.

Lemma padded_digest_zero (text : string) :
  digest_nonzero text = false -> padded_digest text = repeat 0 384.
Proof.
  unfold digest_nonzero, padded_digest. intros Hall.
  pose proof (MD5Facts.digest_length (MD5.encode text)) as Hlen.
  assert (Hz : forall l : list Z,
             existsb (fun b => negb (b =? 0)%Z) l = false ->
             map IZR l = repeat 0 (length l)).
  { induction l as [| b l IH]; simpl; [reflexivity |].
    intros Hb. apply orb_false_iff in Hb as [Hb Hl].
    apply negb_false_iff, Z.eqb_eq in Hb. subst b.
    rewrite IH by exact Hl. reflexivity. }
  rewrite (Hz _ Hall), Hlen, <- repeat_app. reflexivity.
Qed.

Lemma norm_zeros (n : nat) : norm (repeat 0 n) = 0.
Proof.
  unfold norm.
  assert (Hd : dot (repeat 0 n) (repeat 0 n) = 0).
  { induction n as [| n IH]; simpl; [reflexivity | rewrite IH; ring]. }
  rewrite Hd. apply sqrt_0.
Qed.

(** C4. With the engine not available, [encode_text] returns, for every
    text and whatever the context and cache flag, the vector derived from
    the MD5 digest of the text: its 16 bytes padded with zeros to 384
    entries and divided by their norm. The engine is left unchanged, two
    calls with one text return one vector, and the vector has norm 1 (over
    the reals, so within every tolerance) unless all 16 digest bytes are
    zero, in which case the guard [norm > 0] leaves the zero vector. *)
Theorem encode_text_degraded (e : engine) (text context : string) (use_cache : bool) :
  is_available e = false ->
  encode_text text context use_cache e = (Some (hash_vector text), e)
  /\ length (hash_vector text) = 384%nat
  /\ (forall (e' : engine) (context' : string) (use_cache' : bool),
        is_available e' = false ->
        fst (encode_text text context' use_cache' e')
        = fst (encode_text text context use_cache e))
  /\ (digest_nonzero text = true ->
        hash_vector text
        = map (fun x => x / norm (padded_digest text)) (padded_digest text)
        /\ norm (hash_vector text) = 1
        /\ Rabs (norm (hash_vector text) - 1) <= 1 / 100000)
  /\ (digest_nonzero text = false -> hash_vector text = repeat 0 384).
Proof.
  intros Hoff.
  assert (Hrun : forall e' c' u', is_available e' = false ->
            encode_text text c' u' e' = (Some (hash_vector text), e')).
  { intros e' c' u' H'. unfold encode_text. rewrite H'. reflexivity. }
  split; [apply Hrun; exact Hoff |].
  split; [apply hash_vector_length |].
  split; [intros e' c' u' H'; rewrite (Hrun e' c' u' H'), (Hrun e context use_cache Hoff); reflexivity |].
  split.
  - intros Hnz. pose proof (padded_digest_norm_pos text Hnz) as Hpos.
    assert (Hv : hash_vector text
                 = map (fun x => x / norm (padded_digest text)) (padded_digest text)).
    { rewrite hash_vector_unfold. destruct (Rlt_dec _ _); [reflexivity | contradiction]. }
    split; [exact Hv |].
    assert (Hn : norm (hash_vector text) = 1).
    { rewrite Hv. apply norm_scaled. exact Hpos. }
    split; [exact Hn |].
    rewrite Hn. replace (1 - 1) with 0 by ring. rewrite Rabs_R0. lra.
  - intros Hz. rewrite hash_vector_unfold, (padded_digest_zero text Hz), norm_zeros.
    destruct (Rlt_dec 0 0); [lra | reflexivity].
Qed.

Lemma encode_text_degraded_witness :
  is_available Demo.engine_without_deps = false
  /\ digest_nonzero "hello" = true
  /\ fst (encode_text "hello" "education" true Demo.engine_without_deps)
     = Some (hash_vector "hello")
  /\ length (hash_vector "hello") = 384%nat
  /\ norm (hash_vector "hello") = 1.
Proof.
  assert (Hoff : is_available Demo.engine_without_deps = false) by reflexivity.
  assert (Hnz : digest_nonzero "hello" = true) by (vm_compute; reflexivity).
  pose proof (encode_text_degraded Demo.engine_without_deps "hello" "education" true Hoff)
    as (Hrun & Hlen & _ & Hnorm & _).
  destruct (Hnorm Hnz) as (_ & Hone & _).
  rewrite Hrun. repeat split; assumption.
Defined.

(** With the imports present and no model loaded, [encode_text] does not
    take the hash-based branch: it returns what the candidate cache holds
    for the text, if asked to look, and [None] otherwise, [self.model.encode]
    raising on [None]. *)
Theorem encode_text_without_model (e : engine) (text context : string)
    (use_cache : bool) :
  is_available e = true ->
  model e = None ->
  encode_text text context use_cache e
  = (if use_cache
     then candidate_embeddings_cache e !! _generate_cache_key e text context
     else None, e).
Proof.
  intros Hon Hnone. unfold encode_text. rewrite Hon, Hnone. cbn [negb].
  destruct use_cache; [| reflexivity].
  destruct (candidate_embeddings_cache e !! _); reflexivity.
Qed.

Lemma encode_text_without_model_witness :
  is_available Demo.engine_without_model = true
  /\ model Demo.engine_without_model = None
  /\ encode_text "hello" "education" true Demo.engine_without_model
     = (None, Demo.engine_without_model).
Proof.
  split; [reflexivity |]. split; [reflexivity |].
  rewrite (encode_text_without_model Demo.engine_without_model "hello" "education"
             true eq_refl eq_refl).
  reflexivity.
Defined.

(** *** Availability *)

Lemma init_deps deps load name : deps_available (init deps load name) = deps.
Proof. unfold init. destruct (_initialize_model deps load name). reflexivity. Qed.

Lemma init_model_without_deps load name : model (init false load name) = None.
Proof. reflexivity. Qed.

Section WithRuntime.
Context `{PyRuntime}.

(** C10. [is_available] is the import flag, whatever [SentenceTransformer]
    did afterwards; and when it is false, [encode_job_requirements] and
    [encode_candidate_profile] return [None] and leave the engine as it
    was, although [encode_text] would return the hash-based vector, and
    [calculate_detailed_semantic_score] returns the four scores as [0.0]
    with an ['error'] entry. *)
Theorem unavailable_engine_returns_none :
  (forall deps load name, is_available (init deps load name) = deps)
  /\ (forall e : engine, is_available e = deps_available e)
  /\ (forall (e : engine) (candidate_data job_data : pydict),
        is_available e = false ->
        encode_job_requirements job_data e = (None, e)
        /\ encode_candidate_profile candidate_data e = (None, e)
        /\ (forall text context use_cache,
              fst (encode_text text context use_cache e) = Some (hash_vector text))
        /\ exists d,
             calculate_detailed_semantic_score candidate_data job_data e = (d, e)
             /\ overall_score d = 0 /\ education_relevance d = 0
             /\ experience_relevance d = 0 /\ training_relevance d = 0
             /\ error d = Some "Semantic engine not available"%string).
Proof.
  split; [intros; apply init_deps |].
  split; [reflexivity |].
  intros e c j Hoff.
  split; [unfold encode_job_requirements; rewrite Hoff; reflexivity |].
  split; [unfold encode_candidate_profile; rewrite Hoff; reflexivity |].
  split; [intros; unfold encode_text; rewrite Hoff; reflexivity |].
  exists (error_details "Semantic engine not available").
  unfold calculate_detailed_semantic_score. rewrite Hoff.
  repeat split.
Qed.

End WithRuntime.

#[local] Existing Instance Demo.runtime.

Lemma unavailable_engine_returns_none_witness :
  (is_available Demo.engine_without_model = true
   /\ model Demo.engine_without_model = None)
  /\ is_available Demo.engine_without_deps = false
  /\ encode_job_requirements Demo.job Demo.engine_without_deps
     = (None, Demo.engine_without_deps)
  /\ encode_candidate_profile Demo.candidate_with_degree Demo.engine_without_deps
     = (None, Demo.engine_without_deps).
Proof.
  pose proof (@unavailable_engine_returns_none Demo.runtime) as (Hinit & _ & Hoff).
  split; [split; [apply Hinit | reflexivity] |].
  assert (Hd : is_available Demo.engine_without_deps = false) by apply Hinit.
  split; [exact Hd |].
  destruct (Hoff Demo.engine_without_deps Demo.candidate_with_degree Demo.job Hd)
    as (Hjob & Hcand & _).
  split; assumption.
Defined.

(** *** What the methods leave unchanged: everything but the two caches *)

Definition same_config (e e' : engine) : Prop :=
  deps_available e' = deps_available e
  /\ model_name e' = model_name e
  /\ model e' = model e
  /\ max_sequence_length e' = max_sequence_length e
  /\ similarity_threshold e' = similarity_threshold e.

Lemma same_config_refl e : same_config e e.
Proof. repeat split. Qed.

Lemma same_config_trans e1 e2 e3 :
  same_config e1 e2 -> same_config e2 e3 -> same_config e1 e3.
Proof.
  intros (A1 & A2 & A3 & A4 & A5) (B1 & B2 & B3 & B4 & B5).
  repeat split; congruence.
Qed.

Lemma same_config_available e e' :
  same_config e e' -> is_available e' = is_available e.
Proof. intros (Hd & _). exact Hd. Qed.

Create HintDb config.
#[local] Hint Resolve same_config_refl : config.

Lemma encode_text_config text context use_cache e :
  same_config e (snd (encode_text text context use_cache e)).
Proof.
  unfold encode_text.
  destruct (negb _); [auto with config |].
  destruct (if use_cache then _ else _); [auto with config |].
  destruct (model e) as [enc |]; [| auto with config].
  destruct (enc _); [| auto with config].
  destruct use_cache; cbn [snd]; repeat split.
Qed.

Lemma relevance_of_texts_config texts job_text context job_context e :
  same_config e (snd (relevance_of_texts texts job_text context job_context e)).
Proof.
  unfold relevance_of_texts.
  destruct texts as [| t ts]; [auto with config |].
  pose proof (encode_text_config (join " | " (t :: ts)) context true e) as H1.
  destruct (encode_text (join " | " (t :: ts)) context true e) as [a e1].
  pose proof (encode_text_config job_text job_context true e1) as H2.
  destruct (encode_text job_text job_context true e1) as [b e2].
  cbn [snd] in *.
  destruct a, b; cbn [snd]; eapply same_config_trans; eassumption.
Qed.

Section Frame.
Context `{PyRuntime}.

Lemma encode_job_requirements_config job_data e :
  same_config e (snd (encode_job_requirements job_data e)).
Proof.
  unfold encode_job_requirements.
  destruct (negb _); [auto with config |].
  destruct (job_embeddings_cache e !! _); [auto with config |].
  match goal with
  | |- context [encode_text ?t ?c ?u ?e0] =>
      pose proof (encode_text_config t c u e0) as Hc;
      destruct (encode_text t c u e0) as [emb e1]
  end.
  cbn [snd] in Hc. destruct emb; cbn [snd]; [| exact Hc].
  destruct Hc as (A1 & A2 & A3 & A4 & A5). repeat split; assumption.
Qed.

Lemma encode_candidate_profile_config candidate_data e :
  same_config e (snd (encode_candidate_profile candidate_data e)).
Proof.
  unfold encode_candidate_profile.
  destruct (negb _); [auto with config |].
  destruct (candidate_profile_parts _); [| auto with config].
  destruct (negb _); [auto with config |].
  apply encode_text_config.
Qed.

Lemma education_relevance_config c j e :
  same_config e (snd (_calculate_education_relevance c j e)).
Proof.
  unfold _calculate_education_relevance.
  destruct (education_texts c); [apply relevance_of_texts_config | auto with config].
Qed.

Lemma experience_relevance_config c j e :
  same_config e (snd (_calculate_experience_relevance c j e)).
Proof.
  unfold _calculate_experience_relevance.
  destruct (experience_texts c); [apply relevance_of_texts_config | auto with config].
Qed.

Lemma training_relevance_config c j e :
  same_config e (snd (_calculate_training_relevance c j e)).
Proof.
  unfold _calculate_training_relevance.
  destruct (training_texts c); [apply relevance_of_texts_config | auto with config].
Qed.

Lemma calculate_detailed_semantic_score_config c j e :
  same_config e (snd (calculate_detailed_semantic_score c j e)).
Proof.
  unfold calculate_detailed_semantic_score.
  destruct (negb _); [auto with config |].
  pose proof (encode_candidate_profile_config c e) as H1.
  destruct (encode_candidate_profile c e) as [ce e1].
  pose proof (encode_job_requirements_config j e1) as H2.
  destruct (encode_job_requirements j e1) as [je e2].
  cbn [snd] in *.
  assert (H12 : same_config e e2) by (eapply same_config_trans; eassumption).
  destruct ce, je; cbn [snd]; try exact H12.
  pose proof (education_relevance_config c j e2) as H3.
  destruct (_calculate_education_relevance c j e2) as [s3 e3].
  pose proof (experience_relevance_config c j e3) as H4.
  destruct (_calculate_experience_relevance c j e3) as [s4 e4].
  pose proof (training_relevance_config c j e4) as H5.
  destruct (_calculate_training_relevance c j e4) as [s5 e5].
  cbn [snd] in *.
  eapply same_config_trans; [exact H12 |].
  eapply same_config_trans; [exact H3 |].
  eapply same_config_trans; eassumption.
Qed.

(** *** An engine whose model encodes every text *)

Definition working_model (e : engine) : Prop :=
  is_available e = true
  /\ exists encode, model e = Some encode /\ forall text, exists v, encode text = Ok v.

Lemma working_model_config e e' :
  working_model e -> same_config e e' -> working_model e'.
Proof.
  intros (Hon & encode & Hm & Henc) (Hd & _ & Hmodel & _).
  split; [unfold is_available in *; congruence |].
  exists encode. split; [congruence | exact Henc].
Qed.

Lemma encode_text_works text context use_cache e :
  working_model e -> exists v, fst (encode_text text context use_cache e) = Some v.
Proof.
  intros (Hon & encode & Hm & Henc). unfold encode_text.
  rewrite Hon, Hm. cbn [negb].
  destruct (if use_cache then _ else _) as [cached |]; [eexists; reflexivity |].
  match goal with
  | |- context [encode ?t] => destruct (Henc t) as [v Hv]; rewrite Hv
  end.
  eexists; reflexivity.
Qed.

Lemma encode_job_requirements_works job_data e :
  working_model e -> exists v, fst (encode_job_requirements job_data e) = Some v.
Proof.
  intros Hw. unfold encode_job_requirements.
  destruct Hw as (Hon & Hrest). rewrite Hon. cbn [negb].
  destruct (job_embeddings_cache e !! _); [eexists; reflexivity |].
  match goal with
  | |- context [encode_text ?t ?c ?u ?e0] =>
      destruct (encode_text_works t c u e0 (conj Hon Hrest)) as [v Hv];
      destruct (encode_text t c u e0) as [emb e1]
  end.
  cbn [fst] in Hv. subst emb. eexists; reflexivity.
Qed.

Lemma encode_candidate_profile_works candidate_data e parts :
  working_model e ->
  candidate_profile_parts candidate_data = Ok parts ->
  truthy (PStr (strip (join " | " parts))) = true ->
  exists v, fst (encode_candidate_profile candidate_data e) = Some v.
Proof.
  intros Hw Hparts Htext. unfold encode_candidate_profile.
  destruct Hw as (Hon & Hrest). rewrite Hon, Hparts, Htext. cbn [negb].
  apply encode_text_works. split; assumption.
Qed.

(** With such an engine a candidate whose profile text is not blank gets
    detailed scores and no ['error'] entry. *)
Lemma calculate_detailed_semantic_score_works candidate_data job_data e parts :
  working_model e ->
  candidate_profile_parts candidate_data = Ok parts ->
  truthy (PStr (strip (join " | " parts))) = true ->
  error (fst (calculate_detailed_semantic_score candidate_data job_data e)) = None.
Proof.
  intros Hw Hparts Htext. unfold calculate_detailed_semantic_score.
  destruct (encode_candidate_profile_works candidate_data e parts Hw Hparts Htext)
    as [cv Hcv].
  pose proof (encode_candidate_profile_config candidate_data e) as Hc1.
  destruct Hw as (Hon & Hrest). rewrite Hon. cbn [negb].
  destruct (encode_candidate_profile candidate_data e) as [ce e1].
  cbn [fst snd] in *. subst ce.
  destruct (encode_job_requirements_works job_data e1
              (working_model_config e e1 (conj Hon Hrest) Hc1)) as [jv Hjv].
  destruct (encode_job_requirements job_data e1) as [je e2].
  cbn [fst] in Hjv. subst je.
  destruct (_calculate_education_relevance _ _ _) as [s3 e3].
  destruct (_calculate_experience_relevance _ _ _) as [s4 e4].
  destruct (_calculate_training_relevance _ _ _) as [s5 e5].
  reflexivity.
Qed.

(** *** The job cache *)

(** The key under which [encode_job_requirements] stores a job *)
Definition job_cache_key (e : engine) (job_data : pydict) : string :=
  _generate_cache_key e (join " | " (job_text_parts job_data))
    ("job_" +:+ py_str (dict_get job_data "id" (PStr "unknown"))).

Lemma job_cache_key_config e e' job_data :
  same_config e e' -> job_cache_key e' job_data = job_cache_key e job_data.
Proof.
  intros (_ & Hname & _). unfold job_cache_key, _generate_cache_key.
  rewrite Hname. reflexivity.
Qed.

Lemma job_cache_hit job_data e v :
  is_available e = true ->
  job_embeddings_cache e !! job_cache_key e job_data = Some v ->
  encode_job_requirements job_data e = (Some v, e).
Proof.
  intros Hon Hhit. unfold encode_job_requirements. rewrite Hon. cbn [negb].
  fold (job_cache_key e job_data). rewrite Hhit. reflexivity.
Qed.

Lemma job_cache_after job_data e v e1 :
  encode_job_requirements job_data e = (Some v, e1) ->
  is_available e1 = true
  /\ job_embeddings_cache e1 !! job_cache_key e1 job_data = Some v.
Proof.
  unfold encode_job_requirements.
  destruct (is_available e) eqn:Hon; cbn [negb]; [| discriminate].
  fold (job_cache_key e job_data).
  destruct (job_embeddings_cache e !! _) as [cached |] eqn:Hhit.
  - intros Hrun. injection Hrun as -> ->. split; assumption.
  - match goal with
    | |- context [encode_text ?t ?c ?u e] =>
        pose proof (encode_text_config t c u e) as Hc;
        destruct (encode_text t c u e) as [emb e']
    end.
    cbn [snd] in Hc.
    destruct emb as [v' |]; [| discriminate].
    intros Hrun. injection Hrun as -> <-.
    assert (Hc' : same_config e
                    (with_job_cache (<[job_cache_key e job_data := v]>
                                       (job_embeddings_cache e')) e')).
    { destruct Hc as (A1 & A2 & A3 & A4 & A5). repeat split; assumption. }
    split.
    + rewrite (same_config_available _ _ Hc'). exact Hon.
    + rewrite (job_cache_key_config _ _ job_data Hc').
      cbn [with_job_cache job_embeddings_cache]. apply lookup_insert_eq.
Qed.

(** Once [encode_job_requirements] has returned an embedding for a job, the
    next call for that job returns the same embedding from the cache and
    leaves the engine as it is: the model is not asked again. *)
Theorem job_embedding_is_reused job_data e v e1 :
  encode_job_requirements job_data e = (Some v, e1) ->
  encode_job_requirements job_data e1 = (Some v, e1).
Proof.
  intros Hrun. destruct (job_cache_after job_data e v e1 Hrun) as [Hon Hhit].
  apply job_cache_hit; assumption.
Qed.

(** Only [encode_job_requirements] writes the job cache, and only on a
    miss. *)
Lemma encode_text_job_cache text context use_cache e :
  job_embeddings_cache (snd (encode_text text context use_cache e))
  = job_embeddings_cache e.
Proof.
  unfold encode_text.
  destruct (negb _); [reflexivity |].
  destruct (if use_cache then _ else _); [reflexivity |].
  destruct (model e) as [enc |]; [| reflexivity].
  destruct (enc _); [| reflexivity].
  destruct use_cache; reflexivity.
Qed.

Lemma relevance_of_texts_job_cache texts job_text context job_context e :
  job_embeddings_cache (snd (relevance_of_texts texts job_text context job_context e))
  = job_embeddings_cache e.
Proof.
  unfold relevance_of_texts.
  destruct texts as [| t ts]; [reflexivity |].
  pose proof (encode_text_job_cache (join " | " (t :: ts)) context true e) as H1.
  destruct (encode_text (join " | " (t :: ts)) context true e) as [a e1].
  pose proof (encode_text_job_cache job_text job_context true e1) as H2.
  destruct (encode_text job_text job_context true e1) as [b e2].
  cbn [snd] in *. destruct a, b; cbn [snd]; congruence.
Qed.

Lemma encode_candidate_profile_job_cache candidate_data e :
  job_embeddings_cache (snd (encode_candidate_profile candidate_data e))
  = job_embeddings_cache e.
Proof.
  unfold encode_candidate_profile.
  destruct (negb _); [reflexivity |].
  destruct (candidate_profile_parts _); [| reflexivity].
  destruct (negb _); [reflexivity |].
  apply encode_text_job_cache.
Qed.

Lemma calculate_detailed_semantic_score_job_cache c j e v :
  job_embeddings_cache e !! job_cache_key e j = Some v ->
  job_embeddings_cache (snd (calculate_detailed_semantic_score c j e))
  = job_embeddings_cache e.
Proof.
  intros Hhit. unfold calculate_detailed_semantic_score.
  destruct (is_available e) eqn:Hon; cbn [negb]; [| reflexivity].
  pose proof (encode_candidate_profile_config c e) as Hc1.
  pose proof (encode_candidate_profile_job_cache c e) as Hj1.
  destruct (encode_candidate_profile c e) as [ce e1]. cbn [snd] in *.
  assert (Hrun : encode_job_requirements j e1 = (Some v, e1)).
  { apply job_cache_hit.
    - rewrite (same_config_available _ _ Hc1). exact Hon.
    - rewrite (job_cache_key_config _ _ j Hc1), Hj1. exact Hhit. }
  rewrite Hrun.
  destruct ce; cbn [snd]; [| exact Hj1].
  unfold _calculate_education_relevance, _calculate_experience_relevance,
    _calculate_training_relevance.
  match goal with
  | |- context [match education_texts c with _ => _ end] =>
      destruct (education_texts c) as [t3 | ?]
  end;
  match goal with
  | |- context [match experience_texts c with _ => _ end] =>
      destruct (experience_texts c) as [t4 | ?]
  end;
  match goal with
  | |- context [match training_texts c with _ => _ end] =>
      destruct (training_texts c) as [t5 | ?]
  end;
  repeat match goal with
         | |- context [relevance_of_texts ?t ?jt ?x ?y ?e0] =>
             let Hq := fresh "Hq" in
             pose proof (relevance_of_texts_job_cache t jt x y e0) as Hq;
             destruct (relevance_of_texts t jt x y e0); cbn [snd] in Hq
         end;
  cbn [snd job_embeddings_cache]; congruence.
Qed.

End Frame.

Lemma job_embedding_is_reused_witness :
  exists v e1,
    encode_job_requirements Demo.job Demo.engine_with_model = (Some v, e1)
    /\ encode_job_requirements Demo.job e1 = (Some v, e1).
Proof.
  assert (Hw : working_model Demo.engine_with_model).
  { split; [reflexivity |]. exists Demo.unit_model. split; [reflexivity |].
    intros text. exists [1; 0]. reflexivity. }
  destruct (encode_job_requirements_works Demo.job Demo.engine_with_model Hw)
    as [v Hv].
  destruct (encode_job_requirements Demo.job Demo.engine_with_model) as [emb e1] eqn:Hrun.
  cbn [fst] in Hv. subst emb.
  exists v, e1. split; [reflexivity |].
  apply (job_embedding_is_reused Demo.job Demo.engine_with_model v e1 Hrun).
Defined.

End SemanticEngineSpec.

(* ===================================================================== *)
(** ** Properties of the enhanced assessment engine *)
(* ===================================================================== *)

Module EnhancedEngineSpec.

Import Py EnhancedEngine.

Ltac map_lookup :=
  repeat first
    [ rewrite lookup_insert_eq
    | rewrite lookup_insert_ne by discriminate
    | rewrite lookup_alter_eq
    | rewrite lookup_alter_ne by discriminate
    | rewrite lookup_empty ].

(** *** The weighted blend *)

Lemma default_weight_education : weight default_weights "education_relevance" = Ok 0.35.
Proof. unfold weight, default_weights. map_lookup. reflexivity. Qed.

Lemma default_weight_experience : weight default_weights "experience_relevance" = Ok 0.45.
Proof. unfold weight, default_weights. map_lookup. reflexivity. Qed.

Lemma default_weight_training : weight default_weights "training_relevance" = Ok 0.15.
Proof. unfold weight, default_weights. map_lookup. reflexivity. Qed.

Lemma default_weight_bonus : weight default_weights "overall_quality_bonus" = Ok 0.05.
Proof. unfold weight, default_weights. map_lookup. reflexivity. Qed.

(** The value [final_semantic_score] holds after the clamp *)
Definition clamped_score (w_edu w_exp w_train w_bonus edu exp train overall : R) : R :=
  PyNum.py_max 0
    (PyNum.py_min 100
       ((edu * w_edu + exp * w_exp + train * w_train + overall * w_bonus) * 100)).

Lemma score_details_final (w : gmap string R) d w_edu w_exp w_train w_bonus :
  SemanticEngine.error d = None ->
  weight w "education_relevance" = Ok w_edu ->
  weight w "experience_relevance" = Ok w_exp ->
  weight w "training_relevance" = Ok w_train ->
  weight w "overall_quality_bonus" = Ok w_bonus ->
  exists r, score_details w d = Ok r
    /\ final_score r
       = PyNum.py_round
           (clamped_score w_edu w_exp w_train w_bonus
              (SemanticEngine.education_relevance d)
              (SemanticEngine.experience_relevance d)
              (SemanticEngine.training_relevance d)
              (SemanticEngine.overall_score d)) 1.
Proof.
  intros Herr He Hx Ht Hb. unfold score_details.
  rewrite Herr, He. simpl. rewrite Hx. simpl. rewrite Ht. simpl. rewrite Hb. simpl.
  eexists. split; [reflexivity |]. simpl. reflexivity.
Qed.

Lemma clamped_score_default edu exp train overall :
  0 <= edu <= 1 -> 0 <= exp <= 1 -> 0 <= train <= 1 -> 0 <= overall <= 1 ->
  clamped_score 0.35 0.45 0.15 0.05 edu exp train overall
  = (edu * 0.35 + exp * 0.45 + train * 0.15 + overall * 0.05) * 100.
Proof.
  intros He Hx Ht Ho. unfold clamped_score.
  apply PyNumFacts.py_clamp_id. lra.
Qed.

(** C1, as amended. With the default weights and category scores in
    [0, 1], the final semantic score is
    [clamp(0, 100, (edu*0.35 + exp*0.45 + train*0.15 + overall*0.05) * 100)]
    rounded to one decimal place: [round(..., 1)] is what the method
    returns. The clamp leaves such a sum unchanged, the rounded score
    differs from it by at most 0.05 and stays in [0, 100]. *)
Theorem semantic_score_is_rounded_clamp (d : SemanticEngine.semantic_details) :
  SemanticEngine.error d = None ->
  0 <= SemanticEngine.education_relevance d <= 1 ->
  0 <= SemanticEngine.experience_relevance d <= 1 ->
  0 <= SemanticEngine.training_relevance d <= 1 ->
  0 <= SemanticEngine.overall_score d <= 1 ->
  exists r, score_details default_weights d = Ok r
    /\ final_score r
       = PyNum.py_round
           (PyNum.py_max 0 (PyNum.py_min 100
              ((SemanticEngine.education_relevance d * 0.35
                + SemanticEngine.experience_relevance d * 0.45
                + SemanticEngine.training_relevance d * 0.15
                + SemanticEngine.overall_score d * 0.05) * 100))) 1
    /\ PyNum.py_max 0 (PyNum.py_min 100
              ((SemanticEngine.education_relevance d * 0.35
                + SemanticEngine.experience_relevance d * 0.45
                + SemanticEngine.training_relevance d * 0.15
                + SemanticEngine.overall_score d * 0.05) * 100))
       = (SemanticEngine.education_relevance d * 0.35
          + SemanticEngine.experience_relevance d * 0.45
          + SemanticEngine.training_relevance d * 0.15
          + SemanticEngine.overall_score d * 0.05) * 100
    /\ Rabs (final_score r
             - (SemanticEngine.education_relevance d * 0.35
                + SemanticEngine.experience_relevance d * 0.45
                + SemanticEngine.training_relevance d * 0.15
                + SemanticEngine.overall_score d * 0.05) * 100) <= 0.05
    /\ 0 <= final_score r <= 100.
Proof.
  intros Herr He Hx Ht Ho.
  destruct (score_details_final default_weights d _ _ _ _ Herr
              default_weight_education default_weight_experience
              default_weight_training default_weight_bonus) as (r & Hr & Hfinal).
  pose proof (clamped_score_default _ _ _ _ He Hx Ht Ho) as Hclamp.
  unfold clamped_score in Hfinal, Hclamp.
  exists r. split; [exact Hr |]. split; [exact Hfinal |]. split; [exact Hclamp |].
  rewrite Hfinal, Hclamp. split.
  - pose proof (PyNumFacts.py_round_error
                  ((SemanticEngine.education_relevance d * 0.35
                    + SemanticEngine.experience_relevance d * 0.45
                    + SemanticEngine.training_relevance d * 0.15
                    + SemanticEngine.overall_score d * 0.05) * 100) 1) as Hround.
    simpl in Hround. lra.
  - apply (PyNumFacts.py_round_range _ 1 0 100). lra.
Qed.

(** The spec's example: scores 0.8, 0.6, 0.4 and 0.7 give 64.5. *)
Lemma semantic_score_is_rounded_clamp_witness :
  exists r, score_details default_weights (Demo.details 0.8 0.6 0.4 0.7) = Ok r
    /\ final_score r = 64.5.
Proof.
  destruct (semantic_score_is_rounded_clamp (Demo.details 0.8 0.6 0.4 0.7))
    as (r & Hr & Hfinal & Hclamp & _); simpl; try lra; try reflexivity.
  exists r. split; [exact Hr |].
  rewrite Hfinal, Hclamp. simpl.
  replace ((0.8 * 0.35 + 0.6 * 0.45 + 0.4 * 0.15 + 0.7 * 0.05) * 100)
    with (IZR 645 / 10 ^ 1) by (simpl; lra).
  rewrite PyNumFacts.py_round_grid. simpl. lra.
Defined.

(** C1 as stated fails: an education relevance of 0.803 alone gives the
    clamped value 28.105, and the method returns 28.1. *)
Lemma final_score_is_not_the_clamp :
  exists r, score_details default_weights (Demo.details 0.803 0 0 0) = Ok r
    /\ PyNum.py_max 0 (PyNum.py_min 100
          ((0.803 * 0.35 + 0 * 0.45 + 0 * 0.15 + 0 * 0.05) * 100)) = 28.105
    /\ final_score r = 28.1
    /\ final_score r
       <> PyNum.py_max 0 (PyNum.py_min 100
            ((0.803 * 0.35 + 0 * 0.45 + 0 * 0.15 + 0 * 0.05) * 100)).
Proof.
  destruct (score_details_final default_weights (Demo.details 0.803 0 0 0) _ _ _ _
              eq_refl default_weight_education default_weight_experience
              default_weight_training default_weight_bonus) as (r & Hr & Hfinal).
  assert (Hclamp : PyNum.py_max 0 (PyNum.py_min 100
            ((0.803 * 0.35 + 0 * 0.45 + 0 * 0.15 + 0 * 0.05) * 100)) = 28.105).
  { rewrite PyNumFacts.py_clamp_id; lra. }
  assert (Hfin : final_score r = 28.1).
  { rewrite Hfinal. unfold clamped_score. simpl. rewrite Hclamp.
    unfold PyNum.py_round.
    rewrite (PyNumFacts.round_half_even_down _ 281) by (simpl; lra).
    simpl. lra. }
  exists r. split; [exact Hr |]. split; [exact Hclamp |]. split; [exact Hfin |].
  rewrite Hfin, Hclamp. lra.
Qed.

(** *** The fallback chain of [assess_candidate_enhanced] *)

Section WithCollaborators.
Context `{PyRuntime}.
Variable assess_candidate : pydict -> pydict -> outcome pyval.

(** What the semantic block attempted: nothing when semantic scoring was
    not requested or the engine is not available, otherwise the outcome of
    [_calculate_semantic_assessment]. *)
Definition semantic_attempt (candidate_data job_data : pydict)
    (include_semantic : bool) (st : engine) : option (outcome semantic_result) :=
  if include_semantic && SemanticEngine.is_available (semantic_engine st)
  then Some (fst (_calculate_semantic_assessment candidate_data job_data st))
  else None.

(** What the traditional block attempted: the entries read from the value
    [assess_candidate] returned, or the exception. *)
Definition traditional_attempt (candidate_data job_data : pydict)
    (include_traditional : bool) : option (outcome (pyval * pyval)) :=
  if include_traditional
  then Some (assess_candidate candidate_data job_data ≫= traditional_entries)
  else None.

(** The fallback policy, read off the two attempts *)
Definition expected_score (sem : option (outcome semantic_result))
    (trad : option (outcome (pyval * pyval))) : pyval :=
  match sem, trad with
  | Some (Ok sr), _ => PFloat (final_score sr)
  | _, Some (Ok (PNone, _)) => PInt 0
  | _, Some (Ok (final, _)) => final
  | _, _ => PInt 0
  end.

Definition expected_method (sem : option (outcome semantic_result))
    (trad : option (outcome (pyval * pyval))) : string :=
  match sem, trad with
  | Some (Ok _), _ => "semantic"
  | _, Some (Ok (PNone, _)) => "failed"
  | _, Some (Ok _) => "traditional"
  | _, _ => "failed"
  end.

Definition expected_errors (sem : option (outcome semantic_result))
    (trad : option (outcome (pyval * pyval))) : list string :=
  match sem with
  | Some (Raise msg) => ["Semantic assessment failed: " +:+ msg]
  | _ => []
  end
  ++ match trad with
     | Some (Raise msg) => ["Traditional assessment failed: " +:+ msg]
     | _ => []
     end
  ++ (if String.eqb (expected_method sem trad) "failed"
      then ["No assessment method succeeded"] else []).

(** The entries of a result dictionary the fallback policy is about *)
Record view : Type := {
  v_score : option pyval;
  v_method : option pyval;
  v_errors : option pyval;
  v_candidate : option pyval;
  v_job : option pyval;
  v_semantic : option pyval;
  v_traditional : option pyval
}.

Definition view_of (r : result_dict) : view :=
  {| v_score := r !! "recommended_score";
     v_method := r !! "assessment_method";
     v_errors := r !! "errors";
     v_candidate := r !! "candidate_id";
     v_job := r !! "job_id";
     v_semantic := r !! "semantic_score";
     v_traditional := r !! "traditional_score" |}.

Definition add_error (msg : string) (errors : option pyval) : option pyval :=
  match errors with
  | Some (PList l) => Some (PList (l ++ [PStr msg]))
  | other => other
  end.

Lemma lookup_append_error msg (r : result_dict) :
  append_error msg r !! "errors" = add_error msg (r !! "errors").
Proof.
  unfold append_error. rewrite lookup_alter_eq.
  destruct (r !! "errors") as [[] |]; reflexivity.
Qed.

Lemma view_initial candidate_data job_data :
  view_of (initial_result candidate_data job_data)
  = {| v_score := Some PNone;
       v_method := Some (PStr "hybrid");
       v_errors := Some (PList []);
       v_candidate := Some (dict_get candidate_data "id" PNone);
       v_job := Some (dict_get job_data "id" PNone);
       v_semantic := Some PNone;
       v_traditional := Some PNone |}.
Proof. unfold view_of, initial_result. map_lookup. reflexivity. Qed.

Definition semantic_step (sem : option (outcome semantic_result))
    (include_traditional : bool) (v : view) : view :=
  match sem with
  | Some (Ok sr) =>
      {| v_score := Some (PFloat (final_score sr));
         v_method := Some (PStr "semantic");
         v_errors := v_errors v;
         v_candidate := v_candidate v;
         v_job := v_job v;
         v_semantic := Some (PFloat (final_score sr));
         v_traditional := v_traditional v |}
  | Some (Raise msg) =>
      {| v_score := v_score v;
         v_method := if include_traditional
                     then Some (PStr "traditional_fallback") else v_method v;
         v_errors := add_error ("Semantic assessment failed: " +:+ msg) (v_errors v);
         v_candidate := v_candidate v;
         v_job := v_job v;
         v_semantic := v_semantic v;
         v_traditional := v_traditional v |}
  | None => v
  end.

Lemma view_semantic_block candidate_data job_data include_semantic
    include_traditional (result : result_dict) (st : engine) :
  view_of (fst (semantic_block candidate_data job_data include_semantic
                  include_traditional result st))
  = semantic_step (semantic_attempt candidate_data job_data include_semantic st)
      include_traditional (view_of result).
Proof.
  unfold semantic_block, semantic_attempt.
  destruct (include_semantic && _); [| reflexivity].
  destruct (_calculate_semantic_assessment _ _ _) as [[sr | msg] st1]; cbn [fst].
  - unfold view_of, semantic_step. map_lookup. reflexivity.
  - destruct include_traditional; cbn [fst]; unfold view_of, semantic_step;
      map_lookup; rewrite lookup_append_error; unfold append_error;
      map_lookup; reflexivity.
Qed.

Definition traditional_step (trad : option (outcome (pyval * pyval))) (v : view)
    : view :=
  match trad with
  | Some (Ok (final, _)) =>
      {| v_score := if is_none (v_score v) then Some final else v_score v;
         v_method := if is_none (v_score v)
                     then Some (PStr "traditional") else v_method v;
         v_errors := v_errors v;
         v_candidate := v_candidate v;
         v_job := v_job v;
         v_semantic := v_semantic v;
         v_traditional := Some final |}
  | Some (Raise msg) =>
      {| v_score := v_score v;
         v_method := v_method v;
         v_errors := add_error ("Traditional assessment failed: " +:+ msg) (v_errors v);
         v_candidate := v_candidate v;
         v_job := v_job v;
         v_semantic := v_semantic v;
         v_traditional := v_traditional v |}
  | None => v
  end.

Lemma view_traditional_block candidate_data job_data include_traditional
    (result : result_dict) (st : engine) :
  view_of (fst (traditional_block assess_candidate candidate_data job_data
                  include_traditional result st))
  = traditional_step (traditional_attempt candidate_data job_data include_traditional)
      (view_of result).
Proof.
  unfold traditional_block, traditional_attempt.
  destruct include_traditional; [| reflexivity].
  destruct (assess_candidate _ _ ≫= traditional_entries) as [[final entries] | msg];
    cbn [fst].
  - unfold traditional_step. cbn [view_of v_score v_method]. map_lookup.
    destruct (is_none (result !! "recommended_score"));
      unfold view_of; map_lookup; reflexivity.
  - unfold view_of, traditional_step. rewrite lookup_append_error.
    unfold append_error. map_lookup. reflexivity.
Qed.

Definition closing_step (v : view) : view :=
  if is_none (v_score v)
  then {| v_score := Some (PInt 0);
          v_method := Some (PStr "failed");
          v_errors := add_error "No assessment method succeeded" (v_errors v);
          v_candidate := v_candidate v;
          v_job := v_job v;
          v_semantic := v_semantic v;
          v_traditional := v_traditional v |}
  else v.

Lemma view_closing (pm : pyval) (result : result_dict) :
  view_of (ensure_recommended_score (<["performance_metrics" := pm]> result))
  = closing_step (view_of result).
Proof.
  unfold ensure_recommended_score, closing_step. cbn [view_of v_score].
  map_lookup.
  destruct (is_none (result !! "recommended_score")); unfold view_of.
  - rewrite lookup_append_error. unfold append_error. map_lookup. reflexivity.
  - map_lookup. reflexivity.
Qed.

(** The entries of the result, from the two attempts *)
Lemma view_assess_candidate_enhanced (candidate_data job_data : pydict)
    (include_semantic include_traditional : bool) (st : engine) :
  view_of (fst (assess_candidate_enhanced assess_candidate candidate_data job_data
                  include_semantic include_traditional st))
  = closing_step
      (traditional_step
         (traditional_attempt candidate_data job_data include_traditional)
         (semantic_step
            (semantic_attempt candidate_data job_data include_semantic st)
            include_traditional
            (view_of (initial_result candidate_data job_data)))).
Proof.
  unfold assess_candidate_enhanced.
  pose proof (view_semantic_block candidate_data job_data include_semantic
                include_traditional (initial_result candidate_data job_data) st) as Hs.
  destruct (semantic_block _ _ _ _ _ _) as [r1 st1]. cbn [fst] in Hs.
  pose proof (view_traditional_block candidate_data job_data include_traditional
                r1 st1) as Ht.
  destruct (traditional_block _ _ _ _ _ _) as [r2 st2]. cbn [fst] in Ht.
  cbn [fst]. rewrite view_closing, Ht, Hs. reflexivity.
Qed.

Definition expected_semantic (sem : option (outcome semantic_result)) : pyval :=
  match sem with
  | Some (Ok sr) => PFloat (final_score sr)
  | _ => PNone
  end.

Definition expected_traditional (trad : option (outcome (pyval * pyval))) : pyval :=
  match trad with
  | Some (Ok (final, _)) => final
  | _ => PNone
  end.

Lemma assess_candidate_enhanced_fields (candidate_data job_data : pydict)
    (include_semantic include_traditional : bool) (st : engine) :
  let sem := semantic_attempt candidate_data job_data include_semantic st in
  let trad := traditional_attempt candidate_data job_data include_traditional in
  let r := fst (assess_candidate_enhanced assess_candidate candidate_data job_data
                  include_semantic include_traditional st) in
  r !! "recommended_score" = Some (expected_score sem trad)
  /\ r !! "assessment_method" = Some (PStr (expected_method sem trad))
  /\ r !! "errors" = Some (PList (map PStr (expected_errors sem trad)))
  /\ r !! "candidate_id" = Some (dict_get candidate_data "id" PNone)
  /\ r !! "job_id" = Some (dict_get job_data "id" PNone)
  /\ r !! "semantic_score" = Some (expected_semantic sem)
  /\ r !! "traditional_score" = Some (expected_traditional trad).
Proof.
  intros sem trad r.
  pose proof (view_assess_candidate_enhanced candidate_data job_data
                include_semantic include_traditional st) as Hv.
  fold sem trad r in Hv. rewrite view_initial in Hv.
  assert (Hfields : view_of r
            = {| v_score := Some (expected_score sem trad);
                 v_method := Some (PStr (expected_method sem trad));
                 v_errors := Some (PList (map PStr (expected_errors sem trad)));
                 v_candidate := Some (dict_get candidate_data "id" PNone);
                 v_job := Some (dict_get job_data "id" PNone);
                 v_semantic := Some (expected_semantic sem);
                 v_traditional := Some (expected_traditional trad) |}).
  { rewrite Hv. clear Hv.
    destruct sem as [[sr | msg] |], trad as [[[[] entries] | msg'] |];
      destruct include_traditional; reflexivity. }
  unfold view_of in Hfields. injection Hfields as -> -> -> -> -> -> ->.
  repeat split.
Qed.

Lemma semantic_attempt_fails candidate_data job_data include_semantic st :
  SemanticEngine.is_available (semantic_engine st) = false
  \/ (exists msg,
        fst (_calculate_semantic_assessment candidate_data job_data st) = Raise msg) ->
  semantic_attempt candidate_data job_data include_semantic st = None
  \/ exists msg,
       semantic_attempt candidate_data job_data include_semantic st = Some (Raise msg).
Proof.
  unfold semantic_attempt. intros [Hoff | (msg & Hraise)].
  - rewrite Hoff, andb_false_r. left. reflexivity.
  - destruct (include_semantic && _); [right; exists msg; rewrite Hraise |left];
      reflexivity.
Qed.

(** C2, as amended. When the semantic path is unavailable or raises and
    [assess_candidate] returns a dictionary whose final score is [T] (any
    value but [None]), the result recommends [T] and records it as the
    traditional score; with the engine unavailable the method is
    ['traditional'] and no error is recorded. *)
Theorem traditional_score_after_semantic_failure
    (candidate_data job_data : pydict) (st : engine) (tr : pydict) (T : pyval) :
  SemanticEngine.is_available (semantic_engine st) = false
  \/ (exists msg,
        fst (_calculate_semantic_assessment candidate_data job_data st) = Raise msg) ->
  assess_candidate candidate_data job_data = Ok (PDict tr) ->
  dict_get tr "final_score" (PInt 0) = T ->
  T <> PNone ->
  let r := fst (assess_candidate_enhanced assess_candidate candidate_data job_data
                  true true st) in
  r !! "recommended_score" = Some T
  /\ r !! "traditional_score" = Some T
  /\ (SemanticEngine.is_available (semantic_engine st) = false ->
      r !! "assessment_method" = Some (PStr "traditional")
      /\ r !! "errors" = Some (PList [])).
Proof.
  intros Hsem Htrad Hfinal Hsome r.
  destruct (assess_candidate_enhanced_fields candidate_data job_data true true st)
    as (Hscore & Hmethod & Herrors & _ & _ & _ & Htscore).
  fold r in Hscore, Hmethod, Herrors, Htscore.
  assert (Ht : exists entries,
             traditional_attempt candidate_data job_data true
             = Some (Ok (T, entries))).
  { unfold traditional_attempt. rewrite Htrad. cbn. rewrite Hfinal.
    eexists. reflexivity. }
  destruct Ht as [entries Ht].
  rewrite Ht in Hscore, Hmethod, Herrors, Htscore.
  split; [| split; [exact Htscore |]].
  - rewrite Hscore.
    destruct (semantic_attempt_fails candidate_data job_data true st Hsem)
      as [-> | (msg & ->)]; destruct T; try reflexivity; contradiction.
  - intros Hoff.
    assert (Hs : semantic_attempt candidate_data job_data true st = None).
    { unfold semantic_attempt. rewrite Hoff. reflexivity. }
    rewrite Hs in Hmethod, Herrors.
    destruct T; try contradiction; split; assumption.
Qed.

Lemma no_score_fields (candidate_data job_data : pydict)
    (include_semantic : bool) (st : engine) (msg_t : string) :
  SemanticEngine.is_available (semantic_engine st) = false
  \/ (exists msg,
        fst (_calculate_semantic_assessment candidate_data job_data st) = Raise msg) ->
  assess_candidate candidate_data job_data = Raise msg_t ->
  exists errs,
    fst (assess_candidate_enhanced assess_candidate candidate_data job_data
           include_semantic true st) !! "recommended_score" = Some (PInt 0)
    /\ fst (assess_candidate_enhanced assess_candidate candidate_data job_data
              include_semantic true st) !! "assessment_method" = Some (PStr "failed")
    /\ fst (assess_candidate_enhanced assess_candidate candidate_data job_data
              include_semantic true st) !! "errors" = Some (PList errs)
    /\ errs <> []
    /\ In (PStr ("Traditional assessment failed: " +:+ msg_t)) errs
    /\ In (PStr "No assessment method succeeded") errs.
Proof.
  intros Hsem Htrad.
  destruct (assess_candidate_enhanced_fields candidate_data job_data
              include_semantic true st) as (Hscore & Hmethod & Herrors & _).
  assert (Ht : traditional_attempt candidate_data job_data true = Some (Raise msg_t)).
  { unfold traditional_attempt. rewrite Htrad. reflexivity. }
  rewrite Ht in Hscore, Hmethod, Herrors.
  destruct (semantic_attempt_fails candidate_data job_data include_semantic st Hsem)
    as [Hs | (msg & Hs)]; rewrite Hs in Hscore, Hmethod, Herrors;
    eexists; (split; [exact Hscore |]);
    (split; [exact Hmethod |]); (split; [exact Herrors |]);
    cbn; (split; [discriminate |]); tauto.
Qed.

(** C5. When the semantic path gives no score (it raises, or the engine is
    unavailable) and [assess_candidate] raises, the call still returns a
    dictionary: its recommended score is the integer 0, its method is
    ['failed'], and its error list holds the message of the traditional
    failure and ['No assessment method succeeded']. *)
Theorem both_paths_fail (candidate_data job_data : pydict)
    (include_semantic : bool) (st : engine) (msg_t : string) :
  SemanticEngine.is_available (semantic_engine st) = false
  \/ (exists msg,
        fst (_calculate_semantic_assessment candidate_data job_data st) = Raise msg) ->
  assess_candidate candidate_data job_data = Raise msg_t ->
  exists r st' errs,
    assess_candidate_enhanced assess_candidate candidate_data job_data
      include_semantic true st = (r, st')
    /\ r !! "recommended_score" = Some (PInt 0)
    /\ r !! "assessment_method" = Some (PStr "failed")
    /\ r !! "errors" = Some (PList errs)
    /\ errs <> []
    /\ In (PStr ("Traditional assessment failed: " +:+ msg_t)) errs
    /\ In (PStr "No assessment method succeeded") errs.
Proof.
  intros Hsem Htrad.
  destruct (no_score_fields candidate_data job_data include_semantic st msg_t
              Hsem Htrad) as (errs & Hscore & Hmethod & Herrors & Hne & Hin1 & Hin2).
  destruct (assess_candidate_enhanced _ _ _ _ _ _) as [r st'] eqn:Hrun.
  cbn [fst] in Hscore, Hmethod, Herrors.
  exists r, st', errs. repeat split; assumption.
Qed.

(** The label ['traditional_fallback'], which the handler of the semantic
    block writes, is never the method of a returned result: the method is
    ['semantic'], ['traditional'] or ['failed']. *)
Theorem returned_methods (candidate_data job_data : pydict)
    (include_semantic include_traditional : bool) (st : engine) :
  let r := fst (assess_candidate_enhanced assess_candidate candidate_data job_data
                  include_semantic include_traditional st) in
  (r !! "assessment_method" = Some (PStr "semantic")
   \/ r !! "assessment_method" = Some (PStr "traditional")
   \/ r !! "assessment_method" = Some (PStr "failed"))
  /\ r !! "assessment_method" <> Some (PStr "traditional_fallback")
  /\ r !! "recommended_score" <> Some PNone.
Proof.
  intros r.
  destruct (assess_candidate_enhanced_fields candidate_data job_data
              include_semantic include_traditional st) as (Hscore & Hmethod & _).
  fold r in Hscore, Hmethod. rewrite Hscore, Hmethod.
  destruct (semantic_attempt _ _ _ _) as [[sr | msg] |];
    destruct (traditional_attempt _ _ _) as [[[[] entries] | msg'] |];
    cbn; (split; [tauto |]); split; discriminate.
Qed.

(** *** What an assessment leaves unchanged *)

Definition same_setup (st st' : engine) : Prop :=
  semantic_weights st' = semantic_weights st
  /\ SemanticEngineSpec.same_config (semantic_engine st) (semantic_engine st').

Lemma same_setup_refl st : same_setup st st.
Proof. split; [reflexivity | apply SemanticEngineSpec.same_config_refl]. Qed.

Lemma same_setup_trans st1 st2 st3 :
  same_setup st1 st2 -> same_setup st2 st3 -> same_setup st1 st3.
Proof.
  intros [W1 C1] [W2 C2]. split; [congruence |].
  eapply SemanticEngineSpec.same_config_trans; eassumption.
Qed.

Lemma same_setup_available st st' :
  same_setup st st' ->
  SemanticEngine.is_available (semantic_engine st')
  = SemanticEngine.is_available (semantic_engine st).
Proof. intros [_ Hc]. apply SemanticEngineSpec.same_config_available. exact Hc. Qed.

Lemma same_setup_bump key st st' : same_setup st st' -> same_setup st (bump key st').
Proof. intros [Hw Hc]. split; assumption. Qed.

Lemma semantic_assessment_setup c j st :
  same_setup st (snd (_calculate_semantic_assessment c j st)).
Proof.
  unfold _calculate_semantic_assessment.
  pose proof (SemanticEngineSpec.calculate_detailed_semantic_score_config c j
                (semantic_engine st)) as Hc.
  destruct (SemanticEngine.calculate_detailed_semantic_score _ _ _) as [d se].
  split; [reflexivity | exact Hc].
Qed.

Lemma semantic_block_setup c j s t (result : result_dict) st :
  same_setup st (snd (semantic_block c j s t result st)).
Proof.
  unfold semantic_block.
  destruct (s && _); [| apply same_setup_refl].
  pose proof (semantic_assessment_setup c j st) as Hs.
  destruct (_calculate_semantic_assessment c j st) as [[sr | msg] st1];
    cbn [snd] in *; [apply same_setup_bump; exact Hs |].
  destruct t; cbn [snd]; [apply same_setup_bump |]; exact Hs.
Qed.

Lemma traditional_block_setup c j t (result : result_dict) st :
  same_setup st (snd (traditional_block assess_candidate c j t result st)).
Proof.
  unfold traditional_block.
  destruct t; [| apply same_setup_refl].
  destruct (_ ≫= _) as [[final entries] | msg]; cbn [snd];
    [apply same_setup_bump |]; apply same_setup_refl.
Qed.

Lemma assess_candidate_enhanced_setup c j s t st :
  same_setup st (snd (assess_candidate_enhanced assess_candidate c j s t st)).
Proof.
  unfold assess_candidate_enhanced.
  pose proof (semantic_block_setup c j s t (initial_result c j) st) as H1.
  destruct (semantic_block _ _ _ _ _ _) as [r1 st1].
  pose proof (traditional_block_setup c j t r1 st1) as H2.
  destruct (traditional_block _ _ _ _ _ _) as [r2 st2].
  cbn [snd] in *. apply same_setup_bump.
  eapply same_setup_trans; eassumption.
Qed.

Lemma precompute_job_embedding_setup j s st :
  same_setup st (snd (precompute_job_embedding j s st)).
Proof.
  unfold precompute_job_embedding.
  destruct (s && _); [| apply same_setup_refl].
  pose proof (SemanticEngineSpec.encode_job_requirements_config j (semantic_engine st)) as Hc.
  destruct (SemanticEngine.encode_job_requirements _ _) as [emb se].
  split; [reflexivity | exact Hc].
Qed.

(** *** The batch loop *)

Lemma error_result_fields i c j msg :
  error_result i c j msg !! "recommended_score" = Some (PInt 0)
  /\ error_result i c j msg !! "assessment_method" = Some (PStr "failed")
  /\ error_result i c j msg !! "errors"
     = Some (PList [PStr ("Assessment failed: " +:+ msg)])
  /\ error_result i c j msg !! "candidate_id"
     = Some (dict_get c "id" (PStr ("unknown_" +:+ pretty i))).
Proof. unfold error_result. map_lookup. repeat split. Qed.

(** One result per candidate, in input order; a candidate whose assessment
    raised gets [error_result], and the loop goes on. [Inv] is any property
    of the engine that assessments keep. *)
Lemma batch_loop_spec
    (assess : pydict -> pydict -> bool -> bool -> EnhM (outcome result_dict))
    (Inv : engine -> Prop)
    (job_data : pydict) (include_semantic : bool)
    (Hkeep : forall c st,
        Inv st -> Inv (snd (assess c job_data include_semantic true st))) :
  forall (candidates_data : list pydict) (i : nat) (st : engine),
    Inv st ->
    length (fst (batch_loop assess i candidates_data job_data include_semantic st))
    = length candidates_data
    /\ forall (k : nat) (c : pydict),
         candidates_data !! k = Some c ->
         exists st_k,
           Inv st_k
           /\ fst (batch_loop assess i candidates_data job_data include_semantic st) !! k
              = Some (catch (fst (assess c job_data include_semantic true st_k))
                        (error_result (i + k) c job_data)).
Proof.
  induction candidates_data as [| c0 rest IH]; intros i st Hinv.
  - split; [reflexivity |]. intros k c Hk. discriminate.
  - cbn [batch_loop].
    pose proof (Hkeep c0 st Hinv) as Hinv1.
    destruct (assess c0 job_data include_semantic true st) as [attempt st1] eqn:Hrun.
    cbn [snd] in Hinv1.
    destruct (IH (S i) st1 Hinv1) as [Hlen Hitems].
    destruct (batch_loop assess (S i) rest job_data include_semantic st1)
      as [results st2].
    cbn [fst] in *. split; [cbn; rewrite Hlen; reflexivity |].
    intros [| k] c Hk; cbn in Hk.
    + injection Hk as <-. exists st. split; [exact Hinv |].
      rewrite Hrun, Nat.add_0_r. reflexivity.
    + destruct (Hitems k c Hk) as (st_k & Hinv_k & Hitem).
      exists st_k. split; [exact Hinv_k |].
      replace (i + S k)%nat with (S i + k)%nat by lia.
      exact Hitem.
Qed.

(** C7. [batch_assess_candidates] returns one result per candidate, in
    input order: the result at position [k] is the assessment of the
    candidate at position [k] (with the traditional path included), carries
    that candidate's id and a recommended score that is not [None]. The
    failure of a candidate (no semantic score and [assess_candidate]
    raising) shows in its own result only, as score 0, method ['failed'] and
    a non-empty error list; the engine's weights and configuration are the
    same for every candidate. *)
Theorem batch_assessments_isolated (candidates_data : list pydict)
    (job_data : pydict) (include_semantic : bool) (st : engine) :
  let results :=
    fst (batch_assess_candidates assess_candidate candidates_data job_data
           include_semantic st) in
  length results = length candidates_data
  /\ forall (k : nat) (c : pydict),
       candidates_data !! k = Some c ->
       exists r st_k,
         results !! k = Some r
         /\ same_setup st st_k
         /\ r = fst (assess_candidate_enhanced assess_candidate c job_data
                       include_semantic true st_k)
         /\ r !! "candidate_id" = Some (dict_get c "id" PNone)
         /\ r !! "recommended_score" <> Some PNone
         /\ (forall msg_t,
               SemanticEngine.is_available (semantic_engine st_k) = false
               \/ (exists msg,
                     fst (_calculate_semantic_assessment c job_data st_k) = Raise msg) ->
               assess_candidate c job_data = Raise msg_t ->
               r !! "recommended_score" = Some (PInt 0)
               /\ r !! "assessment_method" = Some (PStr "failed")
               /\ exists errs, r !! "errors" = Some (PList errs) /\ errs <> []).
Proof.
  intros results. subst results. unfold batch_assess_candidates.
  pose proof (precompute_job_embedding_setup job_data include_semantic st) as H0.
  destruct (precompute_job_embedding job_data include_semantic st) as [emb st0].
  cbn [snd] in H0.
  assert (Hkeep : forall c st',
            same_setup st st' ->
            same_setup st
              (snd (returning (assess_candidate_enhanced assess_candidate c job_data
                                 include_semantic true) st'))).
  { intros c st' Hst'. cbn [returning snd].
    eapply same_setup_trans; [exact Hst' |].
    apply assess_candidate_enhanced_setup. }
  destruct (batch_loop_spec
              (fun c j s t =>
                 returning (assess_candidate_enhanced assess_candidate c j s t))
              (same_setup st) job_data include_semantic Hkeep
              candidates_data 0%nat st0 H0) as [Hlen Hitems].
  split; [exact Hlen |].
  intros k c Hk. destruct (Hitems k c Hk) as (st_k & Hsetup & Hitem).
  exists (fst (assess_candidate_enhanced assess_candidate c job_data
                 include_semantic true st_k)), st_k.
  split; [exact Hitem |].
  split; [exact Hsetup |]. split; [reflexivity |].
  destruct (assess_candidate_enhanced_fields c job_data include_semantic true st_k)
    as (Hscore & _ & _ & Hid & _).
  split; [exact Hid |].
  split.
  { rewrite Hscore.
    destruct (semantic_attempt _ _ _ _) as [[sr | msg] |];
      destruct (traditional_attempt _ _ _) as [[[[] entries] | msg'] |];
      discriminate. }
  intros msg_t Hsem Htrad.
  destruct (no_score_fields c job_data include_semantic st_k msg_t Hsem Htrad)
    as (errs & Hs & Hm & He & Hne & _).
  split; [exact Hs |]. split; [exact Hm |]. exists errs. split; assumption.
Qed.

(** *** One job embedding per batch *)

(** The job's embedding [v] is in the cache of an available engine *)
Definition job_ready (job_data : pydict) (v : SemanticEngine.vec) (st : engine)
    : Prop :=
  SemanticEngine.is_available (semantic_engine st) = true
  /\ SemanticEngine.job_embeddings_cache (semantic_engine st)
       !! SemanticEngineSpec.job_cache_key (semantic_engine st) job_data = Some v.

Lemma semantic_engine_after_assessment c j s t st :
  semantic_engine (snd (assess_candidate_enhanced assess_candidate c j s t st))
  = semantic_engine st
  \/ semantic_engine (snd (assess_candidate_enhanced assess_candidate c j s t st))
     = snd (SemanticEngine.calculate_detailed_semantic_score c j (semantic_engine st)).
Proof.
  unfold assess_candidate_enhanced, semantic_block, traditional_block,
    _calculate_semantic_assessment.
  destruct (s && _).
  - right.
    destruct (SemanticEngine.calculate_detailed_semantic_score _ _ _) as [d se].
    destruct (score_details _ d); destruct t;
      try destruct (_ ≫= _) as [[? ?] | ?]; reflexivity.
  - left. destruct t; try destruct (_ ≫= _) as [[? ?] | ?]; reflexivity.
Qed.

Lemma assess_keeps_job_ready c j s t st v :
  job_ready j v st ->
  job_ready j v (snd (assess_candidate_enhanced assess_candidate c j s t st)).
Proof.
  intros [Hon Hhit]. unfold job_ready.
  destruct (semantic_engine_after_assessment c j s t st) as [-> | ->];
    [split; assumption |].
  pose proof (SemanticEngineSpec.calculate_detailed_semantic_score_config c j
                (semantic_engine st)) as Hc.
  split.
  - rewrite (SemanticEngineSpec.same_config_available _ _ Hc). exact Hon.
  - rewrite (SemanticEngineSpec.job_cache_key_config _ _ j Hc),
      (SemanticEngineSpec.calculate_detailed_semantic_score_job_cache c j _ v Hhit).
    exact Hhit.
Qed.

(** When the embedding of the job was computed before the loop, every
    candidate of the batch is assessed in a state where
    [encode_job_requirements] answers from the cache: it returns that
    embedding and leaves the engine unchanged. *)
Theorem batch_reuses_job_embedding (candidates_data : list pydict)
    (job_data : pydict) (st st0 : engine) (v : SemanticEngine.vec) :
  precompute_job_embedding job_data true st = (Some v, st0) ->
  forall (k : nat) (c : pydict),
    candidates_data !! k = Some c ->
    exists st_k,
      fst (batch_assess_candidates assess_candidate candidates_data job_data true st)
        !! k
      = Some (fst (assess_candidate_enhanced assess_candidate c job_data true true st_k))
      /\ SemanticEngine.encode_job_requirements job_data (semantic_engine st_k)
         = (Some v, semantic_engine st_k).
Proof.
  intros Hpre k c Hk. unfold batch_assess_candidates. rewrite Hpre.
  assert (Hready : job_ready job_data v st0).
  { unfold precompute_job_embedding in Hpre.
    destruct (true && _); [| discriminate].
    destruct (SemanticEngine.encode_job_requirements job_data (semantic_engine st))
      as [emb se] eqn:Hrun.
    injection Hpre as -> <-.
    exact (SemanticEngineSpec.job_cache_after job_data _ v se Hrun). }
  destruct (batch_loop_spec
              (fun c j s t =>
                 returning (assess_candidate_enhanced assess_candidate c j s t))
              (job_ready job_data v) job_data true
              (fun c st' Hst' => assess_keeps_job_ready c job_data true true st' v Hst')
              candidates_data 0%nat st0 Hready) as [_ Hitems].
  destruct (Hitems k c Hk) as (st_k & [Hon Hhit] & Hitem).
  exists st_k. split; [exact Hitem |].
  apply SemanticEngineSpec.job_cache_hit; assumption.
Qed.

(** *** A candidate without data *)

(** None of the sections [encode_candidate_profile] reads holds anything *)
Definition no_profile_data (candidate_data : pydict) : bool :=
  negb (truthy (dict_get candidate_data "educational_background" (PList [])))
  && negb (truthy (dict_get candidate_data "education" (PList [])))
  && negb (truthy (dict_get candidate_data "work_experience" (PList [])))
  && negb (truthy (dict_get candidate_data "experience" (PList [])))
  && negb (truthy (dict_get candidate_data "learning_development" (PList [])))
  && negb (truthy (dict_get candidate_data "training" (PList [])))
  && negb (truthy (dict_get candidate_data "civil_service_eligibility" (PList [])))
  && negb (truthy (dict_get candidate_data "pds_data" (PDict []))).

Ltac falsy_list v H :=
  destruct v as [| | | | | [| ? ?] | [| ? ?]]; try discriminate H; try reflexivity.

Lemma profile_education_empty (c : pydict) :
  truthy (dict_get c "educational_background" (PList [])) = false ->
  truthy (dict_get c "education" (PList [])) = false ->
  SemanticEngine.profile_education c = [].
Proof.
  intros H1 H2. unfold SemanticEngine.profile_education. rewrite H1. cbn [negb].
  falsy_list (dict_get c "education" (PList [])) H2.
Qed.

Lemma profile_experience_empty (c : pydict) :
  truthy (dict_get c "work_experience" (PList [])) = false ->
  truthy (dict_get c "experience" (PList [])) = false ->
  SemanticEngine.profile_experience c = Ok [].
Proof.
  intros H1 H2. unfold SemanticEngine.profile_experience. rewrite H1. cbn [negb].
  falsy_list (dict_get c "experience" (PList [])) H2.
Qed.

Lemma profile_training_empty (c : pydict) :
  truthy (dict_get c "learning_development" (PList [])) = false ->
  truthy (dict_get c "training" (PList [])) = false ->
  SemanticEngine.profile_training c = Ok [].
Proof.
  intros H1 H2. unfold SemanticEngine.profile_training. rewrite H1. cbn [negb].
  falsy_list (dict_get c "training" (PList [])) H2.
Qed.

Lemma profile_eligibility_empty (c : pydict) :
  truthy (dict_get c "civil_service_eligibility" (PList [])) = false ->
  SemanticEngine.profile_eligibility c = [].
Proof.
  intros H1. unfold SemanticEngine.profile_eligibility.
  falsy_list (dict_get c "civil_service_eligibility" (PList [])) H1.
Qed.

Lemma profile_personal_info_empty (c : pydict) :
  truthy (dict_get c "pds_data" (PDict [])) = false ->
  SemanticEngine.profile_personal_info c = Ok [].
Proof.
  intros H1. unfold SemanticEngine.profile_personal_info.
  falsy_list (dict_get c "pds_data" (PDict [])) H1.
Qed.

Lemma no_profile_data_parts (candidate_data : pydict) :
  no_profile_data candidate_data = true ->
  SemanticEngine.candidate_profile_parts candidate_data = Ok [].
Proof.
  unfold no_profile_data. intros Hnone.
  repeat (apply andb_prop in Hnone as [Hnone ?]).
  repeat match goal with
         | Hx : negb _ = true |- _ => apply negb_true_iff in Hx
         end.
  unfold SemanticEngine.candidate_profile_parts.
  rewrite profile_education_empty, profile_experience_empty,
    profile_training_empty, profile_eligibility_empty,
    profile_personal_info_empty by assumption.
  reflexivity.
Qed.

Lemma no_profile_data_details (candidate_data job_data : pydict)
    (e : SemanticEngine.engine) :
  SemanticEngine.is_available e = true ->
  no_profile_data candidate_data = true ->
  exists e',
    SemanticEngine.calculate_detailed_semantic_score candidate_data job_data e
    = (SemanticEngine.error_details "Failed to generate embeddings", e').
Proof.
  intros Hon Hnone.
  unfold SemanticEngine.calculate_detailed_semantic_score,
    SemanticEngine.encode_candidate_profile.
  rewrite Hon, (no_profile_data_parts _ Hnone). cbn [negb].
  change (negb (truthy (PStr (strip (join " | " []))))) with true. cbv iota.
  destruct (SemanticEngine.encode_job_requirements job_data e) as [je e2].
  exists e2. reflexivity.
Qed.

Lemma no_profile_data_attempt (candidate_data job_data : pydict) (st : engine) :
  SemanticEngine.is_available (semantic_engine st) = true ->
  no_profile_data candidate_data = true ->
  semantic_attempt candidate_data job_data true st
  = Some (Raise "Failed to generate embeddings").
Proof.
  intros Hon Hnone. unfold semantic_attempt, _calculate_semantic_assessment.
  rewrite Hon.
  destruct (no_profile_data_details candidate_data job_data (semantic_engine st)
              Hon Hnone) as (e' & ->).
  reflexivity.
Qed.

(** C6, as amended. For a candidate without profile data and an available
    engine, [calculate_detailed_semantic_score] returns (it does not raise)
    the error dictionary ['Failed to generate embeddings'] with all scores
    0.0, whatever the job. The semantic path of [assess_candidate_enhanced]
    therefore fails and records its error: the result is the traditional
    one, under the method ['traditional'], when the traditional path is
    included and returns a number, and it is score 0 under ['failed'] when
    the traditional path is left out. *)
Theorem candidate_without_data (candidate_data job_data : pydict) (st : engine)
    (include_traditional : bool) :
  SemanticEngine.is_available (semantic_engine st) = true ->
  no_profile_data candidate_data = true ->
  (exists d e',
     SemanticEngine.calculate_detailed_semantic_score candidate_data job_data
       (semantic_engine st) = (d, e')
     /\ SemanticEngine.overall_score d = 0
     /\ SemanticEngine.error d = Some "Failed to generate embeddings"%string)
  /\ (exists errs,
        fst (assess_candidate_enhanced assess_candidate candidate_data job_data
               true include_traditional st) !! "errors"
        = Some (PList
                  (PStr "Semantic assessment failed: Failed to generate embeddings"
                   :: errs)))
  /\ (include_traditional = false ->
      fst (assess_candidate_enhanced assess_candidate candidate_data job_data
             true include_traditional st) !! "recommended_score" = Some (PInt 0)
      /\ fst (assess_candidate_enhanced assess_candidate candidate_data job_data
                true include_traditional st) !! "assessment_method"
         = Some (PStr "failed"))
  /\ (forall (tr : pydict) (t : R),
        include_traditional = true ->
        assess_candidate candidate_data job_data = Ok (PDict tr) ->
        dict_get tr "final_score" (PInt 0) = PFloat t ->
        fst (assess_candidate_enhanced assess_candidate candidate_data job_data
               true include_traditional st) !! "recommended_score" = Some (PFloat t)
        /\ fst (assess_candidate_enhanced assess_candidate candidate_data job_data
                  true include_traditional st) !! "assessment_method"
           = Some (PStr "traditional")).
Proof.
  intros Hon Hnone.
  split.
  { destruct (no_profile_data_details candidate_data job_data (semantic_engine st)
                Hon Hnone) as (e' & Hd).
    exists (SemanticEngine.error_details "Failed to generate embeddings"), e'.
    repeat split. exact Hd. }
  destruct (assess_candidate_enhanced_fields candidate_data job_data true
              include_traditional st) as (Hscore & Hmethod & Herrors & _).
  rewrite (no_profile_data_attempt _ _ _ Hon Hnone) in Hscore, Hmethod, Herrors.
  split; [eexists; rewrite Herrors; reflexivity |].
  split.
  - intros ->. split; [exact Hscore | exact Hmethod].
  - intros tr t -> Htrad Hfinal.
    unfold traditional_attempt in Hscore, Hmethod.
    rewrite Htrad in Hscore, Hmethod. cbn in Hscore, Hmethod.
    rewrite Hfinal in Hscore, Hmethod. split; assumption.
Qed.

(** *** Weight updates *)

Lemma missing_key_none (new_weights : gmap string R) :
  missing_key new_weights = None
  <-> forall key, In key required_keys -> is_Some (new_weights !! key).
Proof.
  unfold missing_key. split.
  - intros Hfind key Hin.
    pose proof (find_none _ _ Hfind key Hin) as Hb. cbn beta in Hb.
    apply bool_decide_eq_false in Hb.
    destruct (new_weights !! key); [eexists; reflexivity | contradiction].
  - intros Hall.
    destruct (find _ required_keys) as [key |] eqn:Hfind; [| reflexivity].
    apply find_some in Hfind as [Hin Hb].
    apply bool_decide_eq_true in Hb.
    destruct (Hall key Hin) as [w Hw]. congruence.
Qed.

Lemma missing_key_some (new_weights : gmap string R) key :
  missing_key new_weights = Some key ->
  In key required_keys /\ new_weights !! key = None.
Proof.
  unfold missing_key. intros Hfind.
  apply find_some in Hfind as [Hin Hb].
  apply bool_decide_eq_true in Hb. split; assumption.
Qed.

Lemma weight_union_l (new old : gmap string R) key w :
  new !! key = Some w -> weight (new ∪ old) key = Ok w.
Proof.
  intros Hw. unfold weight.
  rewrite (lookup_union_Some_l new old key w Hw). reflexivity.
Qed.

Lemma weight_union_r (new old : gmap string R) key :
  new !! key = None -> weight (new ∪ old) key = weight old key.
Proof.
  intros Hw. unfold weight. rewrite lookup_union_r by exact Hw. reflexivity.
Qed.

(** C8, as amended. A weight dictionary that holds every required key is
    always accepted: the update logs the warning exactly when the first
    three required weights sum below 0.8 or above 1.2, and in either case
    merges the supplied weights into the engine's, so that scoring then
    reads every supplied weight. A dictionary that lacks a required key is
    rejected with ['Missing required weight: <key>'] and nothing changes. *)
Theorem update_semantic_weights_applies (new_weights : gmap string R) (st : engine) :
  ((forall key, In key required_keys -> is_Some (new_weights !! key)) ->
   exists warned st',
     update_semantic_weights new_weights st = Ok (warned, st')
     /\ (warned = true
         <-> total_weight new_weights < 0.8 \/ 1.2 < total_weight new_weights)
     /\ semantic_weights st' = new_weights ∪ semantic_weights st
     /\ semantic_engine st' = semantic_engine st
     /\ assessment_stats st' = assessment_stats st
     /\ (forall key w, new_weights !! key = Some w ->
           weight (semantic_weights st') key = Ok w)
     /\ (forall key, new_weights !! key = None ->
           weight (semantic_weights st') key = weight (semantic_weights st) key)
     /\ (forall d w_edu w_exp w_train w_bonus,
           SemanticEngine.error d = None ->
           new_weights !! "education_relevance" = Some w_edu ->
           new_weights !! "experience_relevance" = Some w_exp ->
           (new_weights ∪ semantic_weights st) !! "training_relevance" = Some w_train ->
           new_weights !! "overall_quality_bonus" = Some w_bonus ->
           exists r, score_details (semantic_weights st') d = Ok r
             /\ final_score r
                = PyNum.py_round
                    (clamped_score w_edu w_exp w_train w_bonus
                       (SemanticEngine.education_relevance d)
                       (SemanticEngine.experience_relevance d)
                       (SemanticEngine.training_relevance d)
                       (SemanticEngine.overall_score d)) 1))
  /\ (forall key,
        In key required_keys -> new_weights !! key = None ->
        exists key',
          In key' required_keys /\ new_weights !! key' = None
          /\ update_semantic_weights new_weights st
             = Raise ("Missing required weight: " +:+ key')).
Proof.
  split.
  - intros Hall. apply missing_key_none in Hall.
    unfold update_semantic_weights. rewrite Hall.
    eexists _, _. split; [reflexivity |].
    split.
    { destruct (Rlt_dec (total_weight new_weights) 0.8) as [Hlo | Hlo];
        [split; [intros _; left; exact Hlo | reflexivity] |].
      destruct (Rlt_dec 1.2 (total_weight new_weights)) as [Hhi | Hhi];
        [split; [intros _; right; exact Hhi | reflexivity] |].
      split; [discriminate | intros [? | ?]; contradiction]. }
    cbn [with_weights semantic_weights semantic_engine assessment_stats].
    split; [reflexivity |]. split; [reflexivity |]. split; [reflexivity |].
    split; [intros key w Hw; apply weight_union_l; exact Hw |].
    split; [intros key Hw; apply weight_union_r; exact Hw |].
    intros d w_edu w_exp w_train w_bonus Herr He Hx Ht Hb.
    apply score_details_final; try exact Herr;
      try (apply weight_union_l; assumption).
    unfold weight. rewrite Ht. reflexivity.
  - intros key Hin Hnone.
    destruct (missing_key new_weights) as [key' |] eqn:Hmiss.
    + destruct (missing_key_some _ _ Hmiss) as [Hin' Hnone'].
      exists key'. split; [exact Hin' |]. split; [exact Hnone' |].
      unfold update_semantic_weights. rewrite Hmiss. reflexivity.
    + destruct (proj1 (missing_key_none _) Hmiss key Hin) as [w Hw]. congruence.
Qed.

(** *** Two independent attempts *)

(** Each score entry of the result depends on its own path alone: a
    semantic failure does not keep the traditional score from being
    recorded, and the other way round. *)
Theorem scores_follow_their_own_path (candidate_data job_data : pydict)
    (include_semantic include_traditional : bool) (st : engine) :
  fst (assess_candidate_enhanced assess_candidate candidate_data job_data
         include_semantic include_traditional st) !! "semantic_score"
  = Some (expected_semantic
            (semantic_attempt candidate_data job_data include_semantic st))
  /\ fst (assess_candidate_enhanced assess_candidate candidate_data job_data
            include_semantic include_traditional st) !! "traditional_score"
     = Some (expected_traditional
               (traditional_attempt candidate_data job_data include_traditional)).
Proof.
  destruct (assess_candidate_enhanced_fields candidate_data job_data
              include_semantic include_traditional st)
    as (_ & _ & _ & _ & _ & Hsem & Htrad).
  split; assumption.
Qed.

(** The handler of the batch loop, for a method that may raise: one result
    per candidate, in input order, and [error_result] (score 0, method
    ['failed'], one error) in place of an assessment that raised. *)
Theorem batch_loop_handles_exceptions
    (assess : pydict -> pydict -> bool -> bool -> EnhM (outcome result_dict))
    (candidates_data : list pydict) (job_data : pydict) (include_semantic : bool)
    (i : nat) (st : engine) :
  length (fst (batch_loop assess i candidates_data job_data include_semantic st))
  = length candidates_data
  /\ (forall (k : nat) (c : pydict),
        candidates_data !! k = Some c ->
        exists st_k,
          fst (batch_loop assess i candidates_data job_data include_semantic st) !! k
          = Some (catch (fst (assess c job_data include_semantic true st_k))
                    (error_result (i + k) c job_data)))
  /\ (forall k c msg,
        error_result k c job_data msg !! "recommended_score" = Some (PInt 0)
        /\ error_result k c job_data msg !! "assessment_method" = Some (PStr "failed")
        /\ error_result k c job_data msg !! "errors"
           = Some (PList [PStr ("Assessment failed: " +:+ msg)])).
Proof.
  destruct (batch_loop_spec assess (fun _ => True) job_data include_semantic
              (fun _ _ _ => I) candidates_data i st I) as [Hlen Hitems].
  split; [exact Hlen |]. split.
  - intros k c Hk. destruct (Hitems k c Hk) as (st_k & _ & Hitem).
    exists st_k. exact Hitem.
  - intros k c msg.
    destruct (error_result_fields k c job_data msg) as (Hs & Hm & He & _).
    repeat split; assumption.
Qed.

(** *** The semantic path, when it succeeds *)

Definition weights_complete (w : gmap string R) : Prop :=
  is_Some (w !! "education_relevance") /\ is_Some (w !! "experience_relevance")
  /\ is_Some (w !! "training_relevance") /\ is_Some (w !! "overall_quality_bonus").

Lemma score_details_range (w : gmap string R) d :
  SemanticEngine.error d = None -> weights_complete w ->
  exists sr, score_details w d = Ok sr /\ 0 <= final_score sr <= 100.
Proof.
  intros Herr ([we He] & [wx Hx] & [wt Ht] & [wb Hb]).
  destruct (score_details_final w d we wx wt wb Herr) as (sr & Hsr & Hfinal);
    try (unfold weight; rewrite ?He, ?Hx, ?Ht, ?Hb; reflexivity).
  exists sr. split; [exact Hsr |]. rewrite Hfinal. unfold clamped_score.
  apply (PyNumFacts.py_round_range _ 1 0 100).
  apply PyNumFacts.py_clamp_bounds. lra.
Qed.

Lemma semantic_attempt_succeeds (candidate_data job_data : pydict)
    (st : engine) (parts : list string) :
  SemanticEngineSpec.working_model (semantic_engine st) ->
  weights_complete (semantic_weights st) ->
  SemanticEngine.candidate_profile_parts candidate_data = Ok parts ->
  truthy (PStr (strip (join " | " parts))) = true ->
  exists sr,
    fst (_calculate_semantic_assessment candidate_data job_data st) = Ok sr
    /\ semantic_attempt candidate_data job_data true st = Some (Ok sr)
    /\ 0 <= final_score sr <= 100.
Proof.
  intros Hw Hweights Hparts Htext.
  pose proof (SemanticEngineSpec.calculate_detailed_semantic_score_works
                candidate_data job_data (semantic_engine st) parts Hw Hparts Htext)
    as Herr.
  unfold semantic_attempt. destruct Hw as (Hon & _). rewrite Hon. cbn [andb].
  unfold _calculate_semantic_assessment in *.
  destruct (SemanticEngine.calculate_detailed_semantic_score _ _ _) as [d se].
  cbn [fst] in *.
  destruct (score_details_range (semantic_weights st) d Herr Hweights)
    as (sr & Hsr & Hrange).
  exists sr. rewrite Hsr. repeat split; apply Hrange.
Qed.

(** With a model that encodes every text, complete weights and a profile
    text that is not blank, the semantic score is the recommended one under
    the method ['semantic'], and it lies in [0, 100]. *)
Theorem semantic_score_recommended (candidate_data job_data : pydict)
    (include_traditional : bool) (st : engine) (parts : list string) :
  SemanticEngineSpec.working_model (semantic_engine st) ->
  weights_complete (semantic_weights st) ->
  SemanticEngine.candidate_profile_parts candidate_data = Ok parts ->
  truthy (PStr (strip (join " | " parts))) = true ->
  exists sr,
    fst (_calculate_semantic_assessment candidate_data job_data st) = Ok sr
    /\ 0 <= final_score sr <= 100
    /\ fst (assess_candidate_enhanced assess_candidate candidate_data job_data
              true include_traditional st) !! "recommended_score"
       = Some (PFloat (final_score sr))
    /\ fst (assess_candidate_enhanced assess_candidate candidate_data job_data
              true include_traditional st) !! "semantic_score"
       = Some (PFloat (final_score sr))
    /\ fst (assess_candidate_enhanced assess_candidate candidate_data job_data
              true include_traditional st) !! "assessment_method"
       = Some (PStr "semantic").
Proof.
  intros Hw Hweights Hparts Htext.
  destruct (semantic_attempt_succeeds candidate_data job_data st parts
              Hw Hweights Hparts Htext) as (sr & Hrun & Hattempt & Hrange).
  destruct (assess_candidate_enhanced_fields candidate_data job_data true
              include_traditional st)
    as (Hscore & Hmethod & _ & _ & _ & Hsem & _).
  rewrite Hattempt in Hscore, Hmethod, Hsem.
  exists sr. repeat split; try assumption; apply Hrange.
Qed.

End WithCollaborators.

#[local] Existing Instance Demo.runtime.

(** With no model loaded the semantic path raises *)
Example semantic_raises_without_model :
  fst (_calculate_semantic_assessment Demo.candidate_with_degree Demo.job
         (init Demo.engine_without_model))
  = Raise "Failed to generate embeddings".
Proof. reflexivity. Qed.

Lemma traditional_score_after_semantic_failure_witness :
  (* engine unavailable *)
  (SemanticEngine.is_available (semantic_engine (init Demo.engine_without_deps)) = false
   /\ fst (assess_candidate_enhanced Demo.traditional_72 Demo.candidate_with_degree
             Demo.job true true (init Demo.engine_without_deps))
        !! "recommended_score" = Some (PFloat 72))
  (* semantic path raises *)
  /\ (fst (_calculate_semantic_assessment Demo.candidate_with_degree Demo.job
             (init Demo.engine_without_model))
      = Raise "Failed to generate embeddings"
     /\ fst (assess_candidate_enhanced Demo.traditional_72 Demo.candidate_with_degree
               Demo.job true true (init Demo.engine_without_model))
          !! "recommended_score" = Some (PFloat 72)).
Proof.
  split.
  - split; [reflexivity |].
    apply (traditional_score_after_semantic_failure Demo.traditional_72
             Demo.candidate_with_degree Demo.job (init Demo.engine_without_deps)
             [("final_score", PFloat 72)] (PFloat 72));
      [left; reflexivity | reflexivity | reflexivity | discriminate].
  - split; [reflexivity |].
    apply (traditional_score_after_semantic_failure Demo.traditional_72
             Demo.candidate_with_degree Demo.job (init Demo.engine_without_model)
             [("final_score", PFloat 72)] (PFloat 72));
      [right; eexists; reflexivity | reflexivity | reflexivity | discriminate].
Defined.

(** C2 as stated fails: with the engine unavailable and a traditional total
    of 72.0 the result recommends 72.0 under the method ['traditional']. *)
Lemma unavailable_engine_is_labelled_traditional :
  SemanticEngine.is_available (semantic_engine (init Demo.engine_without_deps)) = false
  /\ Demo.traditional_72 Demo.candidate_with_degree Demo.job
     = Ok (PDict [("final_score", PFloat 72)])
  /\ fst (assess_candidate_enhanced Demo.traditional_72 Demo.candidate_with_degree
            Demo.job true true (init Demo.engine_without_deps))
       !! "recommended_score" = Some (PFloat 72)
  /\ fst (assess_candidate_enhanced Demo.traditional_72 Demo.candidate_with_degree
            Demo.job true true (init Demo.engine_without_deps))
       !! "assessment_method" = Some (PStr "traditional")
  /\ fst (assess_candidate_enhanced Demo.traditional_72 Demo.candidate_with_degree
            Demo.job true true (init Demo.engine_without_deps))
       !! "assessment_method" <> Some (PStr "traditional_fallback").
Proof.
  destruct (assess_candidate_enhanced_fields Demo.traditional_72
              Demo.candidate_with_degree Demo.job true true
              (init Demo.engine_without_deps)) as (Hscore & Hmethod & _).
  split; [reflexivity |]. split; [reflexivity |].
  split; [exact Hscore |]. split; [exact Hmethod |].
  rewrite Hmethod. discriminate.
Qed.

Lemma both_paths_fail_witness :
  fst (_calculate_semantic_assessment Demo.candidate_with_degree Demo.job
         (init Demo.engine_without_model))
  = Raise "Failed to generate embeddings"
  /\ Demo.traditional_raises Demo.candidate_with_degree Demo.job
     = Raise "database unavailable"
  /\ exists r st',
       assess_candidate_enhanced Demo.traditional_raises Demo.candidate_with_degree
         Demo.job true true (init Demo.engine_without_model) = (r, st')
       /\ r !! "recommended_score" = Some (PInt 0)
       /\ r !! "assessment_method" = Some (PStr "failed").
Proof.
  split; [reflexivity |]. split; [reflexivity |].
  destruct (both_paths_fail Demo.traditional_raises Demo.candidate_with_degree
              Demo.job true (init Demo.engine_without_model) "database unavailable")
    as (r & st' & errs & Hrun & Hscore & Hmethod & _);
    [right; eexists; reflexivity | reflexivity |].
  exists r, st'. repeat split; assumption.
Defined.

Lemma default_weights_complete : weights_complete default_weights.
Proof.
  unfold weights_complete, default_weights.
  repeat split; map_lookup; eexists; reflexivity.
Qed.

Lemma engine_with_model_works : SemanticEngineSpec.working_model Demo.engine_with_model.
Proof.
  split; [reflexivity |].
  exists Demo.unit_model. split; [reflexivity |].
  intros text. exists [1; 0]. reflexivity.
Qed.

Lemma candidate_without_data_witness :
  (SemanticEngine.is_available (semantic_engine (init Demo.engine_with_model)) = true
   /\ no_profile_data Demo.empty_candidate = true)
  /\ fst (assess_candidate_enhanced Demo.traditional_72 Demo.empty_candidate Demo.job
            true true (init Demo.engine_with_model)) !! "recommended_score"
     = Some (PFloat 72)
  /\ fst (assess_candidate_enhanced Demo.traditional_72 Demo.empty_candidate Demo.job
            true true (init Demo.engine_with_model)) !! "assessment_method"
     = Some (PStr "traditional").
Proof.
  assert (Hon : SemanticEngine.is_available
                  (semantic_engine (init Demo.engine_with_model)) = true)
    by reflexivity.
  assert (Hnone : no_profile_data Demo.empty_candidate = true) by reflexivity.
  split; [split; assumption |].
  destruct (candidate_without_data Demo.traditional_72 Demo.empty_candidate Demo.job
              (init Demo.engine_with_model) true Hon Hnone) as (_ & _ & _ & Htrad).
  apply (Htrad [("final_score", PFloat 72)] 72); reflexivity.
Defined.

(** C6 as stated fails: with semantic scoring alone, the candidate without
    data is marked ['failed'] with score 0, where the same call for a
    candidate with one degree is marked ['semantic']. *)
Lemma empty_candidate_is_marked_failed :
  no_profile_data Demo.empty_candidate = true
  /\ dict_get Demo.job "title" (PStr "") = PStr "Assistant Professor"
  /\ fst (assess_candidate_enhanced Demo.traditional_72 Demo.empty_candidate Demo.job
            true false (init Demo.engine_with_model)) !! "assessment_method"
     = Some (PStr "failed")
  /\ fst (assess_candidate_enhanced Demo.traditional_72 Demo.empty_candidate Demo.job
            true false (init Demo.engine_with_model)) !! "recommended_score"
     = Some (PInt 0)
  /\ fst (assess_candidate_enhanced Demo.traditional_72 Demo.candidate_with_degree
            Demo.job true false (init Demo.engine_with_model)) !! "assessment_method"
     = Some (PStr "semantic").
Proof.
  split; [reflexivity |]. split; [reflexivity |].
  destruct (assess_candidate_enhanced_fields Demo.traditional_72 Demo.empty_candidate
              Demo.job true false (init Demo.engine_with_model))
    as (Hscore & Hmethod & _).
  rewrite (no_profile_data_attempt Demo.empty_candidate Demo.job
             (init Demo.engine_with_model) eq_refl eq_refl) in Hscore, Hmethod.
  split; [exact Hmethod |]. split; [exact Hscore |].
  destruct (semantic_attempt_succeeds Demo.candidate_with_degree Demo.job
              (init Demo.engine_with_model) ["Education:  PhD from MIT"%string]
              engine_with_model_works default_weights_complete eq_refl eq_refl)
    as (sr & _ & Hattempt & _).
  destruct (assess_candidate_enhanced_fields Demo.traditional_72
              Demo.candidate_with_degree Demo.job true false
              (init Demo.engine_with_model)) as (_ & Hsem & _).
  rewrite Hattempt in Hsem. exact Hsem.
Qed.

Definition three_candidates : list pydict :=
  [ Demo.candidate_with_degree; Demo.empty_candidate; Demo.candidate_with_degree ].

Lemma batch_assessments_isolated_witness :
  exists r0 r1 r2,
    fst (batch_assess_candidates Demo.traditional_fails_for_7 three_candidates
           Demo.job true (init Demo.engine_without_deps)) = [r0; r1; r2]
    /\ r0 !! "candidate_id" = Some (PInt 8)
    /\ r1 !! "candidate_id" = Some (PInt 7)
    /\ r1 !! "recommended_score" = Some (PInt 0)
    /\ r1 !! "assessment_method" = Some (PStr "failed")
    /\ r2 !! "candidate_id" = Some (PInt 8)
    /\ r2 !! "recommended_score" <> Some PNone.
Proof.
  destruct (batch_assessments_isolated Demo.traditional_fails_for_7 three_candidates
              Demo.job true (init Demo.engine_without_deps)) as [Hlen Hitems].
  destruct (fst (batch_assess_candidates _ _ _ _ _)) as [| r0 [| r1 [| r2 [| ? ?]]]];
    try discriminate Hlen.
  exists r0, r1, r2. split; [reflexivity |].
  destruct (Hitems 0%nat Demo.candidate_with_degree eq_refl)
    as (r & st0 & Hr & _ & _ & Hid0 & _).
  injection Hr as <-.
  destruct (Hitems 1%nat Demo.empty_candidate eq_refl)
    as (r & st1 & Hr & Hsetup & _ & Hid1 & _ & Hfail).
  injection Hr as <-.
  destruct (Hitems 2%nat Demo.candidate_with_degree eq_refl)
    as (r & st2 & Hr & _ & _ & Hid2 & Hsome2 & _).
  injection Hr as <-.
  destruct (Hfail "database unavailable"%string) as (Hscore & Hmethod & _);
    [left; rewrite (same_setup_available _ _ Hsetup); reflexivity | reflexivity |].
  repeat split; assumption.
Defined.

Definition off_band_weights : gmap string R :=
  <["education_relevance" := 0.5]>
  (<["experience_relevance" := 0.5]>
  (<["skills_relevance" := 0.5]>
  (<["overall_quality_bonus" := 0.05]> ∅))).

Lemma off_band_weights_required :
  forall key, In key required_keys -> is_Some (off_band_weights !! key).
Proof.
  intros key [<- | [<- | [<- | [<- | []]]]]; unfold off_band_weights;
    map_lookup; eexists; reflexivity.
Qed.

Lemma off_band_total : total_weight off_band_weights = 1.5.
Proof.
  unfold total_weight, off_band_weights. cbn [required_keys firstn map].
  map_lookup. cbn. lra.
Qed.

Lemma update_semantic_weights_applies_witness :
  (forall key, In key required_keys -> is_Some (off_band_weights !! key))
  /\ 1.2 < total_weight off_band_weights
  /\ exists st',
       update_semantic_weights off_band_weights (init Demo.engine_with_model)
       = Ok (true, st')
       /\ weight (semantic_weights st') "education_relevance" = Ok 0.5
       /\ weight (semantic_weights st') "training_relevance" = Ok 0.15.
Proof.
  split; [exact off_band_weights_required |].
  assert (Hband : 1.2 < total_weight off_band_weights)
    by (rewrite off_band_total; lra).
  split; [exact Hband |].
  destruct (proj1 (update_semantic_weights_applies off_band_weights
                     (init Demo.engine_with_model)) off_band_weights_required)
    as (warned & st' & Hrun & Hwarn & _ & _ & _ & Hnew & Hold & _).
  assert (Hw : warned = true) by (apply Hwarn; right; exact Hband).
  subst warned. exists st'. split; [exact Hrun |].
  split.
  - apply Hnew. unfold off_band_weights. map_lookup. reflexivity.
  - rewrite Hold; [apply default_weight_training |].
    unfold off_band_weights. map_lookup. reflexivity.
Defined.

(** C8 as stated fails: an update that supplies the training weight alone
    is rejected. *)
Lemma partial_weights_are_rejected :
  update_semantic_weights (<["training_relevance" := 0.2]> ∅)
    (init Demo.engine_with_model)
  = Raise "Missing required weight: education_relevance".
Proof.
  unfold update_semantic_weights, missing_key. cbn [required_keys find].
  rewrite bool_decide_eq_true_2; [reflexivity |].
  map_lookup. reflexivity.
Qed.

(** The engine's own default weights are rejected as well: the required
    list names ['skills_relevance'], the scoring reads
    ['training_relevance']. *)
Lemma default_weights_are_rejected :
  update_semantic_weights default_weights (init Demo.engine_with_model)
  = Raise "Missing required weight: skills_relevance".
Proof.
  unfold update_semantic_weights, missing_key, default_weights.
  cbn [required_keys find].
  rewrite bool_decide_eq_false_2 by (map_lookup; discriminate).
  rewrite bool_decide_eq_false_2 by (map_lookup; discriminate).
  rewrite bool_decide_eq_true_2; [reflexivity |].
  map_lookup. reflexivity.
Qed.

Lemma semantic_score_recommended_witness :
  exists sr,
    fst (_calculate_semantic_assessment Demo.candidate_with_degree Demo.job
           (init Demo.engine_with_model)) = Ok sr
    /\ fst (assess_candidate_enhanced Demo.traditional_72 Demo.candidate_with_degree
              Demo.job true true (init Demo.engine_with_model)) !! "recommended_score"
       = Some (PFloat (final_score sr))
    /\ fst (assess_candidate_enhanced Demo.traditional_72 Demo.candidate_with_degree
              Demo.job true true (init Demo.engine_with_model)) !! "assessment_method"
       = Some (PStr "semantic").
Proof.
  destruct (semantic_score_recommended Demo.traditional_72 Demo.candidate_with_degree
              Demo.job true (init Demo.engine_with_model)
              ["Education:  PhD from MIT"%string]
              engine_with_model_works default_weights_complete eq_refl eq_refl)
    as (sr & Hsr & _ & Hscore & _ & Hmethod).
  exists sr. repeat split; assumption.
Defined.

Lemma batch_reuses_job_embedding_witness :
  exists v st0 st1,
    precompute_job_embedding Demo.job true (init Demo.engine_with_model) = (Some v, st0)
    /\ fst (batch_assess_candidates Demo.traditional_72 three_candidates Demo.job true
              (init Demo.engine_with_model)) !! 1%nat
       = Some (fst (assess_candidate_enhanced Demo.traditional_72 Demo.empty_candidate
                      Demo.job true true st1))
    /\ SemanticEngine.encode_job_requirements Demo.job (semantic_engine st1)
       = (Some v, semantic_engine st1).
Proof.
  destruct (SemanticEngineSpec.encode_job_requirements_works Demo.job
              Demo.engine_with_model engine_with_model_works) as [v Hv].
  assert (Hpre : precompute_job_embedding Demo.job true (init Demo.engine_with_model)
                 = (Some v,
                    snd (precompute_job_embedding Demo.job true
                           (init Demo.engine_with_model)))).
  { unfold precompute_job_embedding.
    change (true && SemanticEngine.is_available
                      (semantic_engine (init Demo.engine_with_model))) with true.
    cbv iota.
    change (semantic_engine (init Demo.engine_with_model)) with Demo.engine_with_model.
    destruct (SemanticEngine.encode_job_requirements Demo.job Demo.engine_with_model)
      as [emb se].
    cbn [fst] in Hv. subst emb. reflexivity. }
  destruct (batch_reuses_job_embedding Demo.traditional_72 three_candidates Demo.job
              (init Demo.engine_with_model) _ v Hpre 1%nat Demo.empty_candidate eq_refl)
    as (st1 & Hitem & Hreuse).
  exists v, (snd (precompute_job_embedding Demo.job true (init Demo.engine_with_model))),
    st1.
  split; [exact Hpre |]. split; assumption.
Defined.

End EnhancedEngineSpec.

(* ===================================================================== *)
(** ** More about [semantic_engine.py] *)
(* ===================================================================== *)

Module SemanticEngineProperties.

Import Py SemanticEngine SemanticEngineSpec.

(** *** The similarity of two embeddings *)

Lemma dot_comm (a : vec) : forall b : vec, dot a b = dot b a.
Proof.
  induction a as [| x a IH]; intros [| y b]; simpl; try reflexivity.
  rewrite IH. ring.
Qed.

(** The similarity does not depend on which embedding is the candidate's
    and which the job's, also when [np.dot] raises. *)
Theorem similarity_is_symmetric (a b : option vec) :
  calculate_semantic_similarity a b = calculate_semantic_similarity b a.
Proof.
  unfold calculate_semantic_similarity, np_dot.
  destruct a as [u |], b as [v |]; try reflexivity.
  rewrite (Nat.eqb_sym (length v) (length u)), (dot_comm v u).
  reflexivity.
Qed.



Lemma map_opp_involutive (v : vec) : map Ropp (map Ropp v) = v.
Proof.
  induction v as [| x v IH]; simpl; [reflexivity |].
  rewrite IH, Ropp_involutive. reflexivity.
Qed.



(** *** The hash-based vectors *)

Lemma dot_nonneg (a : vec) : forall b : vec,
  Forall (fun x => 0 <= x) a -> Forall (fun x => 0 <= x) b -> 0 <= dot a b.
Proof.
  induction a as [| x a IH]; intros [| y b] Ha Hb; simpl; try lra.
  inversion Ha as [| ? ? Hx Ha']; inversion Hb as [| ? ? Hy Hb']; subst.
  specialize (IH b Ha' Hb'). nra.
Qed.

Lemma padded_digest_nonneg (text : string) :
  Forall (fun x => 0 <= x) (padded_digest text).
Proof.
  unfold padded_digest. apply Forall_app. split.
  - apply Forall_map.
    eapply List.Forall_impl; [| apply MD5Facts.digest_range].
    intros b [Hb _]. apply IZR_le. exact Hb.
  - apply List.Forall_forall. intros x Hx. apply repeat_spec in Hx. lra.
Qed.

Lemma hash_vector_nonneg (text : string) :
  Forall (fun x => 0 <= x) (hash_vector text).
Proof.
  rewrite hash_vector_unfold.
  destruct (Rlt_dec _ _) as [Hpos | _]; [| apply padded_digest_nonneg].
  apply Forall_map.
  eapply List.Forall_impl; [| apply padded_digest_nonneg].
  intros x Hx. cbn beta. apply Rmult_le_pos; [exact Hx |].
  left. apply Rinv_0_lt_compat. exact Hpos.
Qed.

(** With the engine not available, the embeddings [encode_text] returns
    have no negative entry, so the similarity of any two texts is at least
    0.5: the lower half of the scale is never used. *)
Theorem hash_vectors_are_similar (e : engine) (text1 text2 context1 context2 : string)
    (use_cache1 use_cache2 : bool) :
  is_available e = false ->
  1 / 2 <= calculate_semantic_similarity
             (fst (encode_text text1 context1 use_cache1 e))
             (fst (encode_text text2 context2 use_cache2 e)) <= 1.
Proof.
  intros Hoff. unfold encode_text. rewrite Hoff. cbn [negb fst].
  rewrite similarity_some by (rewrite !hash_vector_length; reflexivity).
  pose proof (dot_nonneg _ _ (hash_vector_nonneg text1) (hash_vector_nonneg text2)) as Hd.
  unfold PyNum.py_min. destruct (Rlt_dec _ _);
    unfold PyNum.py_max; destruct (Rlt_dec _ _); lra.
Qed.

Lemma hash_vectors_are_similar_witness :
  is_available Demo.engine_without_deps = false
  /\ 1 / 2 <= calculate_semantic_similarity
                (fst (encode_text "PhD in Physics" "education" true
                        Demo.engine_without_deps))
                (fst (encode_text "Driver" "job_edu_comparison" true
                        Demo.engine_without_deps)).
Proof.
  split; [reflexivity |].
  apply (hash_vectors_are_similar Demo.engine_without_deps "PhD in Physics" "Driver"
           "education" "job_edu_comparison" true true eq_refl).
Defined.

(** *** The cache of [encode_text] *)

(** The engine with another value of [self.model] *)
Definition with_model (m : option (string -> outcome vec)) (e : engine) : engine :=
  {| deps_available := deps_available e;
     model_name := model_name e;
     model := m;
     job_embeddings_cache := job_embeddings_cache e;
     candidate_embeddings_cache := candidate_embeddings_cache e;
     max_sequence_length := max_sequence_length e;
     similarity_threshold := similarity_threshold e |}.

Lemma encode_text_hit text context e v :
  is_available e = true ->
  candidate_embeddings_cache e !! _generate_cache_key e text context = Some v ->
  encode_text text context true e = (Some v, e).
Proof.
  intros Hon Hhit. unfold encode_text. rewrite Hon. cbn [negb].
  rewrite Hhit. reflexivity.
Qed.

Lemma encode_text_stores text context e v e1 :
  is_available e = true ->
  encode_text text context true e = (Some v, e1) ->
  is_available e1 = true
  /\ model_name e1 = model_name e
  /\ candidate_embeddings_cache e1 !! _generate_cache_key e text context = Some v.
Proof.
  intros Hon. unfold encode_text. rewrite Hon. cbn [negb].
  destruct (candidate_embeddings_cache e !! _) as [cached |] eqn:Hhit.
  - intros Hrun. injection Hrun as -> ->. repeat split; assumption.
  - destruct (model e) as [encode |]; [| discriminate].
    destruct (encode _) as [embedding | msg]; [| discriminate].
    intros Hrun. injection Hrun as -> <-.
    cbn [with_candidate_cache candidate_embeddings_cache model_name].
    split; [exact Hon |]. split; [reflexivity |]. apply lookup_insert_eq.
Qed.

(** Once [encode_text] has returned an embedding for a text and a context
    with the cache in use, the same request is answered with that embedding
    and the engine stays as it is, whatever has become of the model: a
    cached text is never encoded again. *)
Theorem cached_embedding_needs_no_model (text context : string) (e e1 : engine)
    (v : vec) (m : option (string -> outcome vec)) :
  encode_text text context true e = (Some v, e1) ->
  encode_text text context true (with_model m e1) = (Some v, with_model m e1).
Proof.
  intros Hrun. destruct (is_available e) eqn:Hon.
  - destruct (encode_text_stores text context e v e1 Hon Hrun) as (Hon1 & Hname & Hhit).
    apply encode_text_hit; [exact Hon1 |].
    unfold _generate_cache_key in *. cbn [with_model model_name candidate_embeddings_cache].
    rewrite Hname. exact Hhit.
  - unfold encode_text in *. rewrite Hon in Hrun. cbn [negb] in Hrun.
    injection Hrun as <- <-.
    unfold is_available in *. cbn [with_model deps_available]. rewrite Hon.
    reflexivity.
Qed.

Lemma cached_embedding_needs_no_model_witness :
  exists v e1,
    encode_text "PhD in Physics" "education" true Demo.engine_with_model = (Some v, e1)
    /\ encode_text "PhD in Physics" "education" true (with_model None e1)
       = (Some v, with_model None e1).
Proof.
  exists [1; 0]. eexists. split; [reflexivity |].
  apply (cached_embedding_needs_no_model "PhD in Physics" "education"
           Demo.engine_with_model _ [1; 0] None).
  reflexivity.
Defined.

Lemma append_assoc (s1 s2 s3 : string) : (s1 +:+ s2) +:+ s3 = s1 +:+ (s2 +:+ s3).
Proof.
  induction s1 as [| c s1 IH]; [reflexivity |].
  change (String c ((s1 +:+ s2) +:+ s3) = String c (s1 +:+ (s2 +:+ s3))).
  rewrite IH. reflexivity.
Qed.

(** The cache key is the digest of [text], ["_"], [context], ["_"] and the
    model name run together, so it does not tell where the text ends and
    the context begins: after [text_u] has been encoded under the context
    [c], the request for [text] under the context [u_c] is answered from
    the cache with the embedding of [text_u]. *)
Theorem cache_key_runs_text_into_context (text u c : string) (e e1 : engine)
    (v : vec) :
  is_available e = true ->
  encode_text (text +:+ "_" +:+ u) c true e = (Some v, e1) ->
  _generate_cache_key e (text +:+ "_" +:+ u) c
  = _generate_cache_key e text (u +:+ "_" +:+ c)
  /\ encode_text text (u +:+ "_" +:+ c) true e1 = (Some v, e1).
Proof.
  intros Hon Hrun.
  assert (Hkey : forall e0, _generate_cache_key e0 (text +:+ "_" +:+ u) c
                 = _generate_cache_key e0 text (u +:+ "_" +:+ c)).
  { intros e0. unfold _generate_cache_key. rewrite !append_assoc. reflexivity. }
  split; [apply Hkey |].
  destruct (encode_text_stores _ c e v e1 Hon Hrun) as (Hon1 & Hname & Hhit).
  apply encode_text_hit; [exact Hon1 |].
  rewrite <- Hkey. unfold _generate_cache_key in *. rewrite Hname. exact Hhit.
Qed.

(** A model that tells the text ["PhD"] from every other text *)
Definition phd_model : string -> outcome vec :=
  fun text => if String.eqb text "PhD" then Ok [0; 1] else Ok [1; 0].

Definition phd_engine : engine :=
  init true (fun _ => Ok phd_model) "all-MiniLM-L6-v2".

Lemma cache_key_runs_text_into_context_witness :
  is_available phd_engine = true
  /\ exists e1,
       encode_text "PhD_2019" "education" true phd_engine = (Some [1; 0], e1)
       /\ phd_model "PhD" = Ok [0; 1]
       /\ encode_text "PhD" "2019_education" true e1 = (Some [1; 0], e1).
Proof.
  split; [reflexivity |]. eexists. split; [reflexivity |]. split; [reflexivity |].
  apply (cache_key_runs_text_into_context "PhD" "2019" "education" phd_engine _ [1; 0]
           eq_refl eq_refl).
Defined.

(** *** Truncation *)

Lemma substring_all (s : string) : forall n : nat,
  (String.length s <= n)%nat -> String.substring 0 n s = s.
Proof.
  induction s as [| c s IH]; intros [| n] Hlen; simpl in *; try reflexivity; try lia.
  rewrite IH by lia. reflexivity.
Qed.

Lemma truncated_text (n : nat) (text : string) :
  (if (n <? len text)%nat then String.substring 0 n text else text)
  = String.substring 0 n text.
Proof.
  unfold len. destruct (Nat.ltb_spec n (String.length text)) as [_ | Hle];
    [reflexivity |].
  symmetry. apply substring_all. exact Hle.
Qed.

(** With the cache not in use, as for job postings, the model sees the
    first [max_sequence_length] characters of the text and nothing else:
    two texts that agree on them get the same embedding, whatever follows
    and whatever the contexts are. *)
Theorem long_text_is_truncated (text1 text2 context1 context2 : string)
    (e : engine) :
  is_available e = true ->
  String.substring 0 (max_sequence_length e) text1
  = String.substring 0 (max_sequence_length e) text2 ->
  encode_text text1 context1 false e = encode_text text2 context2 false e.
Proof.
  intros Hon Hprefix. unfold encode_text. rewrite Hon. cbn [negb].
  rewrite !truncated_text, Hprefix. reflexivity.
Qed.

(** An engine that keeps four characters, with a model that returns the
    length of what it is given *)
Definition length_model : string -> outcome vec :=
  fun text => Ok [INR (String.length text)].

Definition short_engine : engine :=
  {| deps_available := true;
     model_name := "all-MiniLM-L6-v2";
     model := Some length_model;
     job_embeddings_cache := ∅;
     candidate_embeddings_cache := ∅;
     max_sequence_length := 4;
     similarity_threshold := 0.3 |}.

Lemma long_text_is_truncated_witness :
  is_available short_engine = true
  /\ String.substring 0 (max_sequence_length short_engine) "Dean of Science"
     = String.substring 0 (max_sequence_length short_engine) "Dean"
  /\ encode_text "Dean of Science" "job_1" false short_engine
     = encode_text "Dean" "job_2" false short_engine.
Proof.
  split; [reflexivity |]. split; [reflexivity |].
  apply (long_text_is_truncated "Dean of Science" "Dean" "job_1" "job_2" short_engine
           eq_refl eq_refl).
Defined.

(** *** The detailed scores *)

Section Ranges.
Context `{PyRuntime}.

Lemma relevance_of_texts_range texts job_text context job_context e :
  0 <= fst (relevance_of_texts texts job_text context job_context e) <= 1.
Proof.
  unfold relevance_of_texts.
  destruct texts as [| t ts]; [cbn [fst]; lra |].
  destruct (encode_text _ _ _ e) as [a e1].
  destruct (encode_text _ _ _ e1) as [b e2].
  destruct a, b; cbn [fst]; try lra. apply similarity_range.
Qed.

Lemma education_relevance_range c j e :
  0 <= fst (_calculate_education_relevance c j e) <= 1.
Proof.
  unfold _calculate_education_relevance.
  destruct (education_texts c); [apply relevance_of_texts_range | cbn [fst]; lra].
Qed.

Lemma experience_relevance_range c j e :
  0 <= fst (_calculate_experience_relevance c j e) <= 1.
Proof.
  unfold _calculate_experience_relevance.
  destruct (experience_texts c); [apply relevance_of_texts_range | cbn [fst]; lra].
Qed.

Lemma training_relevance_range c j e :
  0 <= fst (_calculate_training_relevance c j e) <= 1.
Proof.
  unfold _calculate_training_relevance.
  destruct (training_texts c); [apply relevance_of_texts_range | cbn [fst]; lra].
Qed.

Lemma rounded_unit_range x : 0 <= x <= 1 -> 0 <= PyNum.py_round x 3 <= 1.
Proof. intros Hx. apply (PyNumFacts.py_round_range x 3 0 1). exact Hx. Qed.

Lemma detailed_scores_range (candidate_data job_data : pydict) (e : engine) :
  let d := fst (calculate_detailed_semantic_score candidate_data job_data e) in
  0 <= overall_score d <= 1
  /\ 0 <= education_relevance d <= 1
  /\ 0 <= experience_relevance d <= 1
  /\ 0 <= training_relevance d <= 1.
Proof.
  unfold calculate_detailed_semantic_score.
  destruct (negb (is_available e)).
  { cbn. repeat split; lra. }
  destruct (encode_candidate_profile candidate_data e) as [ce e1].
  destruct (encode_job_requirements job_data e1) as [je e2].
  destruct ce as [cv |], je as [jv |]; try (cbn; repeat split; lra).
  pose proof (education_relevance_range candidate_data job_data e2) as H3.
  destruct (_calculate_education_relevance candidate_data job_data e2) as [s3 e3].
  pose proof (experience_relevance_range candidate_data job_data e3) as H4.
  destruct (_calculate_experience_relevance candidate_data job_data e3) as [s4 e4].
  pose proof (training_relevance_range candidate_data job_data e4) as H5.
  destruct (_calculate_training_relevance candidate_data job_data e4) as [s5 e5].
  cbn [fst snd] in *.
  cbn [overall_score education_relevance experience_relevance training_relevance].
  split; [apply rounded_unit_range, similarity_range |].
  split; [apply rounded_unit_range; exact H3 |].
  split; apply rounded_unit_range; assumption.
Qed.

Lemma detailed_scores_model (candidate_data job_data : pydict) (e : engine) :
  let d := fst (calculate_detailed_semantic_score candidate_data job_data e) in
  error d = None ->
  model_used d = Some (model_name e)
  /\ details_threshold d = Some (similarity_threshold e).
Proof.
  pose proof (calculate_detailed_semantic_score_config candidate_data job_data e)
    as Hc.
  unfold calculate_detailed_semantic_score in *.
  destruct (negb (is_available e)); [cbn; discriminate |].
  destruct (encode_candidate_profile candidate_data e) as [ce e1].
  destruct (encode_job_requirements job_data e1) as [je e2].
  destruct ce as [cv |], je as [jv |]; try (cbn; discriminate).
  destruct (_calculate_education_relevance candidate_data job_data e2) as [s3 e3].
  destruct (_calculate_experience_relevance candidate_data job_data e3) as [s4 e4].
  destruct (_calculate_training_relevance candidate_data job_data e4) as [s5 e5].
  cbn [fst snd model_used details_threshold] in *. intros _.
  destruct Hc as (_ & Hname & _ & _ & Hthr).
  rewrite Hname, Hthr. split; reflexivity.
Qed.

(** Whatever the candidate, the job and the state of the engine, the four
    scores [calculate_detailed_semantic_score] returns lie in [0, 1], also
    after rounding; and a result without an ['error'] entry names the
    model and the threshold of the engine that was asked. *)
Theorem detailed_scores_in_unit_interval (candidate_data job_data : pydict)
    (e : engine) :
  let d := fst (calculate_detailed_semantic_score candidate_data job_data e) in
  0 <= overall_score d <= 1
  /\ 0 <= education_relevance d <= 1
  /\ 0 <= experience_relevance d <= 1
  /\ 0 <= training_relevance d <= 1
  /\ (error d = None ->
      model_used d = Some (model_name e)
      /\ details_threshold d = Some (similarity_threshold e)).
Proof.
  intros d.
  destruct (detailed_scores_range candidate_data job_data e) as (Ho & He & Hx & Ht).
  fold d in Ho, He, Hx, Ht.
  repeat (split; [assumption |]).
  apply detailed_scores_model.
Qed.

(** *** The size of the profile text *)

Lemma flat_map_short {A B : Type} (f : A -> list B) (l : list A) :
  (forall x, (length (f x) <= 1)%nat) ->
  (length (flat_map f l) <= length l)%nat.
Proof.
  intros Hf. induction l as [| x l IH]; simpl; [lia |].
  rewrite length_app. specialize (Hf x). lia.
Qed.

Lemma for_each_short {A : Type} (body : pyval -> outcome (list A))
    (items : list pyval) :
  (forall x r, body x = Ok r -> (length r <= 1)%nat) ->
  forall out, for_each body items = Ok out -> (length out <= length items)%nat.
Proof.
  intros Hbody. induction items as [| x items IH]; simpl; intros out Hrun.
  - injection Hrun as <-. simpl. lia.
  - destruct (body x) as [here |] eqn:Hx; [| discriminate].
    destruct (for_each body items) as [later |]; [| discriminate].
    injection Hrun as <-. rewrite length_app.
    specialize (Hbody x here Hx). specialize (IH later eq_refl). lia.
Qed.

Lemma substring_short (s : string) : forall n : nat,
  (String.length (String.substring 0 n s) <= n)%nat.
Proof.
  induction s as [| c s IH]; intros [| n]; simpl; try lia.
  specialize (IH n). lia.
Qed.

Lemma length_list_ascii (s : string) :
  length (list_ascii_of_string s) = String.length s.
Proof. induction s as [| c s IH]; simpl; [reflexivity | rewrite IH; reflexivity]. Qed.

Lemma sliced_items_short (n : nat) (v sliced : pyval) (items : list pyval) :
  py_slice_to n v = Ok sliced -> py_iter sliced = Ok items ->
  (length items <= n)%nat.
Proof.
  destruct v; cbn; try discriminate; intros [= <-]; cbn; intros [= <-].
  - rewrite length_map, length_list_ascii. apply substring_short.
  - apply firstn_le_length.
Qed.

Ltac short_item :=
  let x := fresh "x" in
  intros x; destruct x; cbn; try lia;
  repeat match goal with
         | |- context [length (if ?b then _ else _)] => destruct b; cbn
         end;
  lia.

Lemma profile_education_short (c : pydict) :
  (length (profile_education c) <= 4)%nat.
Proof.
  unfold profile_education.
  destruct (negb _);
    match goal with |- context [match ?v with PList _ => _ | _ => _ end] =>
      destruct v end; cbn [length]; try lia;
    (etransitivity; [apply flat_map_short; short_item | apply firstn_le_length]).
Qed.

Lemma profile_experience_short (c : pydict) (parts : list string) :
  profile_experience c = Ok parts -> (length parts <= 4)%nat.
Proof.
  unfold profile_experience.
  destruct (negb _);
    match goal with |- context [match ?v with PList _ => _ | _ => _ end] =>
      destruct v end; try (intros [= <-]; cbn [length]; lia).
  - intros Hrun. etransitivity; [| apply (firstn_le_length 4 l)].
    eapply for_each_short; [| exact Hrun].
    intros x r. destruct x; cbn; try (intros [= <-]; cbn; lia).
    destruct (_ || _); [| intros [= <-]; cbn; lia].
    destruct (truthy _); [| intros [= <-]; cbn; lia].
    destruct (py_slice_to _ _); cbn; [intros [= <-]; cbn; lia | discriminate].
  - intros [= <-].
    etransitivity; [apply flat_map_short; short_item | apply firstn_le_length].
Qed.

Lemma profile_training_short (c : pydict) (parts : list string) :
  profile_training c = Ok parts -> (length parts <= 3)%nat.
Proof.
  unfold profile_training.
  destruct (negb _).
  - match goal with |- context [match ?v with PList _ => _ | _ => _ end] =>
      destruct v end; intros [= <-]; cbn [length]; try lia.
    etransitivity; [apply flat_map_short; short_item | apply firstn_le_length].
  - destruct (py_slice_to 3 _) as [sliced |] eqn:Hslice; cbn; [| discriminate].
    destruct (py_iter sliced) as [items |] eqn:Hiter; cbn; [| discriminate].
    intros [= <-].
    etransitivity; [apply flat_map_short; short_item |].
    eapply sliced_items_short; eassumption.
Qed.

Lemma profile_eligibility_short (c : pydict) :
  (length (profile_eligibility c) <= 2)%nat.
Proof.
  unfold profile_eligibility.
  match goal with |- context [match ?v with PList _ => _ | _ => _ end] =>
    destruct v end; cbn [length]; try lia.
  etransitivity; [apply flat_map_short; short_item | apply firstn_le_length].
Qed.

Lemma profile_personal_info_short (c : pydict) (parts : list string) :
  profile_personal_info c = Ok parts -> (length parts <= 1)%nat.
Proof.
  unfold profile_personal_info.
  match goal with |- context [match ?v with PDict _ => _ | _ => _ end] =>
    destruct v end; try (intros [= <-]; cbn [length]; lia).
  destruct (truthy _); [| intros [= <-]; cbn [length]; lia].
  destruct (py_get _ _ _) as [citizenship |]; cbn; [| discriminate].
  destruct (_ && _); intros [= <-]; cbn [length]; lia.
Qed.

(** The profile text [encode_candidate_profile] embeds has at most 14
    parts: 4 for education, 4 for experience, 3 for training, 2 for
    eligibility and 1 for citizenship, however long the lists of the
    candidate are. *)
Theorem profile_text_is_bounded (candidate_data : pydict) (parts : list string) :
  candidate_profile_parts candidate_data = Ok parts ->
  exists experience training personal_info,
    parts = profile_education candidate_data ++ experience ++ training
            ++ profile_eligibility candidate_data ++ personal_info
    /\ (length (profile_education candidate_data) <= 4)%nat
    /\ (length experience <= 4)%nat
    /\ (length training <= 3)%nat
    /\ (length (profile_eligibility candidate_data) <= 2)%nat
    /\ (length personal_info <= 1)%nat
    /\ (length parts <= 14)%nat.
Proof.
  unfold candidate_profile_parts.
  pose proof (profile_education_short candidate_data) as Hedu.
  pose proof (profile_eligibility_short candidate_data) as Helig.
  destruct (profile_experience candidate_data) as [experience |] eqn:Hexp;
    cbn; [| discriminate].
  destruct (profile_training candidate_data) as [training |] eqn:Htrain;
    cbn; [| discriminate].
  destruct (profile_personal_info candidate_data) as [personal_info |] eqn:Hinfo;
    cbn; [| discriminate].
  intros [= <-].
  apply profile_experience_short in Hexp.
  apply profile_training_short in Htrain.
  apply profile_personal_info_short in Hinfo.
  exists experience, training, personal_info.
  split; [reflexivity |].
  repeat (split; [assumption |]).
  rewrite !length_app. lia.
Qed.

End Ranges.

#[local] Existing Instance Demo.runtime.

(** A candidate with six degrees *)
Definition six_degrees : pydict :=
  [ ("id", PInt 9);
    ("education", PList (repeat (PDict [("degree", PStr "MSc")]) 6)) ].

Lemma profile_text_is_bounded_witness :
  exists parts,
    candidate_profile_parts six_degrees = Ok parts
    /\ (length parts <= 14)%nat
    /\ length parts = 4%nat.
Proof.
  eexists. split; [reflexivity |].
  destruct (profile_text_is_bounded six_degrees _ eq_refl)
    as (experience & training & info & _ & _ & _ & _ & _ & _ & Hlen).
  split; [exact Hlen | reflexivity].
Defined.

End SemanticEngineProperties.

(* ===================================================================== *)
(** ** The cache files and batch encoding *)
(* ===================================================================== *)

Module SemanticEngineStoreSpec.

Import Py SemanticEngine SemanticEngineStore SemanticEngineSpec.

(** *** Batches *)

Lemma firstn_add {A : Type} (a b : nat) : forall l : list A,
  firstn (a + b) l = firstn a l ++ firstn b (skipn a l).
Proof.
  induction a as [| a IH]; intros [| x l]; simpl; try reflexivity.
  - destruct b; reflexivity.
  - rewrite IH. reflexivity.
Qed.

Lemma skipn_add {A : Type} (a b : nat) : forall l : list A,
  skipn (a + b) l = skipn b (skipn a l).
Proof.
  induction a as [| a IH]; intros [| x l]; simpl; try reflexivity.
  - destruct b; reflexivity.
  - apply IH.
Qed.

(** The batches of sizes [batch_size] that start at the indices
    [k * batch_size, (k + 1) * batch_size, ...] are consecutive pieces of
    the list. *)
Lemma slices_are_consecutive {A : Type} (batch_size : nat) (l : list A) :
  forall m k : nat,
    concat (map (fun i => py_slice i (i + batch_size) l)
                (map (fun j => j * batch_size)%nat (seq k m)))
    = firstn (m * batch_size) (skipn (k * batch_size) l).
Proof.
  induction m as [| m IH]; intros k; [reflexivity |].
  cbn [seq map concat]. rewrite IH. unfold py_slice.
  replace (k * batch_size + batch_size - k * batch_size)%nat with batch_size by lia.
  replace (S k * batch_size)%nat with (k * batch_size + batch_size)%nat by lia.
  replace (S m * batch_size)%nat with (batch_size + m * batch_size)%nat by lia.
  rewrite skipn_add, firstn_add. reflexivity.
Qed.

Lemma slices_cover {A : Type} (batch_size : nat) (l : list A) indices :
  py_range (length l) batch_size = Ok indices ->
  concat (map (fun i => py_slice i (i + batch_size) l) indices) = l.
Proof.
  unfold py_range.
  destruct (Nat.eqb_spec batch_size 0) as [| Hpos]; [discriminate |].
  intros [= <-].
  rewrite slices_are_consecutive. cbn [Nat.mul skipn].
  apply firstn_all2.
  pose proof (Nat.div_mod_eq (length l + batch_size - 1) batch_size) as Hdiv.
  pose proof (Nat.mod_upper_bound (length l + batch_size - 1) batch_size Hpos) as Hmod.
  nia.
Qed.

Section Batches.
Context `{PyRuntime}.

Lemma encode_batch_app (a b : list pydict) : forall e : engine,
  encode_batch (a ++ b) e
  = let '(x, e1) := encode_batch a e in
    let '(y, e2) := encode_batch b e1 in
    (x ++ y, e2).
Proof.
  induction a as [| c a IH]; intros e; cbn [encode_batch app].
  - destruct (encode_batch b e); reflexivity.
  - destruct (encode_candidate_profile c e) as [emb e1].
    rewrite IH.
    destruct (encode_batch a e1) as [x e2].
    destruct (encode_batch b e2) as [y e3]. reflexivity.
Qed.

Lemma encode_batches_concat (batch_size : nat) (candidates_data : list pydict) :
  forall (indices : list nat) (embeddings : list (option vec)) (e : engine),
    encode_batches indices batch_size candidates_data embeddings e
    = let '(x, e1) :=
        encode_batch
          (concat (map (fun i => py_slice i (i + batch_size) candidates_data)
                       indices)) e in
      (embeddings ++ x, e1).
Proof.
  induction indices as [| i rest IH]; intros embeddings e;
    cbn [encode_batches map concat].
  - cbn [encode_batch]. rewrite app_nil_r. reflexivity.
  - rewrite encode_batch_app.
    destruct (encode_batch (py_slice i (i + batch_size) candidates_data) e)
      as [x e1].
    rewrite IH.
    destruct (encode_batch _ e1) as [y e2].
    rewrite <- app_assoc. reflexivity.
Qed.

Lemma encode_batch_length (batch : list pydict) : forall e : engine,
  length (fst (encode_batch batch e)) = length batch.
Proof.
  induction batch as [| c batch IH]; intros e; cbn [encode_batch]; [reflexivity |].
  destruct (encode_candidate_profile c e) as [emb e1].
  specialize (IH e1). destruct (encode_batch batch e1) as [x e2].
  cbn [fst length] in *. rewrite IH. reflexivity.
Qed.

Lemma encode_batch_unavailable (batch : list pydict) (e : engine) :
  is_available e = false ->
  encode_batch batch e = (repeat None (length batch), e).
Proof.
  intros Hoff. induction batch as [| c batch IH]; cbn [encode_batch]; [reflexivity |].
  unfold encode_candidate_profile at 1. rewrite Hoff. cbn [negb].
  rewrite IH. reflexivity.
Qed.

(** Cutting the candidates into batches changes nothing: with a positive
    batch size, [batch_encode_candidates] returns what encoding the
    candidates one after the other returns, one entry per candidate in
    input order, and leaves the engine in the same state. With a batch
    size of 0, [range] raises and every entry is [None]. *)
Theorem batching_is_transparent (batch_size : nat) (candidates_data : list pydict)
    (e : engine) :
  (0 < batch_size)%nat ->
  batch_encode_candidates batch_size candidates_data e
  = encode_batch candidates_data e
  /\ length (fst (batch_encode_candidates batch_size candidates_data e))
     = length candidates_data
  /\ batch_encode_candidates 0 candidates_data e
     = (repeat None (length candidates_data), e).
Proof.
  intros Hpos.
  assert (Hseq : batch_encode_candidates batch_size candidates_data e
                 = encode_batch candidates_data e).
  { unfold batch_encode_candidates.
    destruct (is_available e) eqn:Hon; cbn [negb].
    - destruct (py_range (length candidates_data) batch_size) as [indices | msg]
        eqn:Hrange.
      + rewrite encode_batches_concat, (slices_cover _ _ _ Hrange).
        destruct (encode_batch candidates_data e). reflexivity.
      + unfold py_range in Hrange.
        destruct (Nat.eqb_spec batch_size 0); [lia | discriminate].
    - symmetry. apply encode_batch_unavailable. exact Hon. }
  split; [exact Hseq |]. split.
  - rewrite Hseq. apply encode_batch_length.
  - unfold batch_encode_candidates. cbn. destruct (negb _); reflexivity.
Qed.

End Batches.

#[local] Existing Instance Demo.runtime.

Lemma batching_is_transparent_witness :
  (0 < 2)%nat
  /\ batch_encode_candidates 2
       [Demo.candidate_with_degree; Demo.empty_candidate; Demo.candidate_with_degree]
       Demo.engine_with_model
     = encode_batch
         [Demo.candidate_with_degree; Demo.empty_candidate; Demo.candidate_with_degree]
         Demo.engine_with_model
  /\ fst (batch_encode_candidates 2
            [Demo.candidate_with_degree; Demo.empty_candidate;
             Demo.candidate_with_degree]
            Demo.engine_with_model)
     = [Some [1; 0]; None; Some [1; 0]].
Proof.
  split; [lia |].
  destruct (batching_is_transparent 2
              [Demo.candidate_with_degree; Demo.empty_candidate;
               Demo.candidate_with_degree]
              Demo.engine_with_model) as (Hseq & _ & _); [lia |].
  split; [exact Hseq |]. rewrite Hseq. reflexivity.
Defined.

(** *** The cache files *)

Lemma path_join_inj (a b b' : string) : path_join a b = path_join a b' -> b = b'.
Proof.
  unfold path_join. destruct (_ || _); intros Heq.
  - exact (String.app_inj a _ _ Heq).
  - apply (String.app_inj a) in Heq. exact (String.app_inj "/" _ _ Heq).
Qed.

Lemma cache_files_differ (cache_dir : string) :
  job_cache_file cache_dir <> candidate_cache_file cache_dir.
Proof.
  unfold job_cache_file, candidate_cache_file. intros Heq.
  apply path_join_inj in Heq. discriminate.
Qed.

Lemma nonempty_true (cache : gmap string vec) : cache <> ∅ -> nonempty cache = true.
Proof.
  intros Hne. unfold nonempty.
  destruct (Nat.eqb_spec (size cache) 0) as [Hz | _]; [| reflexivity].
  apply map_size_empty_iff in Hz. contradiction.
Qed.

Lemma nonempty_false (cache : gmap string vec) : cache = ∅ -> nonempty cache = false.
Proof. intros ->. reflexivity. Qed.

Lemma dump_writable (path : string) (cache : gmap string vec) (d : disk) :
  path ∉ read_only d ->
  dump path cache d
  = Ok {| files := <[path := Pickled cache]> (files d); read_only := read_only d |}.
Proof.
  intros Hw. unfold dump. rewrite bool_decide_eq_false_2 by exact Hw. reflexivity.
Qed.

Lemma dump_other (path other : string) (cache : gmap string vec) (d d' : disk) :
  dump path cache d = Ok d' -> other <> path ->
  files d' !! other = files d !! other /\ read_only d' = read_only d.
Proof.
  unfold dump. destruct (bool_decide _); [discriminate |].
  intros [= <-] Hne. cbn [files read_only].
  rewrite lookup_insert_ne by congruence. split; reflexivity.
Qed.

Section Files.
Variable cache_dir : string.

(** What [_save_embedding_cache] leaves in the job file *)
Lemma saved_job_file (cache_type : string) (e : engine) (d : disk) :
  files (_save_embedding_cache cache_dir cache_type e d) !! job_cache_file cache_dir
  = if one_of cache_type ["job"; "both"] && nonempty (job_embeddings_cache e)
       && negb (bool_decide (job_cache_file cache_dir ∈ read_only d))
    then Some (Pickled (job_embeddings_cache e))
    else files d !! job_cache_file cache_dir.
Proof.
  unfold _save_embedding_cache.
  destruct (one_of cache_type ["job"; "both"] && nonempty (job_embeddings_cache e)).
  - unfold dump at 1.
    destruct (bool_decide (job_cache_file cache_dir ∈ read_only d)); cbn [andb negb];
      [reflexivity |].
    destruct (_ && _); [| cbn [files]; apply lookup_insert_eq].
    destruct (dump (candidate_cache_file cache_dir) _ _) as [d2 |] eqn:Hdump;
      [| cbn [files]; apply lookup_insert_eq].
    destruct (dump_other _ (job_cache_file cache_dir) _ _ _ Hdump
                (cache_files_differ cache_dir)) as [-> _].
    cbn [files]. apply lookup_insert_eq.
  - cbn [andb].
    destruct (_ && _); [| reflexivity].
    destruct (dump (candidate_cache_file cache_dir) _ _) as [d2 |] eqn:Hdump;
      [| reflexivity].
    destruct (dump_other _ (job_cache_file cache_dir) _ _ _ Hdump
                (cache_files_differ cache_dir)) as [-> _].
    reflexivity.
Qed.

(** What [_load_embedding_cache] makes of the job file *)
Lemma loaded_job_cache (e : engine) (d : disk) :
  job_embeddings_cache (_load_embedding_cache cache_dir e d)
  = match files d !! job_cache_file cache_dir with
    | Some (Pickled cache) => cache
    | _ => job_embeddings_cache e
    end.
Proof.
  unfold _load_embedding_cache.
  destruct (files d !! job_cache_file cache_dir) as [[cache |] |];
    try reflexivity;
    destruct (files d !! candidate_cache_file cache_dir) as [[cache' |] |];
    reflexivity.
Qed.

(** Saving and loading the job cache. A job cache that is not empty, saved
    to a file that can be written, is what a later load puts into the
    engine, whatever happens to the candidate file. An empty job cache is
    not written at all: the file keeps what it held, and a later load
    brings those entries back. *)
Theorem job_cache_round_trip (cache_type : string) (e e0 : engine) (d : disk) :
  (one_of cache_type ["job"; "both"] = true ->
   job_embeddings_cache e <> ∅ ->
   job_cache_file cache_dir ∉ read_only d ->
   job_embeddings_cache
     (_load_embedding_cache cache_dir e0
        (_save_embedding_cache cache_dir cache_type e d))
   = job_embeddings_cache e)
  /\ (forall old : gmap string vec,
        job_embeddings_cache e = ∅ ->
        files d !! job_cache_file cache_dir = Some (Pickled old) ->
        job_embeddings_cache
          (_load_embedding_cache cache_dir e0
             (_save_embedding_cache cache_dir cache_type e d))
        = old).
Proof.
  split.
  - intros Htype Hne Hw.
    rewrite loaded_job_cache, saved_job_file, Htype, (nonempty_true _ Hne).
    rewrite bool_decide_eq_false_2 by exact Hw. reflexivity.
  - intros old Hempty Hfile.
    rewrite loaded_job_cache, saved_job_file, (nonempty_false _ Hempty).
    rewrite andb_false_r. cbn [andb]. rewrite Hfile. reflexivity.
Qed.

(** What [_save_embedding_cache] leaves in the candidate file when both
    files can be written *)
Lemma saved_candidate_file (cache_type : string) (e : engine) (d : disk) :
  job_cache_file cache_dir ∉ read_only d ->
  candidate_cache_file cache_dir ∉ read_only d ->
  files (_save_embedding_cache cache_dir cache_type e d)
    !! candidate_cache_file cache_dir
  = if one_of cache_type ["candidate"; "both"]
       && nonempty (candidate_embeddings_cache e)
    then Some (Pickled (candidate_embeddings_cache e))
    else files d !! candidate_cache_file cache_dir.
Proof.
  intros Hwj Hwc. unfold _save_embedding_cache.
  pose proof (cache_files_differ cache_dir) as Hdiff.
  destruct (one_of cache_type ["job"; "both"] && nonempty (job_embeddings_cache e)).
  - rewrite (dump_writable _ _ _ Hwj).
    destruct (_ && _).
    + rewrite dump_writable by exact Hwc. cbn [files]. apply lookup_insert_eq.
    + cbn [files]. apply lookup_insert_ne. exact Hdiff.
  - destruct (_ && _); [| reflexivity].
    rewrite dump_writable by exact Hwc. cbn [files]. apply lookup_insert_eq.
Qed.

(** [cleanup_cache] followed by a load, for the candidate cache. The
    candidate cache is loaded after the job cache, inside one [try]: it
    comes back as saved when the job file can be read, and an unreadable
    job file, which an empty job cache does not overwrite, keeps the load
    from reaching the candidate file. The age limit plays no part. *)
Theorem candidate_cache_round_trip (max_age_days : Z) (e e0 : engine) (d : disk) :
  job_cache_file cache_dir ∉ read_only d ->
  candidate_cache_file cache_dir ∉ read_only d ->
  candidate_embeddings_cache e <> ∅ ->
  let d' := cleanup_cache cache_dir max_age_days e d in
  files d' !! candidate_cache_file cache_dir
  = Some (Pickled (candidate_embeddings_cache e))
  /\ (job_embeddings_cache e <> ∅
      \/ files d !! job_cache_file cache_dir <> Some Unreadable ->
      candidate_embeddings_cache (_load_embedding_cache cache_dir e0 d')
      = candidate_embeddings_cache e)
  /\ (job_embeddings_cache e = ∅ ->
      files d !! job_cache_file cache_dir = Some Unreadable ->
      _load_embedding_cache cache_dir e0 d' = e0).
Proof.
  intros Hwj Hwc Hne d'.
  assert (Hcand : files d' !! candidate_cache_file cache_dir
                  = Some (Pickled (candidate_embeddings_cache e))).
  { unfold d', cleanup_cache.
    rewrite saved_candidate_file by assumption.
    rewrite (nonempty_true _ Hne). reflexivity. }
  assert (Hjob : files d' !! job_cache_file cache_dir
                 = if nonempty (job_embeddings_cache e)
                   then Some (Pickled (job_embeddings_cache e))
                   else files d !! job_cache_file cache_dir).
  { unfold d', cleanup_cache. rewrite saved_job_file.
    rewrite bool_decide_eq_false_2 by exact Hwj.
    cbn. rewrite andb_true_r. reflexivity. }
  split; [exact Hcand |]. split.
  - intros Hreadable. unfold _load_embedding_cache. rewrite Hjob, Hcand.
    destruct (nonempty (job_embeddings_cache e)) eqn:Hj; [reflexivity |].
    destruct Hreadable as [Hjne | Hfile].
    + rewrite (nonempty_true _ Hjne) in Hj. discriminate.
    + destruct (files d !! job_cache_file cache_dir) as [[cache |] |];
        [reflexivity | contradiction | reflexivity].
  - intros Hempty Hfile. unfold _load_embedding_cache.
    rewrite Hjob, (nonempty_false _ Hempty), Hfile. reflexivity.
Qed.

Section Encoding.
Context `{PyRuntime}.

(** The embedding and the engine are those of the method without the
    disk. *)
Lemma encode_job_requirements_to_disk_engine (job_data : pydict) (e : engine)
    (d : disk) :
  fst (encode_job_requirements_to_disk cache_dir job_data e d)
  = encode_job_requirements job_data e.
Proof.
  unfold encode_job_requirements_to_disk, encode_job_requirements.
  destruct (negb _); [reflexivity |].
  destruct (job_embeddings_cache e !! _); [reflexivity |].
  destruct (encode_text _ _ _ _) as [[v |] e1]; reflexivity.
Qed.

Lemma insert_nonempty (key : string) (v : vec) (cache : gmap string vec) :
  <[key := v]> cache <> ∅.
Proof. apply insert_non_empty. Qed.

(** On a miss that gives an embedding, the job file holds the new job
    cache afterwards, if it can be written. *)
Lemma encode_job_requirements_saves (job_data : pydict) (e e1 : engine)
    (d d1 : disk) (v : vec) :
  job_cache_file cache_dir ∉ read_only d ->
  job_embeddings_cache e !! job_cache_key e job_data = None ->
  encode_job_requirements_to_disk cache_dir job_data e d = (Some v, e1, d1) ->
  files d1 !! job_cache_file cache_dir = Some (Pickled (job_embeddings_cache e1)).
Proof.
  intros Hw Hmiss. unfold encode_job_requirements_to_disk.
  destruct (negb _); [discriminate |].
  fold (job_cache_key e job_data). rewrite Hmiss.
  destruct (encode_text _ _ _ _) as [[v' |] e'] eqn:Henc; [| discriminate].
  intros [= <- <- <-].
  rewrite saved_job_file. cbn [one_of existsb String.eqb Ascii.eqb Bool.eqb orb andb].
  cbn [with_job_cache job_embeddings_cache].
  rewrite (nonempty_true _ (insert_nonempty _ _ _)).
  rewrite bool_decide_eq_false_2 by exact Hw. reflexivity.
Qed.

(** Encoding a job never writes the candidate file: only [cleanup_cache]
    saves the candidate cache. *)
Theorem candidate_file_is_left_alone (job_data : pydict) (e : engine) (d : disk) :
  files (snd (encode_job_requirements_to_disk cache_dir job_data e d))
    !! candidate_cache_file cache_dir
  = files d !! candidate_cache_file cache_dir.
Proof.
  unfold encode_job_requirements_to_disk.
  destruct (negb _); [reflexivity |].
  destruct (job_embeddings_cache e !! _); [reflexivity |].
  destruct (encode_text _ _ _ _) as [[v |] e1]; [| reflexivity].
  cbn [snd]. unfold _save_embedding_cache.
  cbn [one_of existsb String.eqb Ascii.eqb Bool.eqb orb andb].
  destruct (nonempty _); [| reflexivity].
  destruct (dump _ _ d) as [d1 |] eqn:Hdump; [| reflexivity].
  apply (dump_other _ _ _ _ _ Hdump).
  intros Heq. apply (cache_files_differ cache_dir). symmetry. exact Heq.
Qed.

End Encoding.

End Files.

Section Restart.
Context `{PyRuntime}.

(** A job embedding survives a restart. When [encode_job_requirements] has
    computed a new embedding and the job file under the default cache
    directory can be written, the engine [get_semantic_engine] builds in a
    fresh process (the module variable is [None]) with the same model name
    answers the same job posting with that embedding from the loaded
    cache, without asking its model, which may even be missing. *)
Theorem job_embedding_survives_restart (job_data : pydict) (e e1 : engine)
    (d d1 : disk) (v : vec)
    (load : string -> outcome (string -> outcome vec)) :
  job_cache_file default_cache_dir ∉ read_only d ->
  job_embeddings_cache e !! job_cache_key e job_data = None ->
  encode_job_requirements_to_disk default_cache_dir job_data e d = (Some v, e1, d1) ->
  let e' := fst (get_semantic_engine true load None d1) in
  model_name e' = model_name e ->
  encode_job_requirements job_data e' = (Some v, e').
Proof.
  intros Hw Hmiss Hrun e' Hname.
  pose proof (encode_job_requirements_saves default_cache_dir job_data e e1 d d1 v
                Hw Hmiss Hrun) as Hfile.
  pose proof (encode_job_requirements_to_disk_engine default_cache_dir job_data e d)
    as Hengine.
  rewrite Hrun in Hengine. cbn [fst] in Hengine. symmetry in Hengine.
  destruct (job_cache_after job_data e v e1 Hengine) as [_ Hhit].
  pose proof (encode_job_requirements_config job_data e) as Hconfig.
  rewrite Hengine in Hconfig. cbn [snd] in Hconfig.
  assert (Hkey : job_cache_key e' job_data = job_cache_key e1 job_data).
  { destruct Hconfig as (_ & Hname1 & _).
    unfold job_cache_key, _generate_cache_key. rewrite Hname, Hname1. reflexivity. }
  apply job_cache_hit.
  - unfold e', get_semantic_engine, _load_embedding_cache. cbn [fst].
    destruct (files d1 !! _) as [[c |] |];
      try destruct (files d1 !! candidate_cache_file _) as [[c' |] |];
      unfold is_available; cbn; apply init_deps.
  - rewrite Hkey. unfold e', get_semantic_engine. cbn [fst].
    rewrite loaded_job_cache, Hfile. exact Hhit.
Qed.

End Restart.

(** A disk with no files, every path writable *)
Definition empty_disk : disk := {| files := ∅; read_only := ∅ |}.

Definition one_entry : gmap string vec := <["k" := [1; 0]]> ∅.

Definition engine_with_entries : engine :=
  with_candidate_cache one_entry (with_job_cache one_entry Demo.engine_with_model).

Lemma job_cache_round_trip_witness :
  one_of "job" ["job"; "both"] = true
  /\ job_embeddings_cache engine_with_entries <> ∅
  /\ (job_cache_file "semantic_cache" ∉ read_only empty_disk)
  /\ job_embeddings_cache
       (_load_embedding_cache "semantic_cache" Demo.engine_with_model
          (_save_embedding_cache "semantic_cache" "job" engine_with_entries empty_disk))
     = one_entry.
Proof.
  assert (Hne : job_embeddings_cache engine_with_entries <> ∅)
    by apply insert_non_empty.
  assert (Hw : job_cache_file "semantic_cache" ∉ read_only empty_disk)
    by apply not_elem_of_empty.
  split; [reflexivity |]. split; [exact Hne |]. split; [exact Hw |].
  apply (proj1 (job_cache_round_trip "semantic_cache" "job" engine_with_entries
                  Demo.engine_with_model empty_disk) eq_refl Hne Hw).
Defined.

Lemma candidate_cache_round_trip_witness :
  (job_cache_file "semantic_cache" ∉ read_only empty_disk)
  /\ (candidate_cache_file "semantic_cache" ∉ read_only empty_disk)
  /\ candidate_embeddings_cache engine_with_entries <> ∅
  /\ candidate_embeddings_cache
       (_load_embedding_cache "semantic_cache" Demo.engine_with_model
          (cleanup_cache "semantic_cache" 30 engine_with_entries empty_disk))
     = one_entry.
Proof.
  assert (Hne : candidate_embeddings_cache engine_with_entries <> ∅)
    by apply insert_non_empty.
  assert (Hwj : job_cache_file "semantic_cache" ∉ read_only empty_disk)
    by apply not_elem_of_empty.
  assert (Hwc : candidate_cache_file "semantic_cache" ∉ read_only empty_disk)
    by apply not_elem_of_empty.
  split; [exact Hwj |]. split; [exact Hwc |]. split; [exact Hne |].
  destruct (candidate_cache_round_trip "semantic_cache" 30 engine_with_entries
              Demo.engine_with_model empty_disk Hwj Hwc Hne) as (_ & Hload & _).
  apply Hload. left. apply insert_non_empty.
Defined.

Lemma job_embedding_survives_restart_witness :
  exists v e1 d1,
    (job_cache_file default_cache_dir ∉ read_only empty_disk)
    /\ job_embeddings_cache Demo.engine_with_model
         !! job_cache_key Demo.engine_with_model Demo.job = None
    /\ encode_job_requirements_to_disk default_cache_dir Demo.job
         Demo.engine_with_model empty_disk = (Some v, e1, d1)
    /\ model (fst (get_semantic_engine true Demo.load_fails None d1)) = None
    /\ fst (encode_job_requirements Demo.job
              (fst (get_semantic_engine true Demo.load_fails None d1)))
       = Some v.
Proof.
  assert (Hw : job_cache_file default_cache_dir ∉ read_only empty_disk)
    by apply not_elem_of_empty.
  assert (Hmiss : job_embeddings_cache Demo.engine_with_model
                    !! job_cache_key Demo.engine_with_model Demo.job = None)
    by apply lookup_empty.
  destruct (encode_job_requirements_to_disk default_cache_dir Demo.job
              Demo.engine_with_model empty_disk) as [[emb e1] d1] eqn:Hrun.
  assert (Hv : emb = Some [1; 0]).
  { pose proof (encode_job_requirements_to_disk_engine default_cache_dir Demo.job
                  Demo.engine_with_model empty_disk) as Hengine.
    rewrite Hrun in Hengine. cbn [fst] in Hengine.
    apply (f_equal fst) in Hengine. cbn [fst] in Hengine. rewrite Hengine.
    reflexivity. }
  subst emb. exists [1; 0], e1, d1.
  split; [exact Hw |]. split; [exact Hmiss |]. split; [reflexivity |].
  assert (Hmodel : model (fst (get_semantic_engine true Demo.load_fails None d1)) = None).
  { unfold get_semantic_engine, _load_embedding_cache. cbn [fst].
    destruct (files d1 !! _) as [[c |] |];
      try destruct (files d1 !! candidate_cache_file _) as [[c' |] |]; reflexivity. }
  assert (Hname : model_name (fst (get_semantic_engine true Demo.load_fails None d1))
                  = model_name Demo.engine_with_model).
  { unfold get_semantic_engine, _load_embedding_cache. cbn [fst].
    destruct (files d1 !! _) as [[c |] |];
      try destruct (files d1 !! candidate_cache_file _) as [[c' |] |]; reflexivity. }
  split; [exact Hmodel |].
  rewrite (job_embedding_survives_restart Demo.job Demo.engine_with_model e1
             empty_disk d1 [1; 0] Demo.load_fails Hw Hmiss Hrun Hname).
  reflexivity.
Defined.

End SemanticEngineStoreSpec.

(* ===================================================================== *)
(** ** More about [enhanced_assessment_engine.py] *)
(* ===================================================================== *)

Module EnhancedEngineProperties.

Import Py EnhancedEngine EnhancedEngineReports EnhancedEngineSpec.

(** *** The counters of [assessment_stats] *)

(** A counter as [get_assessment_statistics] reports it *)
Definition counter (key : string) (st : engine) : Z :=
  default 0%Z (stats_counters (get_assessment_statistics st) !! key).

(** The four counters [__init__] creates are there *)
Definition counters_present (st : engine) : Prop :=
  is_Some (assessment_stats st !! "total_assessments")
  /\ is_Some (assessment_stats st !! "semantic_assessments")
  /\ is_Some (assessment_stats st !! "traditional_assessments")
  /\ is_Some (assessment_stats st !! "fallback_to_traditional").

Lemma counters_present_init se : counters_present (init se).
Proof.
  unfold counters_present, init, initial_stats. cbn. map_lookup.
  repeat split; eexists; reflexivity.
Qed.

(** What one assessment does to [assessment_stats] *)
Definition count_semantic (sem : option (outcome semantic_result))
    (include_traditional : bool) (stats : gmap string Z) : gmap string Z :=
  match sem with
  | Some (Ok _) => alter Z.succ "semantic_assessments" stats
  | Some (Raise _) =>
      if include_traditional then alter Z.succ "fallback_to_traditional" stats
      else stats
  | None => stats
  end.

Definition count_traditional (trad : option (outcome (pyval * pyval)))
    (stats : gmap string Z) : gmap string Z :=
  match trad with
  | Some (Ok _) => alter Z.succ "traditional_assessments" stats
  | _ => stats
  end.

Section Counters.
Context `{PyRuntime}.
Variable assess_candidate : pydict -> pydict -> outcome pyval.

Lemma semantic_block_stats c j s t (result : result_dict) st :
  assessment_stats (snd (semantic_block c j s t result st))
  = count_semantic (semantic_attempt c j s st) t (assessment_stats st).
Proof.
  unfold semantic_block, semantic_attempt.
  destruct (s && _); [| reflexivity].
  unfold _calculate_semantic_assessment.
  destruct (SemanticEngine.calculate_detailed_semantic_score _ _ _) as [d se].
  cbn [fst]. destruct (score_details _ d) as [sr | msg]; [reflexivity |].
  destruct t; reflexivity.
Qed.

Lemma traditional_block_stats c j t (result : result_dict) st :
  assessment_stats (snd (traditional_block assess_candidate c j t result st))
  = count_traditional (traditional_attempt assess_candidate c j t)
      (assessment_stats st).
Proof.
  unfold traditional_block, traditional_attempt.
  destruct t; [| reflexivity].
  destruct (_ ≫= _) as [[final entries] | msg]; reflexivity.
Qed.

Lemma assess_candidate_enhanced_stats c j s t st :
  assessment_stats (snd (assess_candidate_enhanced assess_candidate c j s t st))
  = alter Z.succ "total_assessments"
      (count_traditional (traditional_attempt assess_candidate c j t)
         (count_semantic (semantic_attempt c j s st) t (assessment_stats st))).
Proof.
  unfold assess_candidate_enhanced.
  pose proof (semantic_block_stats c j s t (initial_result c j) st) as Hs.
  destruct (semantic_block _ _ _ _ _ _) as [r1 st1]. cbn [snd] in Hs.
  pose proof (traditional_block_stats c j t r1 st1) as Ht.
  destruct (traditional_block _ _ _ _ _ _) as [r2 st2]. cbn [snd] in Ht.
  cbn [snd bump assessment_stats]. rewrite Ht, Hs. reflexivity.
Qed.

Lemma succ_same (key : string) (stats : gmap string Z) :
  is_Some (stats !! key) ->
  default 0%Z (alter Z.succ key stats !! key) = (default 0%Z (stats !! key) + 1)%Z.
Proof. intros [z Hz]. rewrite lookup_alter_eq, Hz. cbn. lia. Qed.

Lemma is_Some_alter (key key' : string) (stats : gmap string Z) :
  is_Some (alter Z.succ key stats !! key') <-> is_Some (stats !! key').
Proof.
  destruct (decide (key = key')) as [<- | Hne].
  - rewrite lookup_alter_eq. destruct (stats !! key) as [z0 |]; cbn;
      split; intros [z Hz]; try discriminate; eexists; reflexivity.
  - rewrite lookup_alter_ne by exact Hne. reflexivity.
Qed.

(** The number an assessment adds to each counter *)
Definition semantic_count (sem : option (outcome semantic_result)) : Z :=
  match sem with Some (Ok _) => 1 | _ => 0 end.

Definition fallback_count (sem : option (outcome semantic_result))
    (include_traditional : bool) : Z :=
  match sem with
  | Some (Raise _) => if include_traditional then 1 else 0
  | _ => 0
  end.

Definition traditional_count (trad : option (outcome (pyval * pyval))) : Z :=
  match trad with Some (Ok _) => 1 | _ => 0 end.

Lemma count_semantic_other sem t (stats : gmap string Z) (key : string) :
  key <> "semantic_assessments" -> key <> "fallback_to_traditional" ->
  count_semantic sem t stats !! key = stats !! key.
Proof.
  intros H1 H2. unfold count_semantic.
  destruct sem as [[sr | msg] |]; [| destruct t |];
    rewrite ?lookup_alter_ne by congruence; reflexivity.
Qed.

Lemma count_semantic_semantic sem t (stats : gmap string Z) :
  is_Some (stats !! "semantic_assessments") ->
  default 0%Z (count_semantic sem t stats !! "semantic_assessments")
  = (default 0%Z (stats !! "semantic_assessments") + semantic_count sem)%Z.
Proof.
  intros Hsome. unfold count_semantic, semantic_count.
  destruct sem as [[sr | msg] |]; [| destruct t |];
    rewrite ?succ_same by exact Hsome;
    rewrite ?lookup_alter_ne by discriminate; lia.
Qed.

Lemma count_semantic_fallback sem t (stats : gmap string Z) :
  is_Some (stats !! "fallback_to_traditional") ->
  default 0%Z (count_semantic sem t stats !! "fallback_to_traditional")
  = (default 0%Z (stats !! "fallback_to_traditional") + fallback_count sem t)%Z.
Proof.
  intros Hsome. unfold count_semantic, fallback_count.
  destruct sem as [[sr | msg] |]; [| destruct t |];
    rewrite ?succ_same by exact Hsome;
    rewrite ?lookup_alter_ne by discriminate; lia.
Qed.

Lemma count_traditional_other trad (stats : gmap string Z) (key : string) :
  key <> "traditional_assessments" ->
  count_traditional trad stats !! key = stats !! key.
Proof.
  intros H1. unfold count_traditional.
  destruct trad as [[ft | msg] |];
    rewrite ?lookup_alter_ne by congruence; reflexivity.
Qed.

Lemma count_traditional_traditional trad (stats : gmap string Z) :
  is_Some (stats !! "traditional_assessments") ->
  default 0%Z (count_traditional trad stats !! "traditional_assessments")
  = (default 0%Z (stats !! "traditional_assessments") + traditional_count trad)%Z.
Proof.
  intros Hsome. unfold count_traditional, traditional_count.
  destruct trad as [[ft | msg] |]; rewrite ?succ_same by exact Hsome; lia.
Qed.

Lemma count_semantic_present sem t (stats : gmap string Z) (key : string) :
  is_Some (count_semantic sem t stats !! key) <-> is_Some (stats !! key).
Proof.
  unfold count_semantic.
  destruct sem as [[sr | msg] |]; [| destruct t |];
    rewrite ?is_Some_alter; reflexivity.
Qed.

Lemma count_traditional_present trad (stats : gmap string Z) (key : string) :
  is_Some (count_traditional trad stats !! key) <-> is_Some (stats !! key).
Proof.
  unfold count_traditional.
  destruct trad as [[ft | msg] |]; rewrite ?is_Some_alter; reflexivity.
Qed.

Lemma counters_present_after c j s t st :
  counters_present st ->
  counters_present (snd (assess_candidate_enhanced assess_candidate c j s t st)).
Proof.
  unfold counters_present. rewrite assess_candidate_enhanced_stats.
  rewrite !is_Some_alter, !count_traditional_present, !count_semantic_present.
  tauto.
Qed.

Lemma counters_after c j s t st :
  counters_present st ->
  counter "total_assessments"
    (snd (assess_candidate_enhanced assess_candidate c j s t st))
  = (counter "total_assessments" st + 1)%Z
  /\ counter "semantic_assessments"
       (snd (assess_candidate_enhanced assess_candidate c j s t st))
     = (counter "semantic_assessments" st
        + semantic_count (semantic_attempt c j s st))%Z
  /\ counter "traditional_assessments"
       (snd (assess_candidate_enhanced assess_candidate c j s t st))
     = (counter "traditional_assessments" st
        + traditional_count (traditional_attempt assess_candidate c j t))%Z
  /\ counter "fallback_to_traditional"
       (snd (assess_candidate_enhanced assess_candidate c j s t st))
     = (counter "fallback_to_traditional" st
        + fallback_count (semantic_attempt c j s st) t)%Z.
Proof.
  intros (Htotal & Hsem & Htrad & Hfall).
  unfold counter, get_assessment_statistics. cbn [stats_counters].
  rewrite assess_candidate_enhanced_stats.
  generalize (semantic_attempt c j s st) as sem.
  generalize (traditional_attempt assess_candidate c j t) as trad.
  intros trad sem.
  split; [| split; [| split]].
  - rewrite succ_same
      by (rewrite count_traditional_present, count_semantic_present; exact Htotal).
    rewrite count_traditional_other, count_semantic_other by discriminate.
    reflexivity.
  - rewrite lookup_alter_ne, count_traditional_other by discriminate.
    apply count_semantic_semantic. exact Hsem.
  - rewrite lookup_alter_ne by discriminate.
    rewrite count_traditional_traditional
      by (rewrite count_semantic_present; exact Htrad).
    rewrite count_semantic_other by discriminate. reflexivity.
  - rewrite lookup_alter_ne, count_traditional_other by discriminate.
    apply count_semantic_fallback. exact Hfall.
Qed.

(** One assessment and the counters. [total_assessments] grows by one with
    every call. [semantic_assessments] grows by one exactly when the
    semantic path gave the score, which is when the method of the result
    is ['semantic']. [traditional_assessments] grows by one exactly when
    the traditional path returned. [fallback_to_traditional] grows by one
    exactly when the semantic path raised and the traditional path was
    asked for: an engine that is not available is not counted as a
    fallback. No counter ever goes down, and the four counters stay in
    place. *)
Theorem assessment_is_counted (candidate_data job_data : pydict)
    (include_semantic include_traditional : bool) (st : engine) :
  counters_present st ->
  let sem := semantic_attempt candidate_data job_data include_semantic st in
  let trad := traditional_attempt assess_candidate candidate_data job_data
                include_traditional in
  let r := fst (assess_candidate_enhanced assess_candidate candidate_data job_data
                  include_semantic include_traditional st) in
  let st' := snd (assess_candidate_enhanced assess_candidate candidate_data job_data
                    include_semantic include_traditional st) in
  counters_present st'
  /\ counter "total_assessments" st' = (counter "total_assessments" st + 1)%Z
  /\ counter "semantic_assessments" st'
     = (counter "semantic_assessments" st + semantic_count sem)%Z
  /\ (semantic_count sem = 1%Z <-> r !! "assessment_method" = Some (PStr "semantic"))
  /\ counter "traditional_assessments" st'
     = (counter "traditional_assessments" st + traditional_count trad)%Z
  /\ counter "fallback_to_traditional" st'
     = (counter "fallback_to_traditional" st + fallback_count sem include_traditional)%Z
  /\ (SemanticEngine.is_available (semantic_engine st) = false ->
      counter "fallback_to_traditional" st' = counter "fallback_to_traditional" st).
Proof.
  intros Hpresent sem trad r st'.
  destruct (counters_after candidate_data job_data include_semantic
              include_traditional st Hpresent) as (Htotal & Hsem & Htrad & Hfall).
  fold sem trad in Hsem, Htrad, Hfall. fold st' in Htotal, Hsem, Htrad, Hfall.
  split; [apply counters_present_after; exact Hpresent |].
  split; [exact Htotal |]. split; [exact Hsem |].
  split; [| split; [exact Htrad |]; split; [exact Hfall |]].
  - destruct (assess_candidate_enhanced_fields assess_candidate candidate_data
                job_data include_semantic include_traditional st)
      as (_ & Hmethod & _).
    fold sem trad r in Hmethod. rewrite Hmethod.
    destruct sem as [[sr | msg] |]; destruct trad as [[[[] entries] | msg'] |];
      cbn; split; intros Heq; try reflexivity; try discriminate; try lia.
  - intros Hoff. rewrite Hfall.
    assert (Hnone : sem = None).
    { unfold sem, semantic_attempt. rewrite Hoff, andb_false_r. reflexivity. }
    rewrite Hnone. cbn. lia.
Qed.

(** *** The counters after a batch *)

(** The result records the method ['semantic'] *)
Definition is_semantic (r : result_dict) : bool :=
  match r !! "assessment_method" with
  | Some (PStr method) => String.eqb method "semantic"
  | _ => false
  end.

Lemma is_semantic_count c j s t st :
  is_semantic (fst (assess_candidate_enhanced assess_candidate c j s t st))
  = (semantic_count (semantic_attempt c j s st) =? 1)%Z.
Proof.
  unfold is_semantic.
  destruct (assess_candidate_enhanced_fields assess_candidate c j s t st)
    as (_ & Hmethod & _).
  rewrite Hmethod.
  destruct (semantic_attempt c j s st) as [[sr | msg] |];
    destruct (traditional_attempt assess_candidate c j t) as [[[[] entries] | msg'] |];
    reflexivity.
Qed.

Lemma batch_loop_counters (job_data : pydict) (include_semantic : bool) :
  forall (candidates_data : list pydict) (i : nat) (st : engine)
         (results : list result_dict) (st' : engine),
    counters_present st ->
    batch_loop
      (fun c j s t => returning (assess_candidate_enhanced assess_candidate c j s t))
      i candidates_data job_data include_semantic st = (results, st') ->
    counters_present st'
    /\ counter "total_assessments" st'
       = (counter "total_assessments" st + Z.of_nat (length candidates_data))%Z
    /\ counter "semantic_assessments" st'
       = (counter "semantic_assessments" st
          + Z.of_nat (length (List.filter is_semantic results)))%Z.
Proof.
  induction candidates_data as [| c rest IH]; intros i st results st' Hpresent Hrun.
  - cbn in Hrun. injection Hrun as <- <-. cbn. repeat split; try apply Hpresent; lia.
  - cbn [batch_loop] in Hrun. unfold returning at 1 in Hrun.
    pose proof (counters_after c job_data include_semantic true st Hpresent)
      as (Htotal & Hsem & _).
    pose proof (counters_present_after c job_data include_semantic true st Hpresent)
      as Hpresent1.
    pose proof (is_semantic_count c job_data include_semantic true st) as Hmethod.
    destruct (assess_candidate_enhanced assess_candidate c job_data
                include_semantic true st) as [r st1].
    cbn [fst snd catch] in *.
    destruct (batch_loop _ (S i) rest job_data include_semantic st1)
      as [results1 st2] eqn:Hrest.
    injection Hrun as <- <-.
    destruct (IH (S i) st1 results1 st2 Hpresent1 Hrest)
      as (Hpresent2 & Htotal2 & Hsem2).
    split; [exact Hpresent2 |]. split.
    + rewrite Htotal2, Htotal. cbn [length]. lia.
    + rewrite Hsem2, Hsem. cbn [List.filter]. rewrite Hmethod.
      destruct (semantic_attempt c job_data include_semantic st) as [[sr | msg] |];
        cbn [semantic_count Z.eqb Pos.eqb length]; lia.
Qed.

(** The statistics agree with what a batch returns: after
    [batch_assess_candidates], [total_assessments] has grown by the number
    of candidates, which is the number of results, and
    [semantic_assessments] by the number of results whose method is
    ['semantic']. *)
Theorem batch_is_counted (candidates_data : list pydict) (job_data : pydict)
    (include_semantic : bool) (st : engine) :
  counters_present st ->
  let results :=
    fst (batch_assess_candidates assess_candidate candidates_data job_data
           include_semantic st) in
  let st' :=
    snd (batch_assess_candidates assess_candidate candidates_data job_data
           include_semantic st) in
  counters_present st'
  /\ counter "total_assessments" st'
     = (counter "total_assessments" st + Z.of_nat (length candidates_data))%Z
  /\ counter "total_assessments" st'
     = (counter "total_assessments" st + Z.of_nat (length results))%Z
  /\ counter "semantic_assessments" st'
     = (counter "semantic_assessments" st
        + Z.of_nat (length (List.filter is_semantic results)))%Z.
Proof.
  intros Hpresent results st'.
  unfold results, st', batch_assess_candidates.
  assert (Hpre : assessment_stats (snd (precompute_job_embedding job_data
                                          include_semantic st))
                 = assessment_stats st).
  { unfold precompute_job_embedding.
    destruct (include_semantic && _); [| reflexivity].
    destruct (SemanticEngine.encode_job_requirements _ _); reflexivity. }
  destruct (precompute_job_embedding job_data include_semantic st) as [emb st0].
  cbn [snd] in Hpre.
  assert (Hpresent0 : counters_present st0).
  { unfold counters_present. rewrite Hpre. exact Hpresent. }
  destruct (batch_loop _ 0 candidates_data job_data include_semantic st0)
    as [results0 st1] eqn:Hrun.
  destruct (batch_loop_counters job_data include_semantic candidates_data 0 st0
              results0 st1 Hpresent0 Hrun) as (Hp & Htotal & Hsem).
  pose proof (batch_loop_spec
              (fun c j s t => returning (assess_candidate_enhanced assess_candidate c j s t))
              (fun _ => True) job_data include_semantic (fun _ _ _ => I)
              candidates_data 0 st0 I) as [Hlen _].
  rewrite Hrun in Hlen. cbn [fst snd] in *.
  assert (Hc : forall key, counter key st0 = counter key st).
  { intros key. unfold counter, get_assessment_statistics. cbn [stats_counters].
    rewrite Hpre. reflexivity. }
  rewrite !Hc in *.
  split; [exact Hp |]. split; [exact Htotal |]. split; [| exact Hsem].
  rewrite Htotal, Hlen. reflexivity.
Qed.

End Counters.

#[local] Existing Instance Demo.runtime.

Lemma assessment_is_counted_witness :
  counters_present (init Demo.engine_without_deps)
  /\ counter "total_assessments"
       (snd (assess_candidate_enhanced Demo.traditional_72 Demo.empty_candidate
               Demo.job true true (init Demo.engine_without_deps))) = 1%Z
  /\ counter "fallback_to_traditional"
       (snd (assess_candidate_enhanced Demo.traditional_72 Demo.empty_candidate
               Demo.job true true (init Demo.engine_without_deps))) = 0%Z.
Proof.
  pose proof (counters_present_init Demo.engine_without_deps) as Hp.
  split; [exact Hp |].
  destruct (assessment_is_counted Demo.traditional_72 Demo.empty_candidate Demo.job
              true true (init Demo.engine_without_deps) Hp)
    as (_ & Htotal & _ & _ & _ & _ & Hoff).
  split; [rewrite Htotal; reflexivity | rewrite (Hoff eq_refl); reflexivity].
Defined.

Lemma batch_is_counted_witness :
  counters_present (init Demo.engine_with_model)
  /\ counter "total_assessments"
       (snd (batch_assess_candidates Demo.traditional_72
               [Demo.candidate_with_degree; Demo.empty_candidate] Demo.job true
               (init Demo.engine_with_model))) = 2%Z.
Proof.
  pose proof (counters_present_init Demo.engine_with_model) as Hp.
  split; [exact Hp |].
  destruct (batch_is_counted Demo.traditional_72
              [Demo.candidate_with_degree; Demo.empty_candidate] Demo.job true
              (init Demo.engine_with_model) Hp) as (_ & Htotal & _).
  rewrite Htotal. reflexivity.
Defined.

(** *** The weights *)

Lemma weight_some (w : gmap string R) (key : string) (x : R) :
  w !! key = Some x -> weight w key = Ok x.
Proof. intros Hx. unfold weight. rewrite Hx. reflexivity. Qed.

Lemma score_details_ok (w : gmap string R) d r :
  score_details w d = Ok r ->
  exists w_edu w_exp w_train w_bonus,
    w !! "education_relevance" = Some w_edu
    /\ w !! "experience_relevance" = Some w_exp
    /\ w !! "training_relevance" = Some w_train
    /\ w !! "overall_quality_bonus" = Some w_bonus
    /\ SemanticEngine.error d = None
    /\ final_score r
       = PyNum.py_round
           (clamped_score w_edu w_exp w_train w_bonus
              (SemanticEngine.education_relevance d)
              (SemanticEngine.experience_relevance d)
              (SemanticEngine.training_relevance d)
              (SemanticEngine.overall_score d)) 1.
Proof.
  intros Hr.
  assert (Herr : SemanticEngine.error d = None).
  { unfold score_details in Hr.
    destruct (SemanticEngine.error d); [discriminate | reflexivity]. }
  assert (Hlookup : forall key,
            (exists x, w !! key = Some x)
            \/ weight w key = Raise ("'" +:+ key +:+ "'")).
  { intros key. unfold weight.
    destruct (w !! key) as [x |];
      [left; eexists; reflexivity | right; reflexivity]. }
  destruct (Hlookup "education_relevance") as [[we Hwe] | Hno];
    [| unfold score_details in Hr; rewrite Herr, Hno in Hr; discriminate].
  destruct (Hlookup "experience_relevance") as [[wx Hwx] | Hno];
    [| unfold score_details in Hr;
       rewrite Herr, (weight_some _ _ _ Hwe), Hno in Hr; discriminate].
  destruct (Hlookup "training_relevance") as [[wt Hwt] | Hno];
    [| unfold score_details in Hr;
       rewrite Herr, (weight_some _ _ _ Hwe), (weight_some _ _ _ Hwx), Hno in Hr;
       discriminate].
  destruct (Hlookup "overall_quality_bonus") as [[wb Hwb] | Hno];
    [| unfold score_details in Hr;
       rewrite Herr, (weight_some _ _ _ Hwe), (weight_some _ _ _ Hwx),
         (weight_some _ _ _ Hwt), Hno in Hr;
       discriminate].
  destruct (score_details_final w d we wx wt wb Herr
              (weight_some _ _ _ Hwe) (weight_some _ _ _ Hwx)
              (weight_some _ _ _ Hwt) (weight_some _ _ _ Hwb)) as (r' & Hr' & Hf).
  assert (r' = r) by congruence. subst r'.
  exists we, wx, wt, wb. repeat split; assumption.
Qed.

Lemma score_details_error (w : gmap string R) d msg :
  weights_complete w -> score_details w d = Raise msg ->
  SemanticEngine.error d = Some msg.
Proof.
  intros Hw Hraise.
  destruct (SemanticEngine.error d) as [msg' |] eqn:Herr.
  - unfold score_details in Hraise. rewrite Herr in Hraise. congruence.
  - destruct (score_details_range w d Herr Hw) as (sr & Hsr & _). congruence.
Qed.

Section Weights.
Context `{PyRuntime}.
Variable assess_candidate : pydict -> pydict -> outcome pyval.

(** The four weights [_calculate_semantic_assessment] reads are never
    missing. Once they are all there, as after [__init__], an accepted
    [update_semantic_weights] keeps every key the dictionary had, an
    assessment leaves the weights as they are, and the scoring raises only
    to pass on the ['error'] entry of the semantic engine, never a
    [KeyError]. *)
Theorem weights_stay_complete (st : engine) :
  weights_complete (semantic_weights st) ->
  (forall new_weights warned st',
      update_semantic_weights new_weights st = Ok (warned, st') ->
      weights_complete (semantic_weights st')
      /\ (forall key, is_Some (semantic_weights st !! key) ->
                      is_Some (semantic_weights st' !! key))
      /\ (forall key, is_Some (new_weights !! key) ->
                      semantic_weights st' !! key = new_weights !! key))
  /\ (forall c j s t,
        semantic_weights (snd (assess_candidate_enhanced assess_candidate c j s t st))
        = semantic_weights st)
  /\ (forall d msg,
        score_details (semantic_weights st) d = Raise msg ->
        SemanticEngine.error d = Some msg).
Proof.
  intros Hcomplete. split; [| split].
  - intros new_weights warned st' Hupdate.
    unfold update_semantic_weights in Hupdate.
    destruct (missing_key new_weights); [discriminate |].
    injection Hupdate as _ <-. cbn [with_weights semantic_weights].
    assert (Hkeep : forall key, is_Some (semantic_weights st !! key) ->
                      is_Some ((new_weights ∪ semantic_weights st) !! key)).
    { intros key [x Hx]. apply lookup_union_is_Some. right. eexists. exact Hx. }
    split; [| split; [exact Hkeep |]].
    + destruct Hcomplete as (He & Hx & Ht & Hb).
      repeat split; apply Hkeep; assumption.
    + intros key [x Hx]. rewrite Hx. apply lookup_union_Some_l. exact Hx.
  - intros c j s t.
    destruct (assess_candidate_enhanced_setup assess_candidate c j s t st) as [Hw _].
    exact Hw.
  - intros d msg. apply score_details_error. exact Hcomplete.
Qed.

End Weights.

Lemma weights_stay_complete_witness :
  weights_complete (semantic_weights (init Demo.engine_with_model))
  /\ semantic_weights
       (snd (assess_candidate_enhanced Demo.traditional_72 Demo.candidate_with_degree
               Demo.job true true (init Demo.engine_with_model)))
     = default_weights.
Proof.
  split; [apply default_weights_complete |].
  destruct (weights_stay_complete Demo.traditional_72 (init Demo.engine_with_model)
              default_weights_complete) as (_ & Hassess & _).
  apply Hassess.
Defined.

(** *** The final score as a function of the category scores *)

Lemma py_round_mono (x y : R) (n : nat) :
  x <= y -> PyNum.py_round x n <= PyNum.py_round y n.
Proof.
  intros Hxy. unfold PyNum.py_round.
  assert (Hp : 0 < 10 ^ n) by (apply pow_lt; lra).
  apply Rmult_le_compat_r; [left; apply Rinv_0_lt_compat; exact Hp |].
  apply IZR_le, PyNumFacts.round_half_even_mono.
  apply Rmult_le_compat_r; lra.
Qed.

Lemma py_clamp_mono (lo hi x y : R) :
  x <= y -> PyNum.py_max lo (PyNum.py_min hi x) <= PyNum.py_max lo (PyNum.py_min hi y).
Proof.
  intros Hxy. rewrite !PyNumFacts.py_max_Rmax, !PyNumFacts.py_min_Rmin.
  apply Rle_max_compat_l, Rle_min_compat_l. exact Hxy.
Qed.

(** With weights that are not negative, the final semantic score never
    goes down when a category score or the overall similarity goes up, the
    clamp and the rounding included. *)
Theorem final_score_is_monotone (w : gmap string R)
    (d1 d2 : SemanticEngine.semantic_details) (r1 r2 : semantic_result) :
  (forall key x, w !! key = Some x -> 0 <= x) ->
  SemanticEngine.education_relevance d1 <= SemanticEngine.education_relevance d2 ->
  SemanticEngine.experience_relevance d1 <= SemanticEngine.experience_relevance d2 ->
  SemanticEngine.training_relevance d1 <= SemanticEngine.training_relevance d2 ->
  SemanticEngine.overall_score d1 <= SemanticEngine.overall_score d2 ->
  score_details w d1 = Ok r1 ->
  score_details w d2 = Ok r2 ->
  final_score r1 <= final_score r2.
Proof.
  intros Hpos He Hx Ht Ho H1 H2.
  destruct (score_details_ok w d1 r1 H1)
    as (we & wx & wt & wb & Hwe & Hwx & Hwt & Hwb & _ & Hf1).
  destruct (score_details_ok w d2 r2 H2)
    as (we' & wx' & wt' & wb' & Hwe' & Hwx' & Hwt' & Hwb' & _ & Hf2).
  assert (we' = we) by congruence. assert (wx' = wx) by congruence.
  assert (wt' = wt) by congruence. assert (wb' = wb) by congruence.
  subst we' wx' wt' wb'.
  rewrite Hf1, Hf2. unfold clamped_score.
  apply py_round_mono, py_clamp_mono.
  pose proof (Hpos _ _ Hwe). pose proof (Hpos _ _ Hwx).
  pose proof (Hpos _ _ Hwt). pose proof (Hpos _ _ Hwb).
  apply Rmult_le_compat_r; [lra |].
  repeat apply Rplus_le_compat; apply Rmult_le_compat_r; assumption.
Qed.

Lemma default_weights_nonneg key x : default_weights !! key = Some x -> 0 <= x.
Proof.
  unfold default_weights. intros Hx.
  repeat (apply lookup_insert_Some in Hx as [[_ <-] | [_ Hx]]; [lra |]).
  rewrite lookup_empty in Hx. discriminate.
Qed.

Lemma final_score_is_monotone_witness :
  exists r1 r2,
    score_details default_weights (Demo.details 0.5 0.6 0.4 0.7) = Ok r1
    /\ score_details default_weights (Demo.details 0.8 0.6 0.4 0.7) = Ok r2
    /\ final_score r1 <= final_score r2.
Proof.
  destruct (score_details_final default_weights (Demo.details 0.5 0.6 0.4 0.7) _ _ _ _
              eq_refl default_weight_education default_weight_experience
              default_weight_training default_weight_bonus) as (r1 & Hr1 & _).
  destruct (score_details_final default_weights (Demo.details 0.8 0.6 0.4 0.7) _ _ _ _
              eq_refl default_weight_education default_weight_experience
              default_weight_training default_weight_bonus) as (r2 & Hr2 & _).
  exists r1, r2. split; [exact Hr1 |]. split; [exact Hr2 |].
  apply (final_score_is_monotone default_weights (Demo.details 0.5 0.6 0.4 0.7)
           (Demo.details 0.8 0.6 0.4 0.7) r1 r2 default_weights_nonneg);
    simpl; try lra; assumption.
Defined.

(** *** [compare_scoring_methods] *)

Lemma difference_category_cases (x : R) :
  (Rabs x < 5 -> difference_category x = "similar"%string)
  /\ (10 < x -> difference_category x = "semantic_higher"%string)
  /\ (x < -10 -> difference_category x = "traditional_higher"%string)
  /\ (5 <= Rabs x <= 10 -> difference_category x = "moderate_difference"%string).
Proof.
  unfold difference_category.
  destruct (Rlt_dec (Rabs x) 5) as [Hs | Hs].
  - repeat split; intros Hx; try reflexivity; exfalso;
      revert Hs Hx; unfold Rabs; destruct (Rcase_abs x); lra.
  - destruct (Rlt_dec 10 x) as [Hh | Hh].
    + repeat split; intros Hx; try reflexivity; exfalso;
        revert Hs Hx Hh; unfold Rabs; destruct (Rcase_abs x); lra.
    + destruct (Rlt_dec x (-10)) as [Hl | Hl].
      * repeat split; intros Hx; try reflexivity; exfalso;
          revert Hs Hx Hh Hl; unfold Rabs; destruct (Rcase_abs x); lra.
      * repeat split; intros Hx; try reflexivity; exfalso;
          revert Hs Hx Hh Hl; unfold Rabs; destruct (Rcase_abs x); lra.
Qed.

Section Comparison.
Context `{PyRuntime}.
Variable assess_candidate : pydict -> pydict -> outcome pyval.

(** The two scores [compare_scoring_methods] reads *)
Lemma compared_scores (candidate_data job_data : pydict) (st : engine) :
  let r := fst (assess_candidate_enhanced assess_candidate candidate_data job_data
                  true true st) in
  fst (compare_scoring_methods assess_candidate candidate_data job_data st)
  = (score_difference ←
       py_sub (default (PInt 0) (r !! "semantic_score"))
              (default (PInt 0) (r !! "traditional_score"));
     Ok (<["candidate_id" := dict_get candidate_data "id" PNone]>
         (<["job_id" := dict_get job_data "id" PNone]>
         (<["semantic_score" := default (PInt 0) (r !! "semantic_score")]>
         (<["traditional_score" := default (PInt 0) (r !! "traditional_score")]>
         (<["score_difference" := rnd score_difference 1]>
         (<["relative_difference_percent" :=
              rnd (score_difference
                   / PyNum.py_max
                       (default 0
                          (number (default (PInt 0) (r !! "traditional_score")))) 1
                   * 100) 1]>
         (<["difference_category" := PStr (difference_category score_difference)]>
         (<["semantic_breakdown" :=
              default (PDict []) (r !! "semantic_breakdown")]>
         (<["traditional_breakdown" :=
              default (PDict []) (r !! "traditional_breakdown")]>
          (∅ : result_dict)))))))))))
  /\ snd (compare_scoring_methods assess_candidate candidate_data job_data st)
     = snd (assess_candidate_enhanced assess_candidate candidate_data job_data
              true true st).
Proof.
  intros r. unfold r, compare_scoring_methods.
  destruct (assess_candidate_enhanced _ _ _ _ _ _) as [assessment st1].
  split; reflexivity.
Qed.

(** [compare_scoring_methods] needs both scores. It raises, with nothing
    to handle the [TypeError], exactly when the assessment it runs has no
    semantic score or a traditional score that is not a number; so it
    raises whenever the semantic engine is not available, and whenever
    [assess_candidate] raises. The assessment has been counted by then. *)
Theorem comparison_needs_both_scores (candidate_data job_data : pydict)
    (st : engine) :
  let r := fst (assess_candidate_enhanced assess_candidate candidate_data job_data
                  true true st) in
  ((exists msg,
      fst (compare_scoring_methods assess_candidate candidate_data job_data st)
      = Raise msg)
   <-> r !! "semantic_score" = Some PNone
       \/ number (default (PInt 0) (r !! "traditional_score")) = None)
  /\ (SemanticEngine.is_available (semantic_engine st) = false ->
      exists msg,
        fst (compare_scoring_methods assess_candidate candidate_data job_data st)
        = Raise msg)
  /\ (forall msg_t,
        assess_candidate candidate_data job_data = Raise msg_t ->
        exists msg,
          fst (compare_scoring_methods assess_candidate candidate_data job_data st)
          = Raise msg)
  /\ assessment_stats
       (snd (compare_scoring_methods assess_candidate candidate_data job_data st))
     = assessment_stats
         (snd (assess_candidate_enhanced assess_candidate candidate_data job_data
                 true true st)).
Proof.
  intros r.
  destruct (compared_scores candidate_data job_data st) as [Hfst Hsnd].
  fold r in Hfst.
  destruct (assess_candidate_enhanced_fields assess_candidate candidate_data job_data
              true true st) as (_ & _ & _ & _ & _ & Hsem & Htrad).
  fold r in Hsem, Htrad.
  assert (Hiff : (exists msg,
            fst (compare_scoring_methods assess_candidate candidate_data job_data st)
            = Raise msg)
          <-> r !! "semantic_score" = Some PNone
              \/ number (default (PInt 0) (r !! "traditional_score")) = None).
  { rewrite Hfst, Hsem. cbn [default]. unfold py_sub.
    destruct (semantic_attempt candidate_data job_data true st) as [[sr | msg] |];
      cbn [expected_semantic number];
      destruct (number (default (PInt 0) (r !! "traditional_score"))) as [t |];
      cbn; split;
      try (intros [msg' Hmsg]; discriminate);
      try (intros [Hs | Ht]; discriminate);
      try (intros _; eexists; reflexivity);
      try (intros _; left; reflexivity);
      try (intros _; right; reflexivity). }
  split; [exact Hiff |]. split; [| split].
  - intros Hoff. apply Hiff. left. rewrite Hsem.
    unfold semantic_attempt. rewrite Hoff. reflexivity.
  - intros msg_t Hraise. apply Hiff. right. rewrite Htrad.
    unfold traditional_attempt. rewrite Hraise. reflexivity.
  - rewrite Hsnd. reflexivity.
Qed.

(** When both scores are there, a float [s] from the semantic path and a
    number [t] from the traditional one, [compare_scoring_methods] returns:
    the difference [s - t] rounded to one decimal, the difference relative
    to [max(t, 1)], a divisor that is never below 1, and a category read
    off the difference before rounding, ['similar'] below 5 in absolute
    value, ['semantic_higher'] above 10, ['traditional_higher'] below -10
    and ['moderate_difference'] in between, 5 and 10 included. *)
Theorem comparison_of_two_scores (candidate_data job_data : pydict)
    (st : engine) (s t : R) (traditional_score : pyval) :
  let r := fst (assess_candidate_enhanced assess_candidate candidate_data job_data
                  true true st) in
  r !! "semantic_score" = Some (PFloat s) ->
  r !! "traditional_score" = Some traditional_score ->
  number traditional_score = Some t ->
  exists out,
    fst (compare_scoring_methods assess_candidate candidate_data job_data st) = Ok out
    /\ out !! "semantic_score" = Some (PFloat s)
    /\ out !! "traditional_score" = Some traditional_score
    /\ out !! "score_difference" = Some (PFloat (PyNum.py_round (s - t) 1))
    /\ out !! "relative_difference_percent"
       = Some (PFloat (PyNum.py_round ((s - t) / Rmax t 1 * 100) 1))
    /\ 1 <= Rmax t 1
    /\ (Rabs (s - t) < 5 ->
        out !! "difference_category" = Some (PStr "similar"))
    /\ (10 < s - t ->
        out !! "difference_category" = Some (PStr "semantic_higher"))
    /\ (s - t < -10 ->
        out !! "difference_category" = Some (PStr "traditional_higher"))
    /\ (5 <= Rabs (s - t) <= 10 ->
        out !! "difference_category" = Some (PStr "moderate_difference")).
Proof.
  intros r Hs Ht Hnum.
  destruct (compared_scores candidate_data job_data st) as [Hfst _].
  fold r in Hfst. rewrite Hs, Ht in Hfst. unfold default at 1 2 3 4 5 in Hfst.
  cbn [from_option Datatypes.id] in Hfst.
  unfold py_sub in Hfst. rewrite Hnum in Hfst.
  cbn [number default from_option Datatypes.id mbind outcome_bind] in Hfst.
  eexists. split; [exact Hfst |].
  destruct (difference_category_cases (s - t)) as (Hc1 & Hc2 & Hc3 & Hc4).
  map_lookup. unfold rnd. rewrite PyNumFacts.py_max_Rmax.
  split; [reflexivity |]. split; [reflexivity |]. split; [reflexivity |].
  split; [reflexivity |]. split; [apply Rmax_r |].
  repeat split; intros Hx; [rewrite Hc1 | rewrite Hc2 | rewrite Hc3 | rewrite Hc4];
    try reflexivity; assumption.
Qed.

End Comparison.

Lemma comparison_needs_both_scores_witness :
  SemanticEngine.is_available (semantic_engine (init Demo.engine_without_deps)) = false
  /\ exists msg,
       fst (compare_scoring_methods Demo.traditional_72 Demo.candidate_with_degree
              Demo.job (init Demo.engine_without_deps)) = Raise msg.
Proof.
  split; [reflexivity |].
  destruct (comparison_needs_both_scores Demo.traditional_72
              Demo.candidate_with_degree Demo.job (init Demo.engine_without_deps))
    as (_ & Hoff & _).
  apply Hoff. reflexivity.
Defined.

Lemma comparison_of_two_scores_witness :
  exists s out,
    fst (assess_candidate_enhanced Demo.traditional_72 Demo.candidate_with_degree
           Demo.job true true (init Demo.engine_with_model)) !! "semantic_score"
    = Some (PFloat s)
    /\ fst (assess_candidate_enhanced Demo.traditional_72 Demo.candidate_with_degree
              Demo.job true true (init Demo.engine_with_model)) !! "traditional_score"
       = Some (PFloat 72)
    /\ number (PFloat 72) = Some 72
    /\ fst (compare_scoring_methods Demo.traditional_72 Demo.candidate_with_degree
              Demo.job (init Demo.engine_with_model)) = Ok out
    /\ out !! "score_difference" = Some (PFloat (PyNum.py_round (s - 72) 1)).
Proof.
  destruct (semantic_attempt_succeeds Demo.candidate_with_degree Demo.job
              (init Demo.engine_with_model) ["Education:  PhD from MIT"%string]
              engine_with_model_works default_weights_complete eq_refl eq_refl)
    as (sr & _ & Hattempt & _).
  destruct (assess_candidate_enhanced_fields Demo.traditional_72
              Demo.candidate_with_degree Demo.job true true
              (init Demo.engine_with_model))
    as (_ & _ & _ & _ & _ & Hsem & Htrad).
  rewrite Hattempt in Hsem. cbn [expected_semantic] in Hsem.
  change (expected_traditional
            (traditional_attempt Demo.traditional_72 Demo.candidate_with_degree
               Demo.job true)) with (PFloat 72) in Htrad.
  destruct (comparison_of_two_scores Demo.traditional_72 Demo.candidate_with_degree
              Demo.job (init Demo.engine_with_model) (final_score sr) 72 (PFloat 72)
              Hsem Htrad eq_refl)
    as (out & Hout & _ & _ & Hdiff & _).
  exists (final_score sr), out.
  split; [exact Hsem |]. split; [exact Htrad |]. split; [reflexivity |].
  split; [exact Hout | exact Hdiff].
Defined.

(** *** The clamp *)

Section Clamp.
Context `{PyRuntime}.

(** With weights that are not negative and sum to at most 1, as the
    default weights do, the clamp of [_calculate_semantic_assessment] never
    changes a score: the semantic engine returns scores in [0, 1], so the
    weighted sum times 100 already lies in [0, 100], and the final score is
    that sum rounded to one decimal. *)
Theorem clamp_is_idle (candidate_data job_data : pydict) (st : engine)
    (w_edu w_exp w_train w_bonus : R) (sr : semantic_result) :
  semantic_weights st !! "education_relevance" = Some w_edu ->
  semantic_weights st !! "experience_relevance" = Some w_exp ->
  semantic_weights st !! "training_relevance" = Some w_train ->
  semantic_weights st !! "overall_quality_bonus" = Some w_bonus ->
  0 <= w_edu -> 0 <= w_exp -> 0 <= w_train -> 0 <= w_bonus ->
  w_edu + w_exp + w_train + w_bonus <= 1 ->
  fst (_calculate_semantic_assessment candidate_data job_data st) = Ok sr ->
  let d := fst (SemanticEngine.calculate_detailed_semantic_score candidate_data
                  job_data (semantic_engine st)) in
  let raw := (SemanticEngine.education_relevance d * w_edu
              + SemanticEngine.experience_relevance d * w_exp
              + SemanticEngine.training_relevance d * w_train
              + SemanticEngine.overall_score d * w_bonus) * 100 in
  0 <= raw <= 100
  /\ PyNum.py_max 0 (PyNum.py_min 100 raw) = raw
  /\ final_score sr = PyNum.py_round raw 1.
Proof.
  intros Hwe Hwx Hwt Hwb He Hx Ht Hb Hsum Hrun.
  pose proof (SemanticEngineProperties.detailed_scores_range candidate_data job_data
                (semantic_engine st)) as (Ro & Re & Rx & Rt).
  unfold _calculate_semantic_assessment in Hrun.
  destruct (SemanticEngine.calculate_detailed_semantic_score candidate_data job_data
              (semantic_engine st)) as [d se].
  cbn [fst] in *. cbn zeta.
  match goal with |- 0 <= ?r <= 100 /\ _ => set (raw := r) end.
  destruct (score_details_ok _ _ _ Hrun)
    as (we & wx & wt & wb & Hwe' & Hwx' & Hwt' & Hwb' & _ & Hfinal).
  assert (we = w_edu) by congruence. assert (wx = w_exp) by congruence.
  assert (wt = w_train) by congruence. assert (wb = w_bonus) by congruence.
  subst we wx wt wb.
  assert (Hraw : 0 <= raw <= 100).
  { unfold raw. split.
    - apply Rmult_le_pos; [| lra].
      repeat apply Rplus_le_le_0_compat; apply Rmult_le_pos; lra.
    - assert (Hle : SemanticEngine.education_relevance d * w_edu
                    + SemanticEngine.experience_relevance d * w_exp
                    + SemanticEngine.training_relevance d * w_train
                    + SemanticEngine.overall_score d * w_bonus
                    <= 1 * w_edu + 1 * w_exp + 1 * w_train + 1 * w_bonus).
      { repeat apply Rplus_le_compat; apply Rmult_le_compat_r; lra. }
      lra. }
  assert (Hclamp : PyNum.py_max 0 (PyNum.py_min 100 raw) = raw)
    by (apply PyNumFacts.py_clamp_id; exact Hraw).
  split; [exact Hraw |]. split; [exact Hclamp |].
  rewrite Hfinal. unfold clamped_score. fold raw. rewrite Hclamp. reflexivity.
Qed.

End Clamp.

Lemma clamp_is_idle_witness :
  exists sr,
    fst (_calculate_semantic_assessment Demo.candidate_with_degree Demo.job
           (init Demo.engine_with_model)) = Ok sr
    /\ 0 <= final_score sr <= 100.
Proof.
  destruct (semantic_attempt_succeeds Demo.candidate_with_degree Demo.job
              (init Demo.engine_with_model) ["Education:  PhD from MIT"%string]
              engine_with_model_works default_weights_complete eq_refl eq_refl)
    as (sr & Hrun & _ & _).
  exists sr. split; [exact Hrun |].
  assert (Hwe : semantic_weights (init Demo.engine_with_model)
                  !! "education_relevance" = Some 0.35)
    by (cbn; unfold default_weights; map_lookup; reflexivity).
  assert (Hwx : semantic_weights (init Demo.engine_with_model)
                  !! "experience_relevance" = Some 0.45)
    by (cbn; unfold default_weights; map_lookup; reflexivity).
  assert (Hwt : semantic_weights (init Demo.engine_with_model)
                  !! "training_relevance" = Some 0.15)
    by (cbn; unfold default_weights; map_lookup; reflexivity).
  assert (Hwb : semantic_weights (init Demo.engine_with_model)
                  !! "overall_quality_bonus" = Some 0.05)
    by (cbn; unfold default_weights; map_lookup; reflexivity).
  destruct (clamp_is_idle Demo.candidate_with_degree Demo.job
              (init Demo.engine_with_model) 0.35 0.45 0.15 0.05 sr
              Hwe Hwx Hwt Hwb) as (Hraw & _ & Hfinal); try lra; [exact Hrun |].
  rewrite Hfinal. apply (PyNumFacts.py_round_range _ 1 0 100). exact Hraw.
Defined.

(** *** What every result says *)

Section Results.
Context `{PyRuntime}.
Variable assess_candidate : pydict -> pydict -> outcome pyval.



Ltac closing_message :=
  cbn;
  first
    [ reflexivity
    | discriminate
    | (left; reflexivity)
    | (right; reflexivity)
    | (right; left; reflexivity)
    | (right; right; left; reflexivity)
    | (let Hx := fresh "Hx" in
       intros Hx; first
         [ discriminate Hx
         | reflexivity
         | (left; reflexivity)
         | (right; reflexivity)
         | (right; left; reflexivity)
         | (right; right; left; reflexivity)
         | (exfalso; cbn in Hx;
            repeat (destruct Hx as [Hx | Hx]; [discriminate Hx |]);
            first [contradiction | discriminate Hx]) ]) ].

(** The fallback policy on the two attempts: the mark and its reason *)
Lemma failed_policy (sem : option (outcome semantic_result))
    (trad : option (outcome (pyval * pyval))) :
  (expected_method sem trad = "failed"%string
   <-> In "No assessment method succeeded"%string (expected_errors sem trad))
  /\ (expected_method sem trad = "failed"%string ->
      expected_score sem trad = PInt 0)
  /\ (expected_method sem trad = "failed"%string ->
      last (expected_errors sem trad)
      = Some "No assessment method succeeded"%string)
  /\ (expected_errors sem trad = [] ->
      expected_method sem trad = "semantic"%string
      \/ expected_method sem trad = "traditional"%string).
Proof.
  destruct sem as [[sr | msg] |]; destruct trad as [[[[] entries] | msg'] |];
    repeat match goal with
           | |- _ /\ _ => split
           | |- _ <-> _ => split
           end;
    closing_message.
Qed.

Lemma in_map_PStr (x : string) (l : list string) :
  In (PStr x) (map PStr l) <-> In x l.
Proof.
  split.
  - intros Hin. apply in_map_iff in Hin as (y & Hy & Hin). congruence.
  - apply in_map.
Qed.

Lemma last_map_PStr (l : list string) : last (map PStr l) = PStr <$> last l.
Proof.
  induction l as [| x [| y l] IH]; try reflexivity.
  exact IH.
Qed.

(** A result is marked ['failed'] exactly when its error list holds
    ['No assessment method succeeded'], which is then its last entry, and
    its recommended score is then the integer 0: no result carries the
    mark without the reason, or the reason without the mark. A result with
    no error at all has its score from one of the two paths. *)
Theorem failed_results_are_explained (candidate_data job_data : pydict)
    (include_semantic include_traditional : bool) (st : engine) :
  let r := fst (assess_candidate_enhanced assess_candidate candidate_data job_data
                  include_semantic include_traditional st) in
  exists errs,
    r !! "errors" = Some (PList errs)
    /\ (r !! "assessment_method" = Some (PStr "failed")
        <-> In (PStr "No assessment method succeeded") errs)
    /\ (r !! "assessment_method" = Some (PStr "failed") ->
        r !! "recommended_score" = Some (PInt 0)
        /\ last errs = Some (PStr "No assessment method succeeded"))
    /\ (errs = [] ->
        r !! "assessment_method" = Some (PStr "semantic")
        \/ r !! "assessment_method" = Some (PStr "traditional")).
Proof.
  intros r.
  destruct (assess_candidate_enhanced_fields assess_candidate candidate_data job_data
              include_semantic include_traditional st)
    as (Hscore & Hmethod & Herrors & _).
  fold r in Hscore, Hmethod, Herrors. rewrite Hscore, Hmethod, Herrors.
  destruct (failed_policy
              (semantic_attempt candidate_data job_data include_semantic st)
              (traditional_attempt assess_candidate candidate_data job_data
                 include_traditional))
    as (Hiff & Hzero & Hlast & Hnone).
  eexists. split; [reflexivity |].
  rewrite in_map_PStr, last_map_PStr.
  split; [| split].
  - rewrite <- Hiff. split; [intros [= Hm]; exact Hm | intros ->; reflexivity].
  - intros [= Hm]. rewrite (Hzero Hm), (Hlast Hm). split; reflexivity.
  - intros Hnil. apply map_eq_nil in Hnil.
    destruct (Hnone Hnil) as [-> | ->]; [left | right]; reflexivity.
Qed.

End Results.

End EnhancedEngineProperties.
